(** * SOCKS5 credential monitor: kernel classifier and user-space reconstruction

    A shallow embedding of
    - [src/pkg/interceptor/enhanced_socks5_monitor.go] (package [interceptor],
      the session reconstruction engine), and
    - [src/socks5_monitor_container.c] (the eBPF frame classifier and
      credential extractor),
    followed by the properties of the specification that were checked on it.

    Conventions of the embedding.
    - A Go [[]byte] is a [list byte]; a Go [string] is a [string] (both are
      plain byte sequences, [string(b)] is [string_of_list_byte b]).
    - Go [int] values are unbounded [Z]: every sum below is at most a few
      times 4096 and never wraps at 64 bits.  [uint16] arithmetic is written
      with its reduction modulo 2^16.
    - A run-time panic (index or slice out of range) is the result [None].
    - [time.Now()] reads the next value of a clock oracle, so that two calls
      in one handler may return different instants.
    - Lines that only write to the log ([log.Printf]) do not touch the state
      and are left out; the reads they perform on the payload are kept. *)

From Stdlib Require Import ZArith String Strings.Byte DecimalString Lia.
From stdpp Require Import gmap strings list fin_maps.

Local Open Scope Z_scope.

(** ** Go primitives *)

(** [len(data)] *)
Definition len {A} (data : list A) : Z := Z.of_nat (length data).

(** The numeric value of a byte. *)
Definition u8 (b : byte) : Z := Z.of_N (Byte.to_N b).

(** [data[i]]: panics unless [0 <= i < len(data)]. *)
Definition index (data : list byte) (i : Z) : option byte :=
  if (0 <=? i) && (i <? len data) then data !! Z.to_nat i else None.

(** [data[lo:hi]]: Go panics unless [0 <= lo <= hi <= cap(data)]; the model
    asks for [hi <= len(data)], which is stronger. *)
Definition slice (data : list byte) (lo hi : Z) : option (list byte) :=
  if (0 <=? lo) && (lo <=? hi) && (hi <=? len data)
  then Some (take (Z.to_nat (hi - lo)) (drop (Z.to_nat lo) data))
  else None.

(** [%d] of a non-negative integer. *)
Definition itoa (n : Z) : string := NilZero.string_of_uint (N.to_uint (Z.to_N n)).

(** Go's short-circuit [&&] over operands that may panic. *)
Definition andM (a b : option bool) : option bool :=
  x ← a; if x : bool then b else Some false.
Infix "&&&" := andM (at level 40, left associativity).

(** [data[i] == v] and [data[i] >= v] *)
Definition byte_eq (data : list byte) (i v : Z) : option bool :=
  b ← index data i; Some (u8 b =? v).
Definition byte_ge (data : list byte) (i v : Z) : option bool :=
  b ← index data i; Some (v <=? u8 b).

(** *** package [time] *)

(** A [time.Time] is a number of nanoseconds counted from the zero [Time];
    a [time.Duration] is a signed 64-bit number of nanoseconds. *)
Definition Second : Z := 1000000000.
Definition Minute : Z := 60 * Second.
Definition maxDuration : Z := 2 ^ 63 - 1.
Definition minDuration : Z := - 2 ^ 63.
Definition zeroTime : Z := 0.

(** [t.Sub(u)], which saturates at the largest and smallest [Duration]. *)
Definition Sub (t u : Z) : Z := Z.max minDuration (Z.min maxDuration (t - u)).

(** ** The reconstruction engine (Go) *)

Module Interceptor.

Record SOCKS5Session := {
  SessionID : string;
  ProxyIP : string;
  ProxyPort : Z;
  Username : string;
  Password : string;
  TargetHost : string;
  TargetPort : Z;
  AuthTime : Z;
  ConnectTime : Z;
  Status : string
}.

Record EnhancedSOCKS5Monitor := {
  targetPID : Z;
  authSessions : gmap string SOCKS5Session;
  packetBuffer : gmap string (list byte);
  lastAuthReport : Z
}.

(** The status texts the code writes. *)
Definition status_connecting : string := "连接中".
Definition status_authenticated : string := "认证成功".
Definition status_connected : string := "连接成功".
Definition status_extracted : string := "认证信息已提取".
Definition status_failed (code : Z) : string :=
  "连接失败(错误码: " +:+ itoa code +:+ ")".

(** One block printed by [printSOCKS5AuthReport]: the fields of the session
    it shows, the pid, and the instant stored in [lastAuthReport] for it. *)
Record AuthReport := {
  rep_at : Z;
  rep_session : SOCKS5Session;
  rep_pid : Z
}.

(** What a method of the monitor can see and change: the monitor itself, the
    reports written to standard output (latest first) and the number of clock
    readings made so far. *)
Record World := {
  mon : EnhancedSOCKS5Monitor;
  stdout : list AuthReport;
  tick : nat
}.

(** State and panic monad of the methods. *)
Definition M (A : Type) : Type := World → option (A * World).

#[global] Instance M_ret : MRet M := λ A a w, Some (a, w).
#[global] Instance M_bind : MBind M :=
  λ A B f m w, match m w with Some (a, w') => f a w' | None => None end.

Definition liftO {A} (o : option A) : M A :=
  λ w, match o with Some a => Some (a, w) | None => None end.
Definition getMon : M EnhancedSOCKS5Monitor := λ w, Some (mon w, w).
Definition putMon (m : EnhancedSOCKS5Monitor) : M unit :=
  λ w, Some (tt, {| mon := m; stdout := stdout w; tick := tick w |}).
Definition println (r : AuthReport) : M unit :=
  λ w, Some (tt, {| mon := mon w; stdout := r :: stdout w; tick := tick w |}).

Definition set_authSessions (m : EnhancedSOCKS5Monitor) (a : gmap string SOCKS5Session) :=
  {| targetPID := targetPID m; authSessions := a;
     packetBuffer := packetBuffer m; lastAuthReport := lastAuthReport m |}.
Definition set_packetBuffer (m : EnhancedSOCKS5Monitor) (b : gmap string (list byte)) :=
  {| targetPID := targetPID m; authSessions := authSessions m;
     packetBuffer := b; lastAuthReport := lastAuthReport m |}.
Definition set_lastAuthReport (m : EnhancedSOCKS5Monitor) (t : Z) :=
  {| targetPID := targetPID m; authSessions := authSessions m;
     packetBuffer := packetBuffer m; lastAuthReport := t |}.

(** [NewEnhancedSOCKS5Monitor] *)
Definition NewEnhancedSOCKS5Monitor (pid : Z) : EnhancedSOCKS5Monitor :=
  {| targetPID := pid; authSessions := ∅; packetBuffer := ∅;
     lastAuthReport := zeroTime |}.

(** [isSOCKS5Traffic] *)
Definition socksports : list Z := [1080; 1081; 7890; 7891; 8080; 8081; 9050; 9051].

Definition isSOCKS5Traffic (data : list byte) (dstPort : Z) : option bool :=
  if existsb (Z.eqb dstPort) socksports then Some true else
  c5 ← Some (2 <=? len data) &&& byte_eq data 0 5;
  if c5 : bool then Some true else
  c1 ← Some (1 <=? len data) &&& byte_eq data 0 1;
  if c1 : bool then Some true else Some false.

(** [accumulatePacket]: append, then cut back to the first 4096 bytes.  A
    slice that was cut back keeps its capacity, so a later [append] may reuse
    the array past the length; the bytes up to the length, the only ones the
    code reads, are those of the list. *)
Definition accumulatePacket (sessionKey : string) (data : list byte) : M unit :=
  m ← getMon;
  let appended :=
    match packetBuffer m !! sessionKey with
    | Some existing => existing ++ data
    | None => data
    end in
  buf ← (if 4096 <? len appended then liftO (slice appended 0 4096)
         else mret appended);
  putMon (set_packetBuffer m (<[sessionKey := buf]> (packetBuffer m))).

(** [getOrCreateSession] *)
Definition getOrCreateSession (sessionKey proxyIP : string) (proxyPort : Z)
  : M SOCKS5Session :=
  m ← getMon;
  match authSessions m !! sessionKey with
  | Some session => mret session
  | None =>
      let session :=
        {| SessionID := sessionKey; ProxyIP := proxyIP; ProxyPort := proxyPort;
           Username := ""; Password := ""; TargetHost := ""; TargetPort := 0;
           AuthTime := zeroTime; ConnectTime := zeroTime;
           Status := status_connecting |} in
      putMon (set_authSessions m (<[sessionKey := session]> (authSessions m)));;
      mret session
  end.

(** The stage tests. *)
Definition isAuthNegotiation (data : list byte) : option bool :=
  Some (3 <=? len data) &&& byte_eq data 0 5 &&& byte_ge data 1 1.

Definition isUsernamePasswordAuth (data : list byte) : option bool :=
  Some (3 <=? len data) &&& byte_eq data 0 1.

Definition isConnectRequest (data : list byte) : option bool :=
  Some (4 <=? len data) &&& byte_eq data 0 5 &&& byte_eq data 1 1.

Definition isConnectResponse (data : list byte) : option bool :=
  Some (4 <=? len data) &&& byte_eq data 0 5 &&& byte_eq data 1 0.

(** [handleAuthNegotiation] only logs; its loop reads [data[2+i]] while
    [i < methodCount && i+2 < len(data)].  [n] counts the iterations left
    before [i] reaches [methodCount]. *)
Fixpoint methods_loop (n : nat) (i : Z) (data : list byte) : option unit :=
  match n with
  | O => Some tt
  | S n' =>
      if i + 2 <? len data
      then _ ← index data (2 + i); methods_loop n' (i + 1) data
      else Some tt
  end.

Definition handleAuthNegotiation (session : SOCKS5Session) (data : list byte)
  : M SOCKS5Session :=
  (if 3 <=? len data then
     b1 ← liftO (index data 1);
     let methodCount := u8 b1 in
     liftO (methods_loop (Z.to_nat methodCount) 0 data)
   else mret tt);;
  mret session.

(** [isPrintableString].  The Go loop ranges over the runes of [s]; a byte
    below 0x80 is its own rune, and the first byte at or above 0x80 that the
    loop meets starts a rune that is at least 0x80 (a decoded code point or
    U+FFFD), where the loop returns false.  So the test is the byte-wise one. *)
Definition isPrintableString (s : string) : bool :=
  let l := Z.of_nat (String.length s) in
  if (l =? 0) || (64 <? l) then false
  else forallb (λ b, negb ((u8 b <? 32) || (126 <? u8 b))) (list_byte_of_string s).

Section WithClock.

(** The successive readings of the clock. *)
Variable clock : nat → Z.

(** [time.Now()] *)
Definition time_Now : M Z :=
  λ w, Some (clock (tick w), {| mon := mon w; stdout := stdout w; tick := S (tick w) |}).

(** [time.Since(t)] *)
Definition time_Since (t : Z) : M Z := now ← time_Now; mret (Sub now t).

(** [printSOCKS5AuthReport] *)
Definition printSOCKS5AuthReport (session : SOCKS5Session) : M unit :=
  m ← getMon;
  d ← time_Since (lastAuthReport m);
  if d <? 1 * Minute then mret tt else
  now ← time_Now;
  putMon (set_lastAuthReport m now);;
  println {| rep_at := now; rep_session := session; rep_pid := targetPID m |}.

(** [handleUsernamePasswordAuth] *)
Definition handleUsernamePasswordAuth (session : SOCKS5Session) (data : list byte)
  : M SOCKS5Session :=
  if len data <? 3 then mret session else
  b0 ← liftO (index data 0);
  if negb (u8 b0 =? 1) then mret session else
  b1 ← liftO (index data 1);
  let usernameLen := u8 b1 in
  if len data <? 2 + usernameLen + 1 then mret session else
  username ← liftO (slice data 2 (2 + usernameLen));
  bp ← liftO (index data (2 + usernameLen));
  let passwordLen := u8 bp in
  if len data <? 2 + usernameLen + 1 + passwordLen then mret session else
  password ← liftO (slice data (2 + usernameLen + 1) (2 + usernameLen + 1 + passwordLen));
  now ← time_Now;
  let session' :=
    {| SessionID := SessionID session; ProxyIP := ProxyIP session;
       ProxyPort := ProxyPort session;
       Username := string_of_list_byte username;
       Password := string_of_list_byte password;
       TargetHost := TargetHost session; TargetPort := TargetPort session;
       AuthTime := now; ConnectTime := ConnectTime session;
       Status := status_authenticated |} in
  printSOCKS5AuthReport session';;
  mret session'.

(** The address of a connect request: [(targetHost, targetPort)], both left
    at their zero values when the bytes for the address type are missing. *)
Definition uint16 (n : Z) : Z := n mod 2 ^ 16.

Definition connectTarget (data : list byte) : option (string * Z) :=
  atyp ← index data 3;
  if u8 atyp =? 1 then
    if 10 <=? len data then
      a ← index data 4; b ← index data 5; c ← index data 6; d ← index data 7;
      hi ← index data 8; lo ← index data 9;
      Some (itoa (u8 a) +:+ "." +:+ itoa (u8 b) +:+ "." +:+ itoa (u8 c) +:+ "." +:+ itoa (u8 d),
            uint16 (uint16 (Z.shiftl (u8 hi) 8) + u8 lo))
    else Some ("", 0)
  else if u8 atyp =? 3 then
    if 5 <=? len data then
      dl ← index data 4;
      let domainLen := u8 dl in
      if 5 + domainLen + 2 <=? len data then
        host ← slice data 5 (5 + domainLen);
        hi ← index data (5 + domainLen); lo ← index data (5 + domainLen + 1);
        Some (string_of_list_byte host, uint16 (uint16 (Z.shiftl (u8 hi) 8) + u8 lo))
      else Some ("", 0)
    else Some ("", 0)
  else if u8 atyp =? 4 then Some ("IPv6地址", 0)
  else Some ("", 0).

(** [handleConnectRequest] *)
Definition handleConnectRequest (session : SOCKS5Session) (data : list byte)
  : M SOCKS5Session :=
  if len data <? 4 then mret session else
  _ ← liftO (index data 1);
  '(targetHost, targetPort) ← liftO (connectTarget data);
  if String.eqb targetHost "" then mret session else
  now ← time_Now;
  let session' :=
    {| SessionID := SessionID session; ProxyIP := ProxyIP session;
       ProxyPort := ProxyPort session;
       Username := Username session; Password := Password session;
       TargetHost := targetHost; TargetPort := targetPort;
       AuthTime := AuthTime session; ConnectTime := now;
       Status := Status session |} in
  (if String.eqb (Username session') "" then mret tt
   else printSOCKS5AuthReport session');;
  mret session'.

Definition set_Status (session : SOCKS5Session) (st : string) : SOCKS5Session :=
  {| SessionID := SessionID session; ProxyIP := ProxyIP session;
     ProxyPort := ProxyPort session;
     Username := Username session; Password := Password session;
     TargetHost := TargetHost session; TargetPort := TargetPort session;
     AuthTime := AuthTime session; ConnectTime := ConnectTime session;
     Status := st |}.

(** [handleConnectResponse] *)
Definition handleConnectResponse (session : SOCKS5Session) (data : list byte)
  : M SOCKS5Session :=
  if 2 <=? len data then
    st ← liftO (index data 1);
    if u8 st =? 0 then mret (set_Status session status_connected)
    else mret (set_Status session (status_failed (u8 st)))
  else mret session.

(** The body of the scan of [searchAuthInData] at offset [i]: the
    credentials found there, if the candidate passes every test. *)
Definition candidateAt (data : list byte) (i : Z) : option (option (string * string)) :=
  c ← byte_eq data i 1 &&& Some (i + 1 <? len data);
  if c : bool then
    ul ← index data (i + 1);
    let usernameLen := u8 ul in
    if (0 <? usernameLen) && (usernameLen <? 64) && (i + 2 + usernameLen <? len data) then
      username ← slice data (i + 2) (i + 2 + usernameLen);
      if i + 2 + usernameLen + 1 <? len data then
        pl ← index data (i + 2 + usernameLen);
        let passwordLen := u8 pl in
        if (0 <? passwordLen) && (passwordLen <? 64)
           && (i + 2 + usernameLen + 1 + passwordLen <=? len data) then
          password ← slice data (i + 2 + usernameLen + 1)
                                (i + 2 + usernameLen + 1 + passwordLen);
          if isPrintableString (string_of_list_byte username)
             && isPrintableString (string_of_list_byte password)
          then Some (Some (string_of_list_byte username, string_of_list_byte password))
          else Some None
        else Some None
      else Some None
    else Some None
  else Some None.

(** The loop [for i := 0; i < len(data)-3; i++]; [n] is the number of
    iterations left, [len(data)-3-i]. *)
Fixpoint searchLoop (n : nat) (i : Z) (session : SOCKS5Session) (data : list byte)
  : M SOCKS5Session :=
  match n with
  | O => mret session
  | S n' =>
      found ← liftO (candidateAt data i);
      match found with
      | Some (username, password) =>
          now ← time_Now;
          let session' :=
            {| SessionID := SessionID session; ProxyIP := ProxyIP session;
               ProxyPort := ProxyPort session;
               Username := username; Password := password;
               TargetHost := TargetHost session; TargetPort := TargetPort session;
               AuthTime := now; ConnectTime := ConnectTime session;
               Status := status_extracted |} in
          printSOCKS5AuthReport session';;
          mret session'
      | None => searchLoop n' (i + 1) session data
      end
  end.

(** [searchAuthInData] *)
Definition searchAuthInData (session : SOCKS5Session) (data : list byte)
  : M SOCKS5Session :=
  if negb (String.eqb (Username session) "") then mret session
  else searchLoop (Z.to_nat (len data - 3)) 0 session data.

(** [analyzeSOCKS5Protocol].  The handlers work on the session the map holds
    under [sessionKey] (a pointer in Go); the model hands them the record and
    stores what they return under the same key. *)
Definition analyzeSOCKS5Protocol (sessionKey : string) (data : list byte)
    (srcIP dstIP : string) (srcPort dstPort : Z) : M unit :=
  if len data <? 2 then mret tt else
  session ← getOrCreateSession sessionKey dstIP dstPort;
  neg ← liftO (isAuthNegotiation data);
  session' ←
    (if neg : bool then handleAuthNegotiation session data else
     upa ← liftO (isUsernamePasswordAuth data);
     if upa : bool then handleUsernamePasswordAuth session data else
     req ← liftO (isConnectRequest data);
     if req : bool then handleConnectRequest session data else
     resp ← liftO (isConnectResponse data);
     if resp : bool then handleConnectResponse session data else
     searchAuthInData session data);
  m ← getMon;
  putMon (set_authSessions m (<[sessionKey := session']> (authSessions m))).

(** [fmt.Sprintf("%s:%d->%s:%d", srcIP, srcPort, dstIP, dstPort)] *)
Definition sessionKeyOf (srcIP dstIP : string) (srcPort dstPort : Z) : string :=
  srcIP +:+ ":" +:+ itoa srcPort +:+ "->" +:+ dstIP +:+ ":" +:+ itoa dstPort.

(** [AnalyzePacket] *)
Definition AnalyzePacket (data : list byte) (srcIP dstIP : string)
    (srcPort dstPort : Z) : M unit :=
  let sessionKey := sessionKeyOf srcIP dstIP srcPort dstPort in
  ok ← liftO (isSOCKS5Traffic data dstPort);
  if negb ok then mret tt else
  accumulatePacket sessionKey data;;
  m ← getMon;
  analyzeSOCKS5Protocol sessionKey (default [] (packetBuffer m !! sessionKey))
    srcIP dstIP srcPort dstPort.

(** [CleanupSessions]: one pass over [authSessions], deleting the session and
    its buffer where [now.Sub(session.AuthTime) > 5*time.Minute]. *)
Definition stale (now : Z) (session : SOCKS5Session) : bool :=
  5 * Minute <? Sub now (AuthTime session).

Definition sweep (now : Z) (m : EnhancedSOCKS5Monitor) : EnhancedSOCKS5Monitor :=
  map_fold
    (λ sessionKey session acc,
       if stale now session then
         set_packetBuffer
           (set_authSessions acc (delete sessionKey (authSessions acc)))
           (delete sessionKey (packetBuffer acc))
       else acc)
    m (authSessions m).

Definition CleanupSessions : M unit :=
  now ← time_Now;
  m ← getMon;
  putMon (sweep now m).

End WithClock.

End Interceptor.

(** ** The frame classifier and credential extractor (eBPF, C) *)

Module Kernel.

(** Sizes, offsets and protocol numbers of the Linux headers the program
    includes ([linux/if_ether.h], [linux/ip.h], [linux/tcp.h], [linux/in.h]). *)
Definition sizeof_ethhdr : Z := 14.
Definition sizeof_iphdr : Z := 20.
Definition sizeof_tcphdr : Z := 20.
Definition ETH_P_IP : Z := 0x0800.
Definition IPPROTO_TCP : Z := 6.

(** A frame is the byte range [skb->data .. skb->data_end); a pointer into
    it is an offset, and a load outside the range is [None]. *)
Definition load8 (frame : list byte) (off : Z) : option Z :=
  u8 <$> index frame off.

(** A 16-bit and a 32-bit field in network byte order, as [bpf_ntohs] and
    [bpf_ntohl] return them. *)
Definition load_be16 (frame : list byte) (off : Z) : option Z :=
  hi ← load8 frame off; lo ← load8 frame (off + 1); Some (hi * 256 + lo).
Definition load_be32 (frame : list byte) (off : Z) : option Z :=
  hi ← load_be16 frame off; lo ← load_be16 frame (off + 2); Some (hi * 65536 + lo).

(** [buf[i] = b] on a fixed array. *)
Definition store (buf : list byte) (i : Z) (b : byte) : option (list byte) :=
  if (0 <=? i) && (i <? len buf) then Some (<[Z.to_nat i := b]> buf) else None.

(** [struct socks5_auth_event] *)
Record socks5_auth_event := {
  pid : Z;
  src_ip : Z;
  dst_ip : Z;
  src_port : Z;
  dst_port : Z;
  username : list byte;
  password : list byte;
  username_len : Z;
  password_len : Z;
  timestamp : Z
}.

(** The two helpers that read the execution context. *)
Record bpf_env := {
  bpf_get_current_pid_tgid : Z;
  bpf_ktime_get_ns : Z
}.

(** The ports the program compares [dst_port] with. *)
Definition socks_ports : list Z := [1080; 1081; 7890; 7891; 8080; 8081].

(** Where the header walk of [container_traffic_monitor] leaves a frame:
    one label per early [return TC_ACT_OK], and [Matching] when control
    reaches the analysis of the payload. *)
Record headers := {
  ip_off : Z;
  tcp_off : Z;
  h_dst_port : Z;
  payload : Z;
  payload_len : Z
}.

Inductive verdict :=
| Truncated
| NotIP
| NotTCP
| NotMatchingPort
| NoPayload
| ShortPayload
| Matching (h : headers).

Definition classify (frame : list byte) : option verdict :=
  let data_end := len frame in
  let eth := 0 in
  if data_end <? eth + sizeof_ethhdr then Some Truncated else
  h_proto ← load_be16 frame (eth + 12);
  if negb (h_proto =? ETH_P_IP) then Some NotIP else
  let ip := eth + sizeof_ethhdr in
  if data_end <? ip + sizeof_iphdr then Some Truncated else
  protocol ← load8 frame (ip + 9);
  if negb (protocol =? IPPROTO_TCP) then Some NotTCP else
  vihl ← load8 frame ip;
  let ihl := Z.land vihl 15 in
  let tcp := ip + ihl * 4 in
  if data_end <? tcp + sizeof_tcphdr then Some Truncated else
  dport ← load_be16 frame (tcp + 2);
  if forallb (λ p, negb (dport =? p)) socks_ports then Some NotMatchingPort else
  offs ← load8 frame (tcp + 12);
  let doff := Z.shiftr offs 4 in
  let pl := tcp + doff * 4 in
  if data_end <=? pl then Some NoPayload else
  let plen := data_end - pl in
  if plen <? 3 then Some ShortPayload else
  Some (Matching {| ip_off := ip; tcp_off := tcp; h_dst_port := dport;
                    payload := pl; payload_len := plen |}).

(** The copy loops
    [for (i = 0; i < n && i < 63; i++) { if (&src[i + 1] > data_end) break; buf[i] = src[i]; }]
    The first argument counts the iterations left before [i] reaches 63; the
    result is the final [i] and the array. *)
Fixpoint copy_loop (k : nat) (i : Z) (frame : list byte) (src n : Z)
    (buf : list byte) : option (Z * list byte) :=
  match k with
  | O => Some (i, buf)
  | S k' =>
      if (i <? n) && (i <? 63) then
        if len frame <? src + i + 1 then Some (i, buf)
        else
          b ← index frame (src + i);
          buf' ← store buf i b;
          copy_loop k' (i + 1) frame src n buf'
      else Some (i, buf)
  end.

(** Copy, then [buf[i] = '\0']. *)
Definition copy_field (frame : list byte) (src n : Z) : option (list byte) :=
  '(i, buf) ← copy_loop 63 0 frame src n (replicate 64 x00);
  store buf i x00.

(** The key of the session cache. *)
Definition session_key (e : socks5_auth_event) : Z :=
  Z.lor (Z.lor (Z.shiftl (src_ip e) 32 mod 2 ^ 64) (Z.shiftl (src_port e) 16))
        (dst_port e).

(** The analysis of a matching payload: the event handed to
    [bpf_perf_event_output] and stored in [socks5_sessions], if any. *)
Definition extract (env : bpf_env) (frame : list byte) (h : headers)
  : option (option socks5_auth_event) :=
  let data_ptr := payload h in
  is_auth ← Some (3 <=? payload_len h) &&& (b ← load8 frame data_ptr; Some (b =? 1));
  if is_auth : bool then
    ulen ← load8 frame (data_ptr + 1);
    if (0 <? ulen) && (ulen <? 64) && (2 + ulen + 1 <=? payload_len h) then
      plen ← load8 frame (data_ptr + 2 + ulen);
      if (0 <? plen) && (plen <? 64) && (2 + ulen + 1 + plen <=? payload_len h) then
        saddr ← load_be32 frame (ip_off h + 12);
        daddr ← load_be32 frame (ip_off h + 16);
        sport ← load_be16 frame (tcp_off h);
        uname ← copy_field frame (data_ptr + 2) ulen;
        passwd ← copy_field frame (data_ptr + 2 + ulen + 1) plen;
        Some (Some {| pid := Z.shiftr (bpf_get_current_pid_tgid env) 32 mod 2 ^ 32;
                      src_ip := saddr; dst_ip := daddr;
                      src_port := sport; dst_port := h_dst_port h;
                      username := uname; password := passwd;
                      username_len := ulen; password_len := plen;
                      timestamp := bpf_ktime_get_ns env |})
      else Some None
    else Some None
  else Some None.

(** [container_traffic_monitor]: the return value is always [TC_ACT_OK];
    what is observable is the event it emits. *)
Definition container_traffic_monitor (env : bpf_env) (frame : list byte)
  : option (option socks5_auth_event) :=
  v ← classify frame;
  match v with
  | Matching h => extract env frame h
  | _ => Some None
  end.

(** The bytes of a field of an event, up to its length byte. *)
Definition event_username (e : socks5_auth_event) : list byte :=
  take (Z.to_nat (username_len e)) (username e).
Definition event_password (e : socks5_auth_event) : list byte :=
  take (Z.to_nat (password_len e)) (password e).

End Kernel.

Import Interceptor.

(** ** Runs of the monitor *)

(** Appending a sequence of fragments to the buffer of one connection. *)
Fixpoint accumulateAll (sessionKey : string) (frags : list (list byte)) : M unit :=
  match frags with
  | [] => mret tt
  | f :: fs => accumulatePacket sessionKey f;; accumulateAll sessionKey fs
  end.

(** The two entry points of the monitor, and a sequence of calls to them. *)
Inductive call :=
| CallAnalyzePacket (data : list byte) (srcIP dstIP : string) (srcPort dstPort : Z)
| CallCleanupSessions.

Definition do_call (clock : nat → Z) (c : call) : M unit :=
  match c with
  | CallAnalyzePacket data srcIP dstIP srcPort dstPort =>
      AnalyzePacket clock data srcIP dstIP srcPort dstPort
  | CallCleanupSessions => CleanupSessions clock
  end.

Fixpoint run (clock : nat → Z) (cs : list call) : M unit :=
  match cs with
  | [] => mret tt
  | c :: cs' => do_call clock c;; run clock cs'
  end.

(** A monitor just returned by [NewEnhancedSOCKS5Monitor], nothing printed
    yet, after [t0] readings of the clock. *)
Definition fresh (pid : Z) (t0 : nat) : World :=
  {| mon := NewEnhancedSOCKS5Monitor pid; stdout := []; tick := t0 |}.

(** The number of reports whose instant lies in the window [t, t + 1min). *)
Definition in_window (t : Z) (r : AuthReport) : bool :=
  (t <=? rep_at r) && (rep_at r <? t + Minute).

Definition reports_in_window (t : Z) (out : list AuthReport) : nat :=
  length (List.filter (in_window t) out).

(** The session stored under a key, and the buffer kept for it. *)
Definition session_at (w : World) (key : string) : option SOCKS5Session :=
  authSessions (mon w) !! key.
Definition buffer_at (w : World) (key : string) : option (list byte) :=
  packetBuffer (mon w) !! key.

(** A username/password frame as the subnegotiation lays it out: version 1,
    the length bytes [ul] and [pl], the two fields, and whatever follows. *)
Definition auth_frame (ul : byte) (uname : list byte) (pl : byte)
    (passwd rest : list byte) : list byte :=
  x01 :: ul :: uname ++ pl :: passwd ++ rest.

(** The clock is monotone. *)
Definition monotone (clock : nat → Z) : Prop :=
  ∀ i j, (i ≤ j)%nat → clock i ≤ clock j.

(** The session after a successful username/password extraction at [now]. *)
Definition authenticated (s : SOCKS5Session) (uname passwd : list byte) (now : Z)
  : SOCKS5Session :=
  {| SessionID := SessionID s; ProxyIP := ProxyIP s; ProxyPort := ProxyPort s;
     Username := string_of_list_byte uname; Password := string_of_list_byte passwd;
     TargetHost := TargetHost s; TargetPort := TargetPort s;
     AuthTime := now; ConnectTime := ConnectTime s;
     Status := status_authenticated |}.

(** The session [getOrCreateSession] creates. *)
Definition new_session (key proxyIP : string) (proxyPort : Z) : SOCKS5Session :=
  {| SessionID := key; ProxyIP := proxyIP; ProxyPort := proxyPort;
     Username := ""; Password := ""; TargetHost := ""; TargetPort := 0;
     AuthTime := zeroTime; ConnectTime := zeroTime;
     Status := status_connecting |}.

(** The world after one more reading of the clock. *)
Definition ticked (w : World) : World :=
  {| mon := mon w; stdout := stdout w; tick := S (tick w) |}.

(** The buffer of [key] after [accumulatePacket]: the first 4096 bytes of
    the old contents followed by the fragment. *)
Definition appended (w : World) (key : string) (data : list byte) : list byte :=
  take (Z.to_nat 4096) (default [] (buffer_at w key) ++ data).

(** The world after [printSOCKS5AuthReport]: one reading of the clock inside
    the cooldown, two readings and one more report outside it. *)
Definition reported (clock : nat → Z) (s : SOCKS5Session) (w : World) : World :=
  if Sub (clock (tick w)) (lastAuthReport (mon w)) <? 1 * Minute then ticked w
  else {| mon := set_lastAuthReport (mon w) (clock (S (tick w)));
          stdout := {| rep_at := clock (S (tick w)); rep_session := s;
                       rep_pid := targetPID (mon w) |} :: stdout w;
          tick := S (S (tick w)) |}.

(** ** Observing a run *)

Definition world_after (clock : nat → Z) (cs : list call) (w : World) : option World :=
  snd <$> run clock cs w.

Definition session_after (clock : nat → Z) (cs : list call) (w : World)
    (key : string) : option SOCKS5Session :=
  w' ← world_after clock cs w; session_at w' key.

Definition reports_after (clock : nat → Z) (cs : list call) (w : World)
  : option (list AuthReport) :=
  stdout <$> world_after clock cs w.

(** The session after [handleConnectRequest] has stored a target at [now]. *)
Definition set_target (s : SOCKS5Session) (host : string) (port now : Z) : SOCKS5Session :=
  {| SessionID := SessionID s; ProxyIP := ProxyIP s; ProxyPort := ProxyPort s;
     Username := Username s; Password := Password s;
     TargetHost := host; TargetPort := port;
     AuthTime := AuthTime s; ConnectTime := now; Status := Status s |}.

(** ** The invariant of the report log *)

(** Reports are listed latest first; each one is at least a minute after
    every earlier one. *)
Fixpoint well_spaced (out : list AuthReport) : Prop :=
  match out with
  | [] => True
  | r :: rest => Forall (λ r', rep_at r' + Minute ≤ rep_at r) rest ∧ well_spaced rest
  end.

Definition report_inv (w : World) : Prop :=
  well_spaced (stdout w) ∧
  Forall (λ r, rep_at r ≤ lastAuthReport (mon w)) (stdout w).

(** A computation that preserves the invariant. *)
Definition keeps {A} (m : M A) : Prop :=
  ∀ w a w', m w = Some (a, w') → report_inv w → report_inv w'.

(** ** The claim about young sessions *)

(** The part of C5 about young sessions, as the specification words it: a
    session that did not exist when the clock was last read, and that the
    reaper meets less than 5 minutes after that reading, is retained. *)
Definition young_sessions_retained (clock : nat → Z) : Prop :=
  ∀ w cs key w2 w3,
    (0 < tick w)%nat → session_at w key = None →
    world_after clock cs w = Some w2 → is_Some (session_at w2 key) →
    clock (tick w2) - clock (tick w - 1)%nat < 5 * Minute →
    world_after clock [CallCleanupSessions] w2 = Some w3 →
    is_Some (session_at w3 key).

(** ** Sample inputs *)

Definition bob_frame : list byte :=
  [x01; x03; x62; x6f; x62; x03; x78; x79; x7a].

Definition connect_example : list byte :=
  [x05; x01; x00; x03; x07; x65; x78; x61; x6d; x70; x6c; x65; x01; xbb].

(** A connect reply with reply code 1 (general failure). *)
Definition connect_failure : list byte :=
  [x05; x01; x00; x01; x00; x00; x00; x00; x00; x00].

(** Declared username length 64, followed by 64 bytes, a password length of
    1 and one byte. *)
Definition ulen64_frame : list byte :=
  [x01; x40] ++ replicate 64 x61 ++ [x01; x70].

(** Username "bob" with a declared password length of 0. *)
Definition plen0_frame : list byte := [x01; x03; x62; x6f; x62; x00].

(** An Ethernet/IPv4/TCP frame with minimal headers around a payload. *)
Definition port_bytes (p : Z) : list byte :=
  [default x00 (Byte.of_N (Z.to_N (p / 256)));
   default x00 (Byte.of_N (Z.to_N (p mod 256)))].

Definition tcp_frame (dport : Z) (pl : list byte) : list byte :=
  replicate 12 x00 ++ [x08; x00]
  ++ [x45] ++ replicate 8 x00 ++ [x06] ++ replicate 2 x00
  ++ [x0a; x00; x00; x01] ++ [x0a; x00; x00; x02]
  ++ [xc0; x00] ++ port_bytes dport ++ replicate 8 x00 ++ [x50] ++ replicate 7 x00
  ++ pl.

(** A clock that starts in the year 1997 and advances one second a reading. *)
Definition clk (n : nat) : Z := (63000000000 + Z.of_nat n) * Second.

Definition env0 : Kernel.bpf_env :=
  {| Kernel.bpf_get_current_pid_tgid := 7 * 2 ^ 32 + 7; Kernel.bpf_ktime_get_ns := 5 |}.

(** A three-byte method offer, which creates a session and authenticates
    nothing. *)
Definition method_offer : list byte := [x05; x01; x00].

(** Declared username and password lengths of 0. *)
Definition zero_len_frame : list byte := [x01; x00; x00].

(** A session with every field at its zero value. *)
Definition blank : SOCKS5Session := new_session "" "" 0.

(** The world after one run of the reaper on a new monitor. *)
Definition after_first_sweep : World :=
  default (fresh 7 0) (world_after clk [CallCleanupSessions] (fresh 7 0)).

(** The world after the first call of the cooldown scenario: "bob" has
    authenticated from source port 49152 and has been reported. *)
Definition after_first_report : World :=
  default (fresh 7 0)
    (world_after clk [CallAnalyzePacket bob_frame "10.0.0.1" "10.0.0.2" 49152 1080]
       (fresh 7 0)).

(** Two sessions for the reaper: one authenticated 400 s before the next
    reading of the clock, one 50 s before it. *)
Definition reaper_world : World :=
  {| mon :=
       {| targetPID := 7;
          authSessions :=
            {[ "old" := authenticated (new_session "old" "10.0.0.2" 1080)
                          [x62; x6f; x62] [x78; x79; x7a] (clk 0);
               "new" := authenticated (new_session "new" "10.0.0.2" 1080)
                          [x62; x6f; x62] [x78; x79; x7a] (clk 350) ]};
          packetBuffer := {[ "old" := bob_frame; "new" := bob_frame ]};
          lastAuthReport := clk 2 |};
     stdout := [];
     tick := 400 |}.

(** ** Further definitions used by the properties of the last part *)

(** Every byte is a printable ASCII character. *)
Definition printable (l : list byte) : Prop := Forall (λ b, 32 ≤ u8 b ≤ 126) l.

(** The session after the fallback scan has stored credentials at [now]. *)
Definition extracted (s : SOCKS5Session) (u p : string) (now : Z) : SOCKS5Session :=
  {| SessionID := SessionID s; ProxyIP := ProxyIP s; ProxyPort := ProxyPort s;
     Username := u; Password := p;
     TargetHost := TargetHost s; TargetPort := TargetPort s;
     AuthTime := now; ConnectTime := ConnectTime s;
     Status := status_extracted |}.

(** What one pass of [analyzeSOCKS5Protocol] can do to the session of its
    connection: identity, proxy and target fields stay, and the status
    stays or becomes one of three texts. *)
Definition session_step (s s' : SOCKS5Session) : Prop :=
  SessionID s' = SessionID s ∧ ProxyIP s' = ProxyIP s ∧ ProxyPort s' = ProxyPort s ∧
  TargetHost s' = TargetHost s ∧ TargetPort s' = TargetPort s ∧
  ConnectTime s' = ConnectTime s ∧
  (Status s' = Status s ∨ Status s' = status_authenticated ∨
   Status s' = status_connected ∨ Status s' = status_extracted).

(** The session a call for [key] starts from. *)
Definition session_before (w : World) (key proxyIP : string) (proxyPort : Z)
  : SOCKS5Session :=
  default (new_session key proxyIP proxyPort) (session_at w key).

(** The world once the fragment is in the buffer of [key]. *)
Definition buffered (w : World) (key : string) (data : list byte) : World :=
  {| mon := set_packetBuffer (mon w)
              (<[key := appended w key data]> (packetBuffer (mon w)));
     stdout := stdout w; tick := tick w |}.

(** The traffic [isSOCKS5Traffic] accepts: one of its ports, or a payload of
    two bytes or more that starts with 0x05, or a payload that starts with
    0x01. *)
Definition accepted (data : list byte) (dstPort : Z) : Prop :=
  In dstPort socksports ∨ (∃ b rest, data = x05 :: b :: rest) ∨ (∃ rest, data = x01 :: rest).

(** The statuses a session can be seen with. *)
Definition reachable_statuses : list string :=
  [status_connecting; status_authenticated; status_connected; status_extracted].

(** What holds of the store after any sequence of calls. *)
Definition store_ok (w : World) : Prop :=
  ∀ key,
    (∀ buf, buffer_at w key = Some buf → len buf ≤ 4096) ∧
    (∀ s, session_at w key = Some s →
          is_Some (buffer_at w key) ∧ SessionID s = key ∧
          TargetHost s = "" ∧ TargetPort s = 0 ∧ ConnectTime s = zeroTime ∧
          Status s ∈ reachable_statuses).

(** The calls that deliver the fragments of one connection in order. *)
Definition deliver (frags : list (list byte)) (srcIP dstIP : string)
    (srcPort dstPort : Z) : list call :=
  map (λ f, CallAnalyzePacket f srcIP dstIP srcPort dstPort) frags.

(** A reply with code 0: 0x05, 0x00 and two bytes or more. *)
Definition success_reply (b2 b3 : byte) (rest : list byte) : list byte :=
  x05 :: x00 :: b2 :: b3 :: rest.

(** A connect request with a domain name: VER CMD RSV 0x03, the length
    byte [dl], the name, the port in two bytes, and whatever follows. *)
Definition domain_request (cmd rsv dl : byte) (domain : list byte) (hi lo : byte)
    (rest : list byte) : list byte :=
  [x05; cmd; rsv; x03; dl] ++ domain ++ hi :: lo :: rest.

(** A connect request with an IPv4 address. *)
Definition ipv4_request (cmd rsv a b c d hi lo : byte) (rest : list byte) : list byte :=
  [x05; cmd; rsv; x01; a; b; c; d; hi; lo] ++ rest.

(** The world after [handleConnectRequest] has stored a target in [s']: a
    report is attempted only if the session has a username. *)
Definition after_target (clock : nat → Z) (s' : SOCKS5Session) (w : World) : World :=
  if String.eqb (Username s') "" then ticked w else reported clock s' (ticked w).

(** The world after a one-byte payload 0x01 on a new monitor: a buffer and
    no session. *)
Definition after_one_byte : World :=
  default (fresh 7 0)
    (world_after clk [CallAnalyzePacket [x01] "10.0.0.1" "10.0.0.2" 49152 1080]
       (fresh 7 0)).

(** The world after the frame of "bob", and one minute of clock readings. *)
Definition a_minute_later : World :=
  {| mon := mon after_first_report; stdout := stdout after_first_report; tick := 70 |}.

(** Junk, then the frame of "bob". *)
Definition junk_then_bob : list byte := [x00; xff; x05] ++ bob_frame.

(** The event the monitor emits for the bob/xyz frame sent from
    10.0.0.1:49152 to 10.0.0.2:1080. *)
Definition bob_event : Kernel.socks5_auth_event :=
  {| Kernel.pid := 7;
     Kernel.src_ip := 167772161; Kernel.dst_ip := 167772162;
     Kernel.src_port := 49152; Kernel.dst_port := 1080;
     Kernel.username := [x62; x6f; x62] ++ replicate 61 x00;
     Kernel.password := [x78; x79; x7a] ++ replicate 61 x00;
     Kernel.username_len := 3; Kernel.password_len := 3;
     Kernel.timestamp := 5 |}.

(** The same event for the frame sent to port 8080. *)
Definition bob_event_8080 : Kernel.socks5_auth_event :=
  {| Kernel.pid := 7;
     Kernel.src_ip := 167772161; Kernel.dst_ip := 167772162;
     Kernel.src_port := 49152; Kernel.dst_port := 8080;
     Kernel.username := [x62; x6f; x62] ++ replicate 61 x00;
     Kernel.password := [x78; x79; x7a] ++ replicate 61 x00;
     Kernel.username_len := 3; Kernel.password_len := 3;
     Kernel.timestamp := 5 |}.

(** ** Basic facts about the primitives *)

Lemma u8_range (b : byte) : 0 ≤ u8 b ≤ 255.
Proof. unfold u8. pose proof (Byte.to_N_bounded b). lia. Qed.

Lemma len_nonneg {A} (l : list A) : 0 ≤ len l.
Proof. unfold len. lia. Qed.

Lemma len_app {A} (l k : list A) : len (l ++ k) = len l + len k.
Proof. unfold len. rewrite length_app. lia. Qed.

Lemma index_lookup (data : list byte) (i : Z) :
  0 ≤ i < len data → ∃ b, index data i = Some b.
Proof.
  intros [H0 H1]. unfold index.
  destruct (Z.leb_spec 0 i); [|lia].
  destruct (Z.ltb_spec i (len data)); [|lia]. simpl.
  apply lookup_lt_is_Some_2. unfold len in *. lia.
Qed.

Lemma index_spec (data : list byte) (i : Z) (b : byte) :
  index data i = Some b ↔ 0 ≤ i < len data ∧ data !! Z.to_nat i = Some b.
Proof.
  unfold index.
  destruct (Z.leb_spec 0 i), (Z.ltb_spec i (len data)); simpl; split;
    try (intros [? ?]; lia); try discriminate; tauto.
Qed.

Lemma slice_eq (data : list byte) (lo hi : Z) :
  0 ≤ lo → lo ≤ hi → hi ≤ len data →
  slice data lo hi = Some (take (Z.to_nat (hi - lo)) (drop (Z.to_nat lo) data)).
Proof.
  intros. unfold slice.
  destruct (Z.leb_spec 0 lo); [|lia].
  destruct (Z.leb_spec lo hi); [|lia].
  destruct (Z.leb_spec hi (len data)); [|lia]. reflexivity.
Qed.

Lemma Sub_ge (t u d : Z) : minDuration < d → d ≤ Sub t u → d ≤ t - u.
Proof. unfold Sub, minDuration. lia. Qed.


(** ** Panic freedom of the reconstruction engine *)

(** Resolve one guarded read: the index is in range by the tests passed. *)
Ltac read_ok :=
  match goal with
  | |- context [index ?d ?i] =>
      let b := fresh "b" in
      let E := fresh "E" in
      destruct (index_lookup d i) as [b E];
      [ pose proof (len_nonneg d); lia
      | rewrite E; simpl; pose proof (u8_range b) ]
  | |- context [slice ?d ?lo ?hi] =>
      rewrite (slice_eq d lo hi) by (pose proof (len_nonneg d); lia); simpl
  end.

(** Split on the next integer test of the goal. *)
Ltac test_split :=
  match goal with
  | |- context [?a <? ?b] => destruct (Z.ltb_spec a b); simpl
  | |- context [?a <=? ?b] => destruct (Z.leb_spec a b); simpl
  | |- context [?a =? ?b] => destruct (Z.eqb_spec a b); simpl
  end.

(** Run a straight-line piece of code to its end. *)
Ltac crunch := repeat first [ solve [eauto] | read_ok | test_split ].

Ltac exec := unfold mbind, M_bind, mret, M_ret, liftO, option_bind; simpl.

Lemma isAuthNegotiation_total data : is_Some (isAuthNegotiation data).
Proof.
  unfold isAuthNegotiation, andM, byte_eq, byte_ge. simpl.
  test_split; [|eauto]. repeat read_ok. repeat test_split; eauto.
Qed.

Lemma isUsernamePasswordAuth_total data : is_Some (isUsernamePasswordAuth data).
Proof.
  unfold isUsernamePasswordAuth, andM, byte_eq. simpl.
  test_split; [|eauto]. repeat read_ok. eauto.
Qed.

Lemma isConnectRequest_total data : is_Some (isConnectRequest data).
Proof.
  unfold isConnectRequest, andM, byte_eq. simpl.
  test_split; [|eauto]. repeat read_ok. repeat test_split; eauto.
Qed.

Lemma isConnectResponse_total data : is_Some (isConnectResponse data).
Proof.
  unfold isConnectResponse, andM, byte_eq. simpl.
  test_split; [|eauto]. repeat read_ok. repeat test_split; eauto.
Qed.

Lemma isSOCKS5Traffic_total data p : is_Some (isSOCKS5Traffic data p).
Proof.
  unfold isSOCKS5Traffic, andM, byte_eq.
  destruct (existsb _ _); [eauto|]. simpl.
  destruct (Z.leb_spec 2 (len data)), (Z.leb_spec 1 (len data)); simpl;
    try lia; eauto; read_ok; repeat test_split; eauto.
Qed.

Section Safety.

Variable clock : nat → Z.

Lemma printSOCKS5AuthReport_total s w : is_Some (printSOCKS5AuthReport clock s w).
Proof.
  unfold printSOCKS5AuthReport, time_Since, time_Now, getMon, putMon, println. exec.
  test_split; eauto.
Qed.

Lemma methods_loop_total n i data : 0 ≤ i → is_Some (methods_loop n i data).
Proof.
  revert i. induction n as [|n IH]; intros i Hi; simpl; [eauto|].
  test_split; [|eauto]. read_ok. apply IH. lia.
Qed.

Lemma handleAuthNegotiation_total s data w :
  is_Some (handleAuthNegotiation s data w).
Proof.
  unfold handleAuthNegotiation. exec.
  test_split; [|eauto]. read_ok.
  destruct (methods_loop_total (Z.to_nat (u8 b)) 0 data) as [[] ->]; [lia|]. eauto.
Qed.

Lemma handleUsernamePasswordAuth_total s data w :
  is_Some (handleUsernamePasswordAuth clock s data w).
Proof.
  unfold handleUsernamePasswordAuth. exec.
  test_split; [eauto|]. read_ok.
  test_split; simpl; [|eauto]. read_ok.
  pose proof (u8_range b0).
  test_split; [eauto|]. read_ok. read_ok.
  pose proof (u8_range b1).
  test_split; [eauto|]. read_ok.
  match goal with |- context [printSOCKS5AuthReport clock ?s ?w] =>
    destruct (printSOCKS5AuthReport_total s w) as [[[] w'] ->] end.
  eauto.
Qed.

Lemma connectTarget_total data : 4 ≤ len data → is_Some (connectTarget data).
Proof. intros H. unfold connectTarget. simpl. crunch. Qed.

Lemma handleConnectRequest_total s data w :
  is_Some (handleConnectRequest clock s data w).
Proof.
  unfold handleConnectRequest. exec.
  test_split; [eauto|]. read_ok.
  destruct (connectTarget_total data) as [[host port] ->]; [lia|]. simpl.
  destruct (String.eqb host ""); [eauto|]. simpl.
  destruct (String.eqb (Username s) ""); simpl; [eauto|].
  match goal with |- context [printSOCKS5AuthReport clock ?s ?w] =>
    destruct (printSOCKS5AuthReport_total s w) as [[[] w'] ->] end.
  eauto.
Qed.

Lemma handleConnectResponse_total s data w :
  is_Some (handleConnectResponse s data w).
Proof.
  unfold handleConnectResponse. exec.
  test_split; [|eauto]. read_ok. test_split; eauto.
Qed.

Lemma candidateAt_total data i :
  0 ≤ i < len data - 3 → is_Some (candidateAt data i).
Proof.
  intros H. unfold candidateAt, andM, byte_eq. simpl. crunch.
  destruct (_ && _); eauto.
Qed.

Lemma searchLoop_total n i s data w :
  0 ≤ i → (n ≠ 0%nat → i + Z.of_nat n ≤ len data - 3) →
  is_Some (searchLoop clock n i s data w).
Proof.
  revert i w. induction n as [|n IH]; intros i w Hi Hn; simpl; [eauto|]. exec.
  specialize (Hn ltac:(lia)).
  destruct (candidateAt_total data i) as [found ->]; [lia|].
  destruct found as [[u p]|].
  - match goal with |- context [printSOCKS5AuthReport clock ?s ?w] =>
      destruct (printSOCKS5AuthReport_total s w) as [[[] w'] ->] end.
    eauto.
  - apply IH; lia.
Qed.

Lemma searchAuthInData_total s data w :
  is_Some (searchAuthInData clock s data w).
Proof.
  unfold searchAuthInData.
  destruct (negb _); [eauto|].
  apply searchLoop_total; lia.
Qed.

Lemma getOrCreateSession_total key ip port w :
  is_Some (getOrCreateSession key ip port w).
Proof.
  unfold getOrCreateSession, getMon, putMon. exec.
  destruct (authSessions (mon w) !! key); eauto.
Qed.

Lemma accumulatePacket_total key data w : is_Some (accumulatePacket key data w).
Proof.
  unfold accumulatePacket, getMon, putMon. exec.
  test_split; [|eauto]. read_ok. eauto.
Qed.

Lemma analyzeSOCKS5Protocol_total key data sip dip sp dp w :
  is_Some (analyzeSOCKS5Protocol clock key data sip dip sp dp w).
Proof.
  unfold analyzeSOCKS5Protocol.
  test_split; [eauto|]. exec.
  destruct (getOrCreateSession_total key dip dp w) as [[s w1] ->].
  destruct (isAuthNegotiation_total data) as [neg ->].
  assert (Hput : ∀ (r : option (SOCKS5Session * World)), is_Some r →
    is_Some (match r with
             | Some (a, w') =>
                 match getMon w' with
                 | Some (a0, w'0) =>
                     putMon (set_authSessions a0 (<[key:=a]> (authSessions a0))) w'0
                 | None => None
                 end
             | None => None
             end)).
  { intros r [[a w'] ->]. unfold getMon, putMon. eauto. }
  destruct neg.
  { apply Hput, handleAuthNegotiation_total. }
  destruct (isUsernamePasswordAuth_total data) as [upa ->].
  destruct upa.
  { apply Hput, handleUsernamePasswordAuth_total. }
  destruct (isConnectRequest_total data) as [req ->].
  destruct req.
  { apply Hput, handleConnectRequest_total. }
  destruct (isConnectResponse_total data) as [resp ->].
  destruct resp.
  { apply Hput, handleConnectResponse_total. }
  apply Hput, searchAuthInData_total.
Qed.

Lemma AnalyzePacket_total data sip dip sp dp w :
  is_Some (AnalyzePacket clock data sip dip sp dp w).
Proof.
  unfold AnalyzePacket. exec.
  destruct (isSOCKS5Traffic_total data dp) as [ok ->].
  destruct ok; simpl; [|eauto].
  destruct (accumulatePacket_total (sessionKeyOf sip dip sp dp) data w) as [[[] w1] ->].
  unfold getMon. apply analyzeSOCKS5Protocol_total.
Qed.

Lemma CleanupSessions_total w : is_Some (CleanupSessions clock w).
Proof. unfold CleanupSessions, time_Now, getMon, putMon. exec. eauto. Qed.

(** Whatever the payload, no operation of the reconstruction engine
    panics: the stage tests, the credential extraction, the parsing of a
    connect request, the fallback scan and the two entry points all return,
    so every index and slice they evaluate is in range.  This says nothing
    yet about what a malformed payload makes them store or print. *)
Theorem engine_never_reads_out_of_range :
  (∀ data,
     is_Some (isAuthNegotiation data) ∧ is_Some (isUsernamePasswordAuth data) ∧
     is_Some (isConnectRequest data) ∧ is_Some (isConnectResponse data)) ∧
  (∀ data dstPort, is_Some (isSOCKS5Traffic data dstPort)) ∧
  (∀ session data w, is_Some (handleAuthNegotiation session data w)) ∧
  (∀ session data w, is_Some (handleUsernamePasswordAuth clock session data w)) ∧
  (∀ session data w, is_Some (handleConnectRequest clock session data w)) ∧
  (∀ session data w, is_Some (handleConnectResponse session data w)) ∧
  (∀ session data w, is_Some (searchAuthInData clock session data w)) ∧
  (∀ data srcIP dstIP srcPort dstPort w,
     is_Some (AnalyzePacket clock data srcIP dstIP srcPort dstPort w)) ∧
  (∀ w, is_Some (CleanupSessions clock w)).
Proof.
  repeat split.
  - apply isAuthNegotiation_total.
  - apply isUsernamePasswordAuth_total.
  - apply isConnectRequest_total.
  - apply isConnectResponse_total.
  - apply isSOCKS5Traffic_total.
  - apply handleAuthNegotiation_total.
  - apply handleUsernamePasswordAuth_total.
  - apply handleConnectRequest_total.
  - apply handleConnectResponse_total.
  - apply searchAuthInData_total.
  - apply AnalyzePacket_total.
  - apply CleanupSessions_total.
Qed.

End Safety.

(** ** Reading a payload at a known position *)

Ltac len_simpl :=
  unfold len in *; repeat rewrite ?length_app, ?length_cons, ?length_nil in *;
  simpl length in *.

Lemma index_at (data pre suf : list byte) (b : byte) (i : Z) :
  data = pre ++ b :: suf → i = len pre → index data i = Some b.
Proof.
  intros -> ->. apply index_spec. split.
  - len_simpl. lia.
  - unfold len. rewrite Nat2Z.id. apply list_lookup_middle. done.
Qed.

Lemma slice_at (data pre out suf : list byte) (lo hi : Z) :
  data = pre ++ out ++ suf → lo = len pre → hi = lo + len out →
  slice data lo hi = Some out.
Proof.
  intros -> -> ->. rewrite slice_eq by (len_simpl; lia). f_equal.
  unfold len. rewrite Nat2Z.id, drop_app_length.
  apply take_app_length'. lia.
Qed.

Section Layout.

Variables (pre : list byte) (ul pl : byte) (uname passwd rest : list byte).

Abbreviation data := (pre ++ auth_frame ul uname pl passwd rest).

Lemma frame_len : len data = len pre + 3 + len uname + len passwd + len rest.
Proof. unfold auth_frame. len_simpl. lia. Qed.

Lemma frame_ver : index data (len pre) = Some x01.
Proof. by apply (index_at _ pre (ul :: uname ++ pl :: passwd ++ rest)). Qed.

Lemma frame_ulen : index data (len pre + 1) = Some ul.
Proof.
  apply (index_at _ (pre ++ [x01]) (uname ++ pl :: passwd ++ rest)).
  - unfold auth_frame. by rewrite <- app_assoc.
  - len_simpl. lia.
Qed.

Lemma frame_uname : slice data (len pre + 2) (len pre + 2 + len uname) = Some uname.
Proof.
  apply (slice_at _ (pre ++ [x01; ul]) _ (pl :: passwd ++ rest)).
  - unfold auth_frame. by rewrite <- app_assoc.
  - len_simpl. lia.
  - done.
Qed.

Lemma frame_plen : index data (len pre + 2 + len uname) = Some pl.
Proof.
  apply (index_at _ (pre ++ [x01; ul] ++ uname) (passwd ++ rest)).
  - unfold auth_frame. by rewrite <- !app_assoc.
  - len_simpl. lia.
Qed.

Lemma frame_passwd :
  slice data (len pre + 2 + len uname + 1) (len pre + 2 + len uname + 1 + len passwd)
  = Some passwd.
Proof.
  apply (slice_at _ (pre ++ [x01; ul] ++ uname ++ [pl]) _ rest).
  - unfold auth_frame. rewrite <- !app_assoc. done.
  - len_simpl. lia.
  - done.
Qed.

End Layout.

Section Extraction.

Variable clock : nat → Z.

Lemma handleUsernamePasswordAuth_frame s ul uname pl passwd rest w :
  u8 ul = len uname → u8 pl = len passwd →
  handleUsernamePasswordAuth clock s (auth_frame ul uname pl passwd rest) w =
  let s' := authenticated s uname passwd (clock (tick w)) in
  match printSOCKS5AuthReport clock s' (ticked w) with
  | Some (_, w') => Some (s', w')
  | None => None
  end.
Proof.
  intros Hu Hp.
  pose proof (frame_len [] ul pl uname passwd rest) as Hlen.
  pose proof (frame_ver [] ul pl uname passwd rest) as H0.
  pose proof (frame_ulen [] ul pl uname passwd rest) as H1.
  pose proof (frame_uname [] ul pl uname passwd rest) as H2.
  pose proof (frame_plen [] ul pl uname passwd rest) as H3.
  pose proof (frame_passwd [] ul pl uname passwd rest) as H4.
  simpl app in *. change (len []) with 0 in *.
  rewrite !Z.add_0_l in *.
  pose proof (len_nonneg uname). pose proof (len_nonneg passwd).
  pose proof (len_nonneg rest).
  unfold handleUsernamePasswordAuth.
  destruct (Z.ltb_spec (len (auth_frame ul uname pl passwd rest)) 3); [lia|].
  unfold mbind at 1, M_bind at 1, liftO at 1. rewrite H0.
  change (negb (u8 x01 =? 1)) with false. cbv iota.
  unfold mbind at 1, M_bind at 1, liftO at 1. rewrite H1. rewrite Hu.
  destruct (Z.ltb_spec (len (auth_frame ul uname pl passwd rest)) (2 + len uname + 1)); [lia|].
  unfold mbind at 1, M_bind at 1, liftO at 1. rewrite H2.
  unfold mbind at 1, M_bind at 1, liftO at 1. rewrite H3. rewrite Hp.
  destruct (Z.ltb_spec (len (auth_frame ul uname pl passwd rest)) (2 + len uname + 1 + len passwd)); [lia|].
  unfold mbind at 1, M_bind at 1, liftO at 1. rewrite H4.
  reflexivity.
Qed.

End Extraction.

(** ** The packet buffer *)

Lemma accumulatePacket_eq key data w :
  accumulatePacket key data w =
  Some (tt, {| mon := set_packetBuffer (mon w)
                        (<[key := appended w key data]> (packetBuffer (mon w)));
               stdout := stdout w; tick := tick w |}).
Proof.
  unfold accumulatePacket, appended, buffer_at, getMon, putMon. exec.
  assert (Hcut : ∀ l : list byte,
    (if 4096 <? len l then liftO (slice l 0 4096) else mret l) w
    = Some (take (Z.to_nat 4096) l, w)).
  { intros l. destruct (Z.ltb_spec 4096 (len l)).
    - rewrite slice_eq by lia. unfold liftO. rewrite drop_0. reflexivity.
    - unfold mret, M_ret. rewrite take_ge by (unfold len in *; lia). reflexivity. }
  destruct (packetBuffer (mon w) !! key) as [existing|]; simpl; rewrite Hcut; done.
Qed.

Lemma take_take_app {A} (n : nat) (l k : list A) :
  take n (take n l ++ k) = take n (l ++ k).
Proof.
  destruct (decide (n ≤ length l)%nat).
  - rewrite !take_app_le by (rewrite ?length_take; lia).
    rewrite take_take. f_equal. lia.
  - rewrite (take_ge l) by lia. done.
Qed.

Lemma len_take_le {A} (n : Z) (l : list A) : 0 ≤ n → len (take (Z.to_nat n) l) ≤ n.
Proof. intros. unfold len. rewrite length_take. lia. Qed.

Lemma accumulateAll_eq key frags w :
  len (default [] (buffer_at w key)) ≤ 4096 →
  ∃ w', accumulateAll key frags w = Some (tt, w') ∧
        stdout w' = stdout w ∧ tick w' = tick w ∧
        authSessions (mon w') = authSessions (mon w) ∧
        default [] (buffer_at w' key)
        = take (Z.to_nat 4096) (default [] (buffer_at w key) ++ concat frags).
Proof.
  revert w. induction frags as [|f fs IH]; intros w Hcap.
  - exists w. simpl. rewrite app_nil_r, take_ge by (unfold len in *; lia). done.
  - simpl. unfold mbind, M_bind. rewrite accumulatePacket_eq.
    match goal with |- context [accumulateAll key fs ?w1] =>
      destruct (IH w1) as (w' & -> & Ho & Ht & Hs & Hb) end.
    { unfold buffer_at. simpl. rewrite lookup_insert_eq. simpl.
      apply len_take_le. lia. }
    exists w'. simpl in *. repeat split; try done.
    rewrite Hb. unfold buffer_at at 1. simpl. rewrite lookup_insert_eq. simpl.
    unfold appended. rewrite take_take_app, app_assoc. done.
Qed.

Section Reports.

Variable clock : nat → Z.

Lemma printSOCKS5AuthReport_eq s w :
  printSOCKS5AuthReport clock s w = Some (tt, reported clock s w).
Proof.
  unfold printSOCKS5AuthReport, reported, time_Since, time_Now, getMon, putMon, println.
  exec. destruct (_ <? _); reflexivity.
Qed.

Lemma set_authSessions_id m : set_authSessions m (authSessions m) = m.
Proof. by destruct m. Qed.

Lemma getOrCreateSession_eq key ip port w :
  getOrCreateSession key ip port w =
  let s0 := default (new_session key ip port) (session_at w key) in
  Some (s0, {| mon := set_authSessions (mon w) (<[key := s0]> (authSessions (mon w)));
               stdout := stdout w; tick := tick w |}).
Proof.
  unfold getOrCreateSession, session_at, getMon, putMon. exec.
  destruct (authSessions (mon w) !! key) as [s|] eqn:E; simpl; [|done].
  rewrite insert_id, set_authSessions_id by done. by destruct w.
Qed.

End Reports.

(** ** A username/password frame through the engine *)

Lemma take_auth_frame ul uname pl passwd rest :
  len uname ≤ 255 → len passwd ≤ 255 →
  ∃ rest', take (Z.to_nat 4096) (auth_frame ul uname pl passwd rest)
           = auth_frame ul uname pl passwd rest'.
Proof.
  intros Hu Hp.
  exists (take (Z.to_nat 4096 - length ([x01; ul] ++ uname ++ [pl] ++ passwd)) rest).
  change (auth_frame ul uname pl passwd rest)
    with ([x01; ul] ++ uname ++ pl :: passwd ++ rest).
  replace ([x01; ul] ++ uname ++ pl :: passwd ++ rest)
    with (([x01; ul] ++ uname ++ [pl] ++ passwd) ++ rest)
    by (by rewrite <- !app_assoc).
  rewrite take_app_ge by (len_simpl; lia).
  unfold auth_frame. by rewrite <- !app_assoc.
Qed.

Lemma auth_frame_stage ul uname pl passwd rest :
  isAuthNegotiation (auth_frame ul uname pl passwd rest) = Some false ∧
  isUsernamePasswordAuth (auth_frame ul uname pl passwd rest) = Some true.
Proof.
  pose proof (frame_len [] ul pl uname passwd rest) as Hlen.
  pose proof (frame_ver [] ul pl uname passwd rest) as H0.
  pose proof (len_nonneg uname). pose proof (len_nonneg passwd).
  pose proof (len_nonneg rest).
  simpl app in *. change (len []) with 0 in *. rewrite !Z.add_0_l in *.
  unfold isAuthNegotiation, isUsernamePasswordAuth, andM, byte_eq, byte_ge.
  rewrite H0.
  destruct (Z.leb_spec 3 (len (auth_frame ul uname pl passwd rest))); [|lia].
  done.
Qed.

Lemma auth_frame_traffic ul uname pl passwd rest dstPort :
  isSOCKS5Traffic (auth_frame ul uname pl passwd rest) dstPort = Some true.
Proof.
  pose proof (frame_len [] ul pl uname passwd rest) as Hlen.
  pose proof (frame_ver [] ul pl uname passwd rest) as H0.
  pose proof (len_nonneg uname). pose proof (len_nonneg passwd).
  pose proof (len_nonneg rest).
  simpl app in *. change (len []) with 0 in *. rewrite !Z.add_0_l in *.
  unfold isSOCKS5Traffic, andM, byte_eq.
  destruct (existsb _ _); [done|]. rewrite H0.
  destruct (Z.leb_spec 2 (len (auth_frame ul uname pl passwd rest))); [|lia].
  destruct (Z.leb_spec 1 (len (auth_frame ul uname pl passwd rest))); [|lia].
  done.
Qed.

Section AuthFrame.

Variable clock : nat → Z.

Lemma analyze_auth_frame key ul uname pl passwd rest sip dip sp dp w :
  u8 ul = len uname → u8 pl = len passwd →
  let s0 := default (new_session key dip dp) (session_at w key) in
  let s' := authenticated s0 uname passwd (clock (tick w)) in
  ∃ w', analyzeSOCKS5Protocol clock key (auth_frame ul uname pl passwd rest)
          sip dip sp dp w = Some (tt, w') ∧
        session_at w' key = Some s' ∧
        stdout w' = stdout (reported clock s' (ticked w)) ∧
        lastAuthReport (mon w') = lastAuthReport (mon (reported clock s' (ticked w))) ∧
        tick w' = tick (reported clock s' (ticked w)) ∧
        packetBuffer (mon w') = packetBuffer (mon w).
Proof.
  intros Hu Hp s0 s'.
  pose proof (frame_len [] ul pl uname passwd rest) as Hlen.
  pose proof (len_nonneg uname). pose proof (len_nonneg passwd).
  pose proof (len_nonneg rest).
  simpl app in *. change (len []) with 0 in *. rewrite !Z.add_0_l in *.
  destruct (auth_frame_stage ul uname pl passwd rest) as [Hneg Hupa].
  unfold analyzeSOCKS5Protocol.
  destruct (Z.ltb_spec (len (auth_frame ul uname pl passwd rest)) 2); [lia|].
  unfold mbind at 1, M_bind at 1. rewrite getOrCreateSession_eq. cbv zeta.
  fold s0.
  unfold mbind at 1, M_bind at 1, liftO at 1. rewrite Hneg.
  unfold mbind at 1, M_bind at 1.
  unfold mbind at 1, M_bind at 1, liftO at 1. rewrite Hupa.
  rewrite handleUsernamePasswordAuth_frame by done. cbv zeta.
  rewrite printSOCKS5AuthReport_eq. simpl tick. fold s'.
  unfold getMon, putMon, mbind, M_bind.
  eexists. split; [reflexivity|].
  unfold session_at, reported, ticked. simpl.
  destruct (_ <? _); simpl; rewrite lookup_insert_eq; done.
Qed.

Lemma AnalyzePacket_auth_frame ul uname pl passwd rest sip dip sp dp w :
  u8 ul = len uname → u8 pl = len passwd →
  let key := sessionKeyOf sip dip sp dp in
  buffer_at w key = None →
  let s0 := default (new_session key dip dp) (session_at w key) in
  let s' := authenticated s0 uname passwd (clock (tick w)) in
  ∃ w', AnalyzePacket clock (auth_frame ul uname pl passwd rest) sip dip sp dp w
        = Some (tt, w') ∧
        session_at w' key = Some s' ∧
        stdout w' = stdout (reported clock s' (ticked w)) ∧
        lastAuthReport (mon w') = lastAuthReport (mon (reported clock s' (ticked w))) ∧
        tick w' = tick (reported clock s' (ticked w)).
Proof.
  intros Hu Hp key Hfresh s0 s'.
  pose proof (u8_range ul). pose proof (u8_range pl).
  unfold AnalyzePacket. fold key.
  unfold mbind at 1, M_bind at 1, liftO at 1. rewrite auth_frame_traffic.
  cbv iota beta. change (negb true) with false. cbv iota.
  unfold mbind at 1, M_bind at 1. rewrite accumulatePacket_eq.
  unfold mbind at 1, M_bind at 1, getMon at 1. simpl mon. simpl packetBuffer.
  rewrite lookup_insert_eq. simpl default.
  unfold appended. rewrite Hfresh. simpl default. rewrite app_nil_l.
  destruct (take_auth_frame ul uname pl passwd rest) as [rest' ->]; [lia..|].
  match goal with |- context [analyzeSOCKS5Protocol clock key ?d sip dip sp dp ?w1] =>
    destruct (analyze_auth_frame key ul uname pl passwd rest' sip dip sp dp w1 Hu Hp)
      as (w' & Hrun & Hs & Ho & Hl & Ht & _) end.
  exists w'. split; [exact Hrun|]. clear Hrun.
  unfold s', s0, reported, ticked, session_at in *. simpl in *.
  destruct (_ <? _); simpl in *; done.
Qed.

End AuthFrame.

(** ** The frame classifier *)

Lemma nibble_low (v : Z) : 0 ≤ Z.land v 15 ≤ 15.
Proof.
  assert (Z.land v 15 = v mod 16) as ->.
  { change 15 with (Z.ones 4). rewrite Z.land_ones by lia. reflexivity. }
  Z.div_mod_to_equations. lia.
Qed.

Lemma nibble_high (v : Z) : 0 ≤ v ≤ 255 → 0 ≤ Z.shiftr v 4 ≤ 15.
Proof.
  intros H.
  assert (Z.shiftr v 4 = v / 16) as ->
    by (rewrite Z.shiftr_div_pow2 by lia; reflexivity).
  Z.div_mod_to_equations. lia.
Qed.

Lemma load8_range frame off v : Kernel.load8 frame off = Some v → 0 ≤ v ≤ 255.
Proof.
  unfold Kernel.load8. destruct (index frame off) as [b|]; simpl; [|done].
  intros [= <-]. apply u8_range.
Qed.

Lemma port_test (p : Z) :
  forallb (λ q, negb (p =? q)) Kernel.socks_ports = false → In p Kernel.socks_ports.
Proof.
  unfold Kernel.socks_ports. simpl.
  repeat match goal with
         | |- context [p =? ?q] =>
             destruct (Z.eqb_spec p q); [subst; simpl; tauto|]; simpl
         end.
  done.
Qed.

Lemma classify_Matching frame h :
  Kernel.classify frame = Some (Kernel.Matching h) →
  In (Kernel.h_dst_port h) Kernel.socks_ports ∧
  3 ≤ Kernel.payload_len h ∧
  Kernel.payload_len h = len frame - Kernel.payload h ∧
  Kernel.load_be16 frame (Kernel.tcp_off h + 2) = Some (Kernel.h_dst_port h) ∧
  Kernel.ip_off h = 14 ∧ Kernel.ip_off h + 20 ≤ len frame ∧
  14 ≤ Kernel.tcp_off h ∧ Kernel.tcp_off h + 20 ≤ len frame ∧
  Kernel.tcp_off h ≤ Kernel.payload h.
Proof.
  unfold Kernel.classify.
  unfold Kernel.sizeof_ethhdr, Kernel.sizeof_iphdr, Kernel.sizeof_tcphdr.
  intros H.
  destruct (Z.ltb_spec (len frame) (0 + 14)); [done|].
  destruct (Kernel.load_be16 frame (0 + 12)) as [proto|]; [|done]; cbn [mbind option_bind] in H.
  destruct (negb _); [done|].
  destruct (Z.ltb_spec (len frame) (0 + 14 + 20)); [done|].
  destruct (Kernel.load8 frame (0 + 14 + 9)) as [protocol|]; [|done]; cbn [mbind option_bind] in H.
  destruct (negb _); [done|].
  destruct (Kernel.load8 frame (0 + 14)) as [vihl|]; [|done]; cbn [mbind option_bind] in H.
  pose proof (nibble_low vihl).
  destruct (Z.ltb_spec (len frame) (0 + 14 + Z.land vihl 15 * 4 + 20)); [done|].
  destruct (Kernel.load_be16 frame (0 + 14 + Z.land vihl 15 * 4 + 2)) as [dport|] eqn:Ed;
    [|done]; cbn [mbind option_bind] in H.
  destruct (forallb _ _) eqn:Ep; [done|].
  destruct (Kernel.load8 frame (0 + 14 + Z.land vihl 15 * 4 + 12)) as [offs|] eqn:Eo;
    [|done]; cbn [mbind option_bind] in H.
  pose proof (nibble_high offs (load8_range _ _ _ Eo)).
  destruct (Z.leb_spec (len frame) (0 + 14 + Z.land vihl 15 * 4 + Z.shiftr offs 4 * 4));
    [done|].
  destruct (Z.ltb_spec (len frame - (0 + 14 + Z.land vihl 15 * 4 + Z.shiftr offs 4 * 4)) 3);
    [done|].
  injection H as <-.
  split; [apply port_test; exact Ep|].
  simpl. repeat split; try lia. exact Ed.
Qed.


(** ** The credential extractor *)

Lemma store_eq (buf : list byte) (i : Z) (b : byte) :
  0 ≤ i < len buf → Kernel.store buf i b = Some (<[Z.to_nat i := b]> buf).
Proof.
  intros H. unfold Kernel.store.
  destruct (Z.leb_spec 0 i); [|lia]. destruct (Z.ltb_spec i (len buf)); [|lia]. done.
Qed.

Lemma copy_loop_spec frame src n :
  0 ≤ src → 0 ≤ n ≤ 63 → src + n ≤ len frame →
  ∀ k i buf,
    0 ≤ i ≤ n → Z.of_nat k = 63 - i → len buf = 64 →
    take (Z.to_nat i) buf = take (Z.to_nat i) (drop (Z.to_nat src) frame) →
    ∃ buf', Kernel.copy_loop k i frame src n buf = Some (n, buf') ∧
            len buf' = 64 ∧
            take (Z.to_nat n) buf' = take (Z.to_nat n) (drop (Z.to_nat src) frame).
Proof.
  intros Hsrc Hn Hfit. induction k as [|k IH]; intros i buf Hi Hk Hbuf Htake.
  - assert (i = n) as -> by lia. exists buf. done.
  - simpl. destruct (Z.ltb_spec i n); simpl.
    + destruct (Z.ltb_spec i 63); [|lia].
      destruct (Z.ltb_spec (len frame) (src + i + 1)); [lia|].
      destruct (index_lookup frame (src + i)) as [b Eb]; [lia|].
      rewrite Eb. simpl. rewrite store_eq by lia. simpl.
      apply IH; [lia | lia | |].
      * unfold len in *. rewrite length_insert. done.
      * replace (Z.to_nat (i + 1)) with (S (Z.to_nat i)) by lia.
        apply index_spec in Eb as [_ Eb].
        rewrite (take_S_r (<[Z.to_nat i:=b]> buf) _ b).
        2:{ apply list_lookup_insert_eq. unfold len in *. lia. }
        rewrite (take_S_r (drop (Z.to_nat src) frame) _ b).
        2:{ rewrite lookup_drop. rewrite <- Eb. f_equal. lia. }
        rewrite take_insert_ge by lia. by rewrite Htake.
    + assert (i = n) as -> by lia. exists buf. done.
Qed.

Lemma copy_field_spec frame src n :
  0 ≤ src → 0 ≤ n ≤ 63 → src + n ≤ len frame →
  ∃ buf, Kernel.copy_field frame src n = Some buf ∧
         take (Z.to_nat n) buf = take (Z.to_nat n) (drop (Z.to_nat src) frame).
Proof.
  intros Hsrc Hn Hfit. unfold Kernel.copy_field.
  destruct (copy_loop_spec frame src n Hsrc Hn Hfit 63%nat 0 (replicate 64 x00))
    as (buf & -> & Hlen & Htake); [lia | done | done | done |].
  simpl. rewrite store_eq by lia. eexists. split; [done|].
  rewrite take_insert_ge by lia. done.
Qed.


Lemma load8_at frame off :
  0 ≤ off < len frame → ∃ v, Kernel.load8 frame off = Some v.
Proof.
  intros H. destruct (index_lookup frame off H) as [b E].
  exists (u8 b). unfold Kernel.load8. by rewrite E.
Qed.

Lemma load_be16_at frame off :
  0 ≤ off → off + 2 ≤ len frame → ∃ v, Kernel.load_be16 frame off = Some v.
Proof.
  intros H0 H1. unfold Kernel.load_be16.
  destruct (load8_at frame off) as [hi ->]; [lia|].
  destruct (load8_at frame (off + 1)) as [lo ->]; [lia|]. simpl. eauto.
Qed.

Lemma load_be32_at frame off :
  0 ≤ off → off + 4 ≤ len frame → ∃ v, Kernel.load_be32 frame off = Some v.
Proof.
  intros H0 H1. unfold Kernel.load_be32.
  destruct (load_be16_at frame off) as [hi ->]; [lia..|].
  destruct (load_be16_at frame (off + 2)) as [lo ->]; [lia..|]. simpl. eauto.
Qed.

Lemma extract_auth_frame env frame h ul uname pl passwd rest :
  Kernel.classify frame = Some (Kernel.Matching h) →
  drop (Z.to_nat (Kernel.payload h)) frame = auth_frame ul uname pl passwd rest →
  u8 ul = len uname → u8 pl = len passwd →
  1 ≤ len uname ≤ 63 → 1 ≤ len passwd ≤ 63 →
  ∃ e, Kernel.extract env frame h = Some (Some e) ∧
       Kernel.event_username e = uname ∧ Kernel.event_password e = passwd ∧
       Kernel.username_len e = len uname ∧ Kernel.password_len e = len passwd ∧
       Kernel.dst_port e = Kernel.h_dst_port h.
Proof.
  intros Hc Hdrop Hu Hp Hul Hpl.
  destruct (classify_Matching frame h Hc)
    as (_ & Hpl3 & Hplen & _ & Hip & Hipfit & Htcp & Htcpfit & Hpay).
  set (pre := take (Z.to_nat (Kernel.payload h)) frame).
  assert (Hpre : len pre = Kernel.payload h).
  { unfold pre, len in *. rewrite length_take. lia. }
  assert (Hframe : frame = pre ++ auth_frame ul uname pl passwd rest).
  { rewrite <- Hdrop. unfold pre. by rewrite take_drop. }
  pose proof (frame_len pre ul pl uname passwd rest) as Hlen.
  pose proof (frame_ver pre ul pl uname passwd rest) as H0.
  pose proof (frame_ulen pre ul pl uname passwd rest) as H1.
  pose proof (frame_plen pre ul pl uname passwd rest) as H3.
  rewrite <- Hframe, Hpre in *.
  pose proof (len_nonneg rest).
  unfold Kernel.extract, andM, Kernel.load8.
  destruct (Z.leb_spec 3 (Kernel.payload_len h)); [|lia].
  cbn [mbind option_bind]. rewrite H0. cbn [fmap option_fmap option_map mbind option_bind].
  change (u8 x01 =? 1) with true. cbv iota.
  rewrite H1. cbn [fmap option_fmap option_map mbind option_bind]. rewrite Hu.
  destruct (Z.ltb_spec 0 (len uname)); [|lia].
  destruct (Z.ltb_spec (len uname) 64); [|lia].
  destruct (Z.leb_spec (2 + len uname + 1) (Kernel.payload_len h)); [|lia].
  cbn [andb]. cbv iota.
  rewrite H3. cbn [fmap option_fmap option_map mbind option_bind]. rewrite Hp.
  destruct (Z.ltb_spec 0 (len passwd)); [|lia].
  destruct (Z.ltb_spec (len passwd) 64); [|lia].
  destruct (Z.leb_spec (2 + len uname + 1 + len passwd) (Kernel.payload_len h)); [|lia].
  cbn [andb]. cbv iota.
  destruct (load_be32_at frame (Kernel.ip_off h + 12)) as [saddr ->]; [lia..|].
  destruct (load_be32_at frame (Kernel.ip_off h + 16)) as [daddr ->]; [lia..|].
  destruct (load_be16_at frame (Kernel.tcp_off h)) as [sport ->]; [lia..|].
  cbn [mbind option_bind].
  destruct (copy_field_spec frame (Kernel.payload h + 2) (len uname))
    as (ub & -> & Hub); [lia..|].
  destruct (copy_field_spec frame (Kernel.payload h + 2 + len uname + 1) (len passwd))
    as (pb & -> & Hpb); [lia..|].
  cbn [mbind option_bind].
  eexists. split; [reflexivity|].
  unfold Kernel.event_username, Kernel.event_password. simpl.
  rewrite Hub, Hpb.
  assert (Hd1 : drop (Z.to_nat (Kernel.payload h + 2)) frame
                = uname ++ pl :: passwd ++ rest).
  { replace (Z.to_nat (Kernel.payload h + 2))
      with (Z.to_nat (Kernel.payload h) + 2)%nat by lia.
    rewrite <- drop_drop, Hdrop. done. }
  assert (Hd2 : drop (Z.to_nat (Kernel.payload h + 2 + len uname + 1)) frame
                = passwd ++ rest).
  { replace (Z.to_nat (Kernel.payload h + 2 + len uname + 1))
      with (Z.to_nat (Kernel.payload h + 2) + (length uname + 1))%nat
      by (unfold len; lia).
    rewrite <- drop_drop, Hd1.
    replace (uname ++ pl :: passwd ++ rest) with ((uname ++ [pl]) ++ passwd ++ rest)
      by (by rewrite <- app_assoc).
    apply drop_app_length'. rewrite length_app. simpl. done. }
  rewrite Hd1, Hd2.
  unfold len. rewrite !Nat2Z.id, !take_app_length. done.
Qed.

(** An event is emitted only for a frame that passes every length test. *)
Lemma extract_event_valid env frame h e :
  Kernel.extract env frame h = Some (Some e) →
  Kernel.load8 frame (Kernel.payload h) = Some 1 ∧
  Kernel.load8 frame (Kernel.payload h + 1) = Some (Kernel.username_len e) ∧
  Kernel.load8 frame (Kernel.payload h + 2 + Kernel.username_len e)
    = Some (Kernel.password_len e) ∧
  1 ≤ Kernel.username_len e ≤ 63 ∧ 1 ≤ Kernel.password_len e ≤ 63 ∧
  2 + Kernel.username_len e + 1 + Kernel.password_len e ≤ Kernel.payload_len h.
Proof.
  unfold Kernel.extract, andM. intros H.
  destruct (Z.leb_spec 3 (Kernel.payload_len h));
    cbn [mbind option_bind] in H; [|discriminate].
  destruct (Kernel.load8 frame (Kernel.payload h)) as [b0|];
    cbn [mbind option_bind] in H; [|discriminate].
  destruct (Z.eqb_spec b0 1); [subst b0|discriminate].
  destruct (Kernel.load8 frame (Kernel.payload h + 1)) as [ulen|];
    cbn [mbind option_bind] in H; [|discriminate].
  destruct (Z.ltb_spec 0 ulen); [|discriminate].
  destruct (Z.ltb_spec ulen 64); [|discriminate].
  destruct (Z.leb_spec (2 + ulen + 1) (Kernel.payload_len h)); [|discriminate].
  cbn [andb] in H.
  destruct (Kernel.load8 frame (Kernel.payload h + 2 + ulen)) as [plen|] eqn:Ep;
    cbn [mbind option_bind] in H; [|discriminate].
  destruct (Z.ltb_spec 0 plen); [|discriminate].
  destruct (Z.ltb_spec plen 64); [|discriminate].
  destruct (Z.leb_spec (2 + ulen + 1 + plen) (Kernel.payload_len h)); [|discriminate].
  cbn [andb] in H.
  repeat match type of H with
         | context [mbind _ ?o] =>
             destruct o; cbn [mbind option_bind] in H; [|discriminate]
         end.
  injection H as <-. simpl. repeat split; try done; lia.
Qed.

(** ** Credentials of a valid frame (C2) *)

(** C2. For a username/password frame whose first byte is 0x01, whose ULEN
    and PLEN are both in 1..63 and which holds at least 2+ULEN+1+PLEN bytes,
    the user-space extractor and the kernel extractor both return exactly the
    declared username and password bytes; and when the frame is the first
    fragment of a connection, [AnalyzePacket] leaves a session with that
    username, that password and the status "authenticated". *)
Theorem valid_frame_credentials_extracted (clock : nat → Z)
    (ul pl : byte) (uname passwd rest : list byte) :
  u8 ul = len uname → u8 pl = len passwd →
  1 ≤ len uname ≤ 63 → 1 ≤ len passwd ≤ 63 →
  (∀ s w, ∃ w',
     handleUsernamePasswordAuth clock s (auth_frame ul uname pl passwd rest) w
     = Some (authenticated s uname passwd (clock (tick w)), w')) ∧
  (∀ env frame h,
     Kernel.classify frame = Some (Kernel.Matching h) →
     drop (Z.to_nat (Kernel.payload h)) frame = auth_frame ul uname pl passwd rest →
     ∃ e, Kernel.container_traffic_monitor env frame = Some (Some e) ∧
          Kernel.event_username e = uname ∧ Kernel.event_password e = passwd) ∧
  (∀ srcIP dstIP srcPort dstPort w,
     buffer_at w (sessionKeyOf srcIP dstIP srcPort dstPort) = None →
     ∃ w' s,
       AnalyzePacket clock (auth_frame ul uname pl passwd rest)
         srcIP dstIP srcPort dstPort w = Some (tt, w') ∧
       session_at w' (sessionKeyOf srcIP dstIP srcPort dstPort) = Some s ∧
       Username s = string_of_list_byte uname ∧
       Password s = string_of_list_byte passwd ∧
       Status s = status_authenticated).
Proof.
  intros Hu Hp Hul Hpl. split; [|split].
  - intros s w. rewrite handleUsernamePasswordAuth_frame by done. cbv zeta.
    rewrite printSOCKS5AuthReport_eq. eauto.
  - intros env frame h Hc Hd.
    destruct (extract_auth_frame env frame h ul uname pl passwd rest)
      as (e & He & Hun & Hpw & _); try done.
    exists e. unfold Kernel.container_traffic_monitor. rewrite Hc. done.
  - intros sip dip sp dp w Hfresh.
    destruct (AnalyzePacket_auth_frame clock ul uname pl passwd rest sip dip sp dp w)
      as (w' & Hrun & Hs & _); try done.
    eexists w', _. split; [exact Hrun|]. split; [exact Hs|]. done.
Qed.

(** Witness of C2: the frame 01 03 "bob" 03 "xyz", end to end and in the
    kernel extractor. *)
Lemma valid_frame_credentials_extracted_bob :
  (∃ w' s,
     AnalyzePacket clk bob_frame "10.0.0.1" "10.0.0.2" 49152 1080 (fresh 7 0)
     = Some (tt, w') ∧
     session_at w' "10.0.0.1:49152->10.0.0.2:1080" = Some s ∧
     Username s = "bob" ∧ Password s = "xyz" ∧ Status s = status_authenticated) ∧
  (∃ e, Kernel.container_traffic_monitor env0 (tcp_frame 1080 bob_frame) = Some (Some e) ∧
        Kernel.event_username e = [x62; x6f; x62] ∧
        Kernel.event_password e = [x78; x79; x7a]).
Proof.
  destruct (valid_frame_credentials_extracted clk x03 x03
              [x62; x6f; x62] [x78; x79; x7a] [])
    as (_ & Hk & Hg);
    [reflexivity | reflexivity | unfold len; simpl; lia | unfold len; simpl; lia |].
  split.
  - apply (Hg "10.0.0.1" "10.0.0.2" 49152 1080 (fresh 7 0)). reflexivity.
  - apply (Hk env0 (tcp_frame 1080 bob_frame)
             {| Kernel.ip_off := 14; Kernel.tcp_off := 34; Kernel.h_dst_port := 1080;
                Kernel.payload := 54; Kernel.payload_len := 9 |});
      reflexivity.
Defined.

(** ** The buffer cap (C7) *)

(** C7. Whatever fragments are appended to the buffer of a connection, no
    append panics, the buffer never holds more than 4096 bytes, and it is
    the first 4096 bytes of everything appended: at the cap the old bytes
    stay and the new ones are dropped. *)
Theorem buffer_keeps_first_4096_bytes
    (key : string) (frags : list (list byte)) (w : World) :
  len (default [] (buffer_at w key)) ≤ 4096 →
  ∃ w', accumulateAll key frags w = Some (tt, w') ∧
        len (default [] (buffer_at w' key)) ≤ 4096 ∧
        default [] (buffer_at w' key)
        = take (Z.to_nat 4096) (default [] (buffer_at w key) ++ concat frags) ∧
        (len (default [] (buffer_at w key)) = 4096 →
         default [] (buffer_at w' key) = default [] (buffer_at w key)).
Proof.
  intros Hcap.
  destruct (accumulateAll_eq key frags w Hcap) as (w' & Hrun & _ & _ & _ & Hb).
  exists w'. split; [exact Hrun|]. rewrite Hb. split; [|split].
  - apply len_take_le. lia.
  - done.
  - intros Hfull. rewrite take_app_le by (unfold len in *; lia).
    apply take_ge. unfold len in *. lia.
Qed.

(** Witness of C7: 4000 bytes, then 200 more; the last 104 are dropped. *)
Lemma buffer_keeps_first_4096_bytes_overflow :
  ∃ w', accumulateAll "k" [replicate 4000 x41; replicate 200 x42] (fresh 7 0)
        = Some (tt, w') ∧
        default [] (buffer_at w' "k") = replicate 4000 x41 ++ replicate 96 x42.
Proof.
  destruct (buffer_keeps_first_4096_bytes "k"
              [replicate 4000 x41; replicate 200 x42] (fresh 7 0))
    as (w' & Hrun & _ & Hb & _); [vm_compute; discriminate|].
  exists w'. split; [exact Hrun|]. rewrite Hb. vm_compute. reflexivity.
Defined.

(** ** What the frame classifier lets through (C9) *)



(** A frame with the same headers and a two-byte payload, or with another
    destination port, is not matching. *)
Remark classifier_rejects_short_payload_and_other_port :
  Kernel.classify (tcp_frame 1080 [x01; x02]) = Some Kernel.ShortPayload ∧
  Kernel.classify (tcp_frame 80 bob_frame) = Some Kernel.NotMatchingPort.
Proof. split; reflexivity. Qed.

(** The user-space pre-filter [isSOCKS5Traffic] is a different test: it
    accepts any payload on one of its ports, and a payload that starts with
    0x01 on any port. *)
Remark user_space_filter_is_wider :
  isSOCKS5Traffic [] 1080 = Some true ∧ isSOCKS5Traffic [x01] 9999 = Some true.
Proof. split; reflexivity. Qed.

(** ** The stale-session reaper (C5) *)

Lemma stale_spec now s : stale now s = true ↔ 5 * Minute < now - AuthTime s.
Proof.
  unfold stale. rewrite Z.ltb_lt. unfold Sub, minDuration, maxDuration, Minute, Second.
  lia.
Qed.

Lemma sweep_spec now m :
  lastAuthReport (sweep now m) = lastAuthReport m ∧
  targetPID (sweep now m) = targetPID m ∧
  ∀ key,
    authSessions (sweep now m) !! key
    = (s ← authSessions m !! key; if stale now s then None else Some s) ∧
    packetBuffer (sweep now m) !! key
    = match authSessions m !! key with
      | Some s => if stale now s then None else packetBuffer m !! key
      | None => packetBuffer m !! key
      end.
Proof.
  unfold sweep.
  pose (P := λ (r : EnhancedSOCKS5Monitor) (seen : gmap string SOCKS5Session),
    lastAuthReport r = lastAuthReport m ∧ targetPID r = targetPID m ∧
    ∀ key,
      authSessions r !! key
      = match seen !! key with
        | Some s => if stale now s then None else authSessions m !! key
        | None => authSessions m !! key
        end ∧
      packetBuffer r !! key
      = match seen !! key with
        | Some s => if stale now s then None else packetBuffer m !! key
        | None => packetBuffer m !! key
        end).
  assert (HP : P (map_fold
                    (λ sessionKey session acc,
                       if stale now session
                       then set_packetBuffer
                              (set_authSessions acc (delete sessionKey (authSessions acc)))
                              (delete sessionKey (packetBuffer acc))
                       else acc) m (authSessions m)) (authSessions m)).
  { apply (map_fold_weak_ind P).
    - unfold P. repeat split; rewrite lookup_empty; done.
    - intros i x seen r Hi (Hl & Hp & Hk). unfold P.
      destruct (stale now x) eqn:Ex; simpl.
      + repeat split; try done;
          destruct (decide (i = key)) as [->|Hne];
          rewrite ?lookup_insert_eq, ?lookup_delete_eq, ?Ex; try done;
          rewrite lookup_insert_ne, lookup_delete_ne by done; apply Hk.
      + repeat split; try done;
          destruct (decide (i = key)) as [->|Hne];
          rewrite ?lookup_insert_eq, ?Ex; try (rewrite lookup_insert_ne by done);
          try apply Hk;
          destruct (Hk key) as [Ha Hb]; rewrite Hi in Ha, Hb; done. }
  destruct HP as (Hl & Hp & Hk). repeat split; try done.
  - rewrite (proj1 (Hk key)). destruct (authSessions m !! key) as [s|] eqn:E; simpl; [|done].
    destruct (stale now s); done.
  - apply Hk.
Qed.

(** What one run of the reaper does to a session: it compares the instant
    it reads with [AuthTime] and with nothing else.  The session goes, with
    its packet buffer, when that difference is more than 5 minutes, and
    stays unchanged with its packet buffer otherwise.  For a session that
    has authenticated this is the retention window of the comments in
    [CleanupSessions]. *)
Theorem reaper_sweeps_by_authentication_time
    (clock : nat → Z) (w : World) (key : string) (s : SOCKS5Session) :
  session_at w key = Some s →
  ∃ w', CleanupSessions clock w = Some (tt, w') ∧
        (5 * Minute < clock (tick w) - AuthTime s →
         session_at w' key = None ∧ buffer_at w' key = None) ∧
        (clock (tick w) - AuthTime s ≤ 5 * Minute →
         session_at w' key = Some s ∧ buffer_at w' key = buffer_at w key).
Proof.
  intros Hs. unfold CleanupSessions, time_Now, getMon, putMon. exec.
  eexists. split; [reflexivity|].
  unfold session_at, buffer_at in *. simpl.
  destruct (sweep_spec (clock (tick w)) (mon w)) as (_ & _ & Hk).
  destruct (Hk key) as [Ha Hb]. rewrite Ha, Hb, Hs. simpl.
  pose proof (stale_spec (clock (tick w)) s) as Hst.
  destruct (stale (clock (tick w)) s); split; intros; try done; lia.
Qed.

(** In [reaper_world] the session authenticated 400 s ago goes with its
    buffer, the one authenticated 50 s ago stays. *)
Lemma reaper_sweeps_by_authentication_time_old_and_new :
  ∃ w', CleanupSessions clk reaper_world = Some (tt, w') ∧
        session_at w' "old" = None ∧ buffer_at w' "old" = None ∧
        session_at w' "new" = session_at reaper_world "new" ∧
        buffer_at w' "new" = Some bob_frame.
Proof.
  destruct (reaper_sweeps_by_authentication_time clk reaper_world "old" _ eq_refl)
    as (w' & Hrun & Hold & _).
  destruct (reaper_sweeps_by_authentication_time clk reaper_world "new" _ eq_refl)
    as (w'' & Hrun' & _ & Hnew).
  rewrite Hrun in Hrun'. injection Hrun' as <-.
  exists w'. split; [exact Hrun|].
  destruct Hold as [H1 H2]; [vm_compute; reflexivity|].
  destruct Hnew as [H3 H4]; [vm_compute; discriminate|].
  repeat split; try assumption.
Defined.

(** C5 (the code departs from it). A session that has not authenticated
    carries the zero [AuthTime], and the reaper takes it for expired however
    young it is.  On a new monitor the first sweep reads [clk 0] and finds
    no session; the method offer then creates one, which reads no clock; the
    second sweep reads [clk 1], one second later, and removes the session
    and its buffer, where the comments of [CleanupSessions] speak of expired
    sessions, of 5 minutes ago. *)
Lemma reaper_removes_young_unauthenticated_session :
  session_after clk [CallCleanupSessions] (fresh 7 0)
    "10.0.0.1:49152->10.0.0.2:1080" = None ∧
  (tick <$> world_after clk [CallCleanupSessions] (fresh 7 0)) = Some 1%nat ∧
  session_after clk
    [CallCleanupSessions;
     CallAnalyzePacket method_offer "10.0.0.1" "10.0.0.2" 49152 1080]
    (fresh 7 0) "10.0.0.1:49152->10.0.0.2:1080"
  = Some (new_session "10.0.0.1:49152->10.0.0.2:1080" "10.0.0.2" 1080) ∧
  (tick <$> world_after clk
     [CallCleanupSessions;
      CallAnalyzePacket method_offer "10.0.0.1" "10.0.0.2" 49152 1080]
     (fresh 7 0)) = Some 1%nat ∧
  clk 1 - clk 0 = Second ∧
  (λ w, (session_at w "10.0.0.1:49152->10.0.0.2:1080",
         buffer_at w "10.0.0.1:49152->10.0.0.2:1080")) <$>
    world_after clk
      [CallCleanupSessions;
       CallAnalyzePacket method_offer "10.0.0.1" "10.0.0.2" 49152 1080;
       CallCleanupSessions]
      (fresh 7 0)
  = Some (None, None).
Proof. repeat split; vm_compute; reflexivity. Qed.

(** The same run against the wording of the claim: a session younger than
    the retention window is not retained when it has never authenticated. *)
Lemma young_sessions_not_retained : ¬ young_sessions_retained clk.
Proof.
  intros Hclaim.
  destruct (Hclaim after_first_sweep
              [CallAnalyzePacket method_offer "10.0.0.1" "10.0.0.2" 49152 1080]
              "10.0.0.1:49152->10.0.0.2:1080"
              (default (fresh 7 0)
                 (world_after clk
                    [CallAnalyzePacket method_offer "10.0.0.1" "10.0.0.2" 49152 1080]
                    after_first_sweep))
              (default (fresh 7 0)
                 (world_after clk
                    [CallAnalyzePacket method_offer "10.0.0.1" "10.0.0.2" 49152 1080;
                     CallCleanupSessions]
                    after_first_sweep)))
    as [s Hs].
  - vm_compute. lia.
  - vm_compute. reflexivity.
  - vm_compute. reflexivity.
  - eexists. vm_compute. reflexivity.
  - vm_compute. reflexivity.
  - vm_compute. reflexivity.
  - vm_compute in Hs. discriminate.
Qed.

(** What the early sweep costs: the frame of "bob" in two fragments is
    extracted when nothing comes between them; a sweep between them removes
    the session and the buffered first fragment, and the second fragment
    alone yields no credentials. *)
Remark reaper_between_fragments_loses_the_frame :
  (Username <$> session_after clk
     [CallAnalyzePacket [x01; x03; x62] "10.0.0.1" "10.0.0.2" 49152 1080;
      CallAnalyzePacket [x6f; x62; x03; x78; x79; x7a] "10.0.0.1" "10.0.0.2" 49152 1080]
     (fresh 7 0) "10.0.0.1:49152->10.0.0.2:1080") = Some "bob" ∧
  (λ w, (session_at w "10.0.0.1:49152->10.0.0.2:1080",
         buffer_at w "10.0.0.1:49152->10.0.0.2:1080")) <$>
    world_after clk
      [CallAnalyzePacket [x01; x03; x62] "10.0.0.1" "10.0.0.2" 49152 1080;
       CallCleanupSessions]
      (fresh 7 0)
  = Some (None, None) ∧
  (Username <$> session_after clk
     [CallAnalyzePacket [x01; x03; x62] "10.0.0.1" "10.0.0.2" 49152 1080;
      CallCleanupSessions;
      CallAnalyzePacket [x6f; x62; x03; x78; x79; x7a] "10.0.0.1" "10.0.0.2" 49152 1080]
     (fresh 7 0) "10.0.0.1:49152->10.0.0.2:1080") = Some "".
Proof. repeat split; vm_compute; reflexivity. Qed.

(** ** The report cooldown (C6) *)

Lemma keeps_ret {A} (a : A) : keeps (mret a).
Proof. intros w a' w' [= _ <-]. done. Qed.

Lemma keeps_bind {A B} (m : M A) (f : A → M B) :
  keeps m → (∀ a, keeps (f a)) → keeps (m ≫= f).
Proof.
  intros Hm Hf w b w'. unfold mbind, M_bind.
  destruct (m w) as [[a w1]|] eqn:E; [|done].
  intros Hrun Hinv. eapply Hf; [exact Hrun|]. eapply Hm; [exact E | exact Hinv].
Qed.

Lemma keeps_liftO {A} (o : option A) : keeps (liftO o).
Proof. intros w a w'. unfold liftO. destruct o; [|done]. intros [= _ <-]. done. Qed.

Lemma keeps_time_Now clock : keeps (time_Now clock).
Proof. intros w a w'. unfold time_Now. intros [= _ <-]. done. Qed.

Lemma keeps_getMon : keeps getMon.
Proof. intros w a w'. unfold getMon. intros [= _ <-]. done. Qed.

Lemma keeps_store (f : EnhancedSOCKS5Monitor → gmap string SOCKS5Session) :
  keeps (m ← getMon; putMon (set_authSessions m (f m))).
Proof. intros w a w'. unfold getMon, putMon. exec. intros [= _ <-]. done. Qed.

Lemma keeps_accumulatePacket key data : keeps (accumulatePacket key data).
Proof. intros w a w'. rewrite accumulatePacket_eq. intros [= _ <-]. done. Qed.

Lemma keeps_getOrCreateSession key ip port : keeps (getOrCreateSession key ip port).
Proof. intros w a w'. rewrite getOrCreateSession_eq. intros [= _ <-]. done. Qed.

Create HintDb keeps.
#[global] Hint Resolve keeps_ret keeps_liftO keeps_time_Now keeps_getMon keeps_store
  keeps_accumulatePacket keeps_getOrCreateSession : keeps.

Ltac keeps_step :=
  first
    [ solve [auto 1 with keeps nocore]
    | apply keeps_bind; [|intros ?]
    | match goal with
      | |- keeps (if ?c then _ else _) => destruct c
      | |- keeps (match ?x with _ => _ end) => destruct x
      | |- keeps (let _ := _ in _) => cbv zeta
      end ].

Section Cooldown.

Variable clock : nat → Z.
Hypothesis clock_mono : monotone clock.

Lemma keeps_print s : keeps (printSOCKS5AuthReport clock s).
Proof.
  intros w a w'. rewrite printSOCKS5AuthReport_eq. intros [= _ <-] [Hsp Hle].
  unfold reported. destruct (Z.ltb_spec (Sub (clock (tick w)) (lastAuthReport (mon w)))
                               (1 * Minute)) as [|Hout]; [done|].
  apply Sub_ge in Hout; [|unfold minDuration, Minute, Second; lia].
  pose proof (clock_mono (tick w) (S (tick w)) ltac:(lia)).
  split; simpl.
  - split; [|done]. eapply Forall_impl; [exact Hle|]. simpl. intros r Hr. lia.
  - constructor; [simpl; lia|]. eapply Forall_impl; [exact Hle|]. simpl. intros r Hr.
    unfold Minute, Second in *. lia.
Qed.

#[local] Hint Resolve keeps_print : keeps.

Lemma keeps_handleAuthNegotiation s data : keeps (handleAuthNegotiation s data).
Proof. unfold handleAuthNegotiation. repeat keeps_step. Qed.

Lemma keeps_handleUsernamePasswordAuth s data :
  keeps (handleUsernamePasswordAuth clock s data).
Proof.
  unfold handleUsernamePasswordAuth. repeat keeps_step.
Qed.

Lemma keeps_handleConnectRequest s data : keeps (handleConnectRequest clock s data).
Proof.
  unfold handleConnectRequest. repeat keeps_step.
Qed.

Lemma keeps_handleConnectResponse s data : keeps (handleConnectResponse s data).
Proof. unfold handleConnectResponse. repeat keeps_step. Qed.

Lemma keeps_searchLoop n i s data : keeps (searchLoop clock n i s data).
Proof.
  revert i. induction n as [|n IH]; intros i; simpl; repeat keeps_step.
Qed.

Lemma keeps_searchAuthInData s data : keeps (searchAuthInData clock s data).
Proof.
  unfold searchAuthInData. destruct (negb _); [apply keeps_ret|apply keeps_searchLoop].
Qed.

#[local] Hint Resolve keeps_handleAuthNegotiation keeps_handleUsernamePasswordAuth
  keeps_handleConnectRequest keeps_handleConnectResponse keeps_searchAuthInData : keeps.

Lemma keeps_analyze key data sip dip sp dp :
  keeps (analyzeSOCKS5Protocol clock key data sip dip sp dp).
Proof.
  unfold analyzeSOCKS5Protocol. repeat keeps_step.
Qed.

Lemma keeps_AnalyzePacket data sip dip sp dp :
  keeps (AnalyzePacket clock data sip dip sp dp).
Proof.
  unfold AnalyzePacket. cbv zeta. repeat keeps_step. apply keeps_analyze.
Qed.

Lemma keeps_CleanupSessions : keeps (CleanupSessions clock).
Proof.
  intros w a w'. unfold CleanupSessions, time_Now, getMon, putMon. exec.
  intros [= _ <-]. unfold report_inv. simpl.
  destruct (sweep_spec (clock (tick w)) (mon w)) as (-> & _). done.
Qed.

Lemma keeps_run cs : keeps (run clock cs).
Proof.
  induction cs as [|c cs IH]; simpl; [apply keeps_ret|].
  apply keeps_bind; [|intros _; exact IH].
  destruct c; [apply keeps_AnalyzePacket | apply keeps_CleanupSessions].
Qed.

Lemma run_total cs w : ∃ w', run clock cs w = Some (tt, w').
Proof.
  revert w. induction cs as [|c cs IH]; intros w; simpl; [by exists w|].
  unfold mbind, M_bind.
  assert (∃ w1, do_call clock c w = Some (tt, w1)) as [w1 ->].
  { destruct c; simpl.
    - destruct (AnalyzePacket_total clock data srcIP dstIP srcPort dstPort w)
        as [[[] w1] ->]. eauto.
    - destruct (CleanupSessions_total clock w) as [[[] w1] ->]. eauto. }
  apply IH.
Qed.

End Cooldown.

Lemma window_empty t out :
  Forall (λ r, rep_at r < t) out → List.filter (in_window t) out = [].
Proof.
  induction 1 as [|r out Hr _ IH]; simpl; [done|].
  unfold in_window at 1. destruct (Z.leb_spec t (rep_at r)); [lia|]. simpl. exact IH.
Qed.

Lemma well_spaced_window t out :
  well_spaced out → (reports_in_window t out ≤ 1)%nat.
Proof.
  unfold reports_in_window. induction out as [|r out IH]; simpl; [lia|].
  intros [Hr Hsp]. destruct (in_window t r) eqn:E.
  - rewrite window_empty; [simpl; lia|].
    unfold in_window in E. apply andb_prop in E as [E1 E2].
    apply Z.ltb_lt in E2. eapply Forall_impl; [exact Hr|]. simpl. intros r' Hr'. lia.
  - apply IH, Hsp.
Qed.

Lemma clk_monotone : monotone clk.
Proof. intros i j Hij. unfold clk, Second. lia. Qed.

Lemma Sub_below (t u d : Z) : minDuration < d → t - u < d → Sub t u < d.
Proof. unfold Sub, minDuration, maxDuration. lia. Qed.

(** C6. Over any sequence of calls on one monitor, at most one audit report
    falls in any window of one minute, all sessions together; and a session
    whose credentials are extracted while the cooldown is running is not
    reported, but is stored with its username, password, timestamp and
    status. *)
Theorem report_cooldown_is_global (clock : nat → Z) :
  monotone clock →
  (∀ pid t0 cs,
     ∃ w', run clock cs (fresh pid t0) = Some (tt, w') ∧
           ∀ t, (reports_in_window t (stdout w') ≤ 1)%nat) ∧
  (∀ w ul uname pl passwd rest srcIP dstIP srcPort dstPort,
     u8 ul = len uname → u8 pl = len passwd →
     buffer_at w (sessionKeyOf srcIP dstIP srcPort dstPort) = None →
     clock (S (tick w)) - lastAuthReport (mon w) < Minute →
     ∃ w', AnalyzePacket clock (auth_frame ul uname pl passwd rest)
             srcIP dstIP srcPort dstPort w = Some (tt, w') ∧
           stdout w' = stdout w ∧
           lastAuthReport (mon w') = lastAuthReport (mon w) ∧
           session_at w' (sessionKeyOf srcIP dstIP srcPort dstPort)
           = Some (authenticated
                     (default (new_session (sessionKeyOf srcIP dstIP srcPort dstPort)
                                 dstIP dstPort)
                        (session_at w (sessionKeyOf srcIP dstIP srcPort dstPort)))
                     uname passwd (clock (tick w)))).
Proof.
  intros Hmono. split.
  - intros pid t0 cs. destruct (run_total clock cs (fresh pid t0)) as [w' Hrun].
    exists w'. split; [exact Hrun|]. intros t.
    apply well_spaced_window.
    apply (keeps_run clock Hmono cs _ _ _ Hrun). split; simpl; constructor.
  - intros w ul uname pl passwd rest sip dip sp dp Hu Hp Hfresh Hcool.
    destruct (AnalyzePacket_auth_frame clock ul uname pl passwd rest sip dip sp dp w)
      as (w' & Hrun & Hs & Ho & Hl & _); try done.
    exists w'. split; [exact Hrun|].
    unfold reported in Ho, Hl. simpl in Ho, Hl.
    destruct (Z.ltb_spec (Sub (clock (S (tick w))) (lastAuthReport (mon w)))
                (1 * Minute)) as [_|Hout].
    + done.
    + exfalso. apply (Sub_below _ _ (1 * Minute)) in Hcool;
        unfold minDuration, Minute, Second in *; lia.
Qed.

(** Witness of C6: "bob" authenticates on one connection and is reported;
    two clock readings later the same credentials arrive on a second
    connection, which is stored and not reported. *)
Lemma report_cooldown_is_global_two_sessions :
  reports_after clk [CallAnalyzePacket bob_frame "10.0.0.1" "10.0.0.2" 49152 1080]
    (fresh 7 0)
  = Some [ {| rep_at := clk 2;
              rep_session := authenticated
                               (new_session "10.0.0.1:49152->10.0.0.2:1080" "10.0.0.2" 1080)
                               [x62; x6f; x62] [x78; x79; x7a] (clk 0);
              rep_pid := 7 |} ] ∧
  (∃ w', AnalyzePacket clk bob_frame "10.0.0.1" "10.0.0.2" 49153 1080 after_first_report
         = Some (tt, w') ∧
         stdout w' = stdout after_first_report ∧
         session_at w' "10.0.0.1:49153->10.0.0.2:1080"
         = Some (authenticated
                   (new_session "10.0.0.1:49153->10.0.0.2:1080" "10.0.0.2" 1080)
                   [x62; x6f; x62] [x78; x79; x7a] (clk 3))) ∧
  (∃ w', run clk [CallAnalyzePacket bob_frame "10.0.0.1" "10.0.0.2" 49152 1080;
                  CallAnalyzePacket bob_frame "10.0.0.1" "10.0.0.2" 49153 1080]
           (fresh 7 0) = Some (tt, w') ∧
         (reports_in_window (clk 2) (stdout w') ≤ 1)%nat).
Proof.
  destruct (report_cooldown_is_global clk clk_monotone) as [Hrate Hcool].
  split; [vm_compute; reflexivity|]. split.
  - destruct (Hcool after_first_report x03 [x62; x6f; x62] x03 [x78; x79; x7a] []
                "10.0.0.1" "10.0.0.2" 49153 1080)
      as (w' & Hrun & Ho & _ & Hs);
      [reflexivity | reflexivity | vm_compute; reflexivity | vm_compute; reflexivity |].
    exists w'. split; [exact Hrun|]. split; [exact Ho|]. exact Hs.
  - destruct (Hrate 7 0%nat
                [CallAnalyzePacket bob_frame "10.0.0.1" "10.0.0.2" 49152 1080;
                 CallAnalyzePacket bob_frame "10.0.0.1" "10.0.0.2" 49153 1080])
      as (w' & Hrun & Hwin).
    exists w'. split; [exact Hrun | apply Hwin].
Defined.

(** ** Where the code departs from the claims *)

(** The dispatch of [analyzeSOCKS5Protocol] tests [isAuthNegotiation] first,
    and every connect request passes that test. *)
Lemma isConnectRequest_shadowed data :
  isConnectRequest data = Some true → isAuthNegotiation data = Some true.
Proof.
  unfold isConnectRequest, isAuthNegotiation, andM, byte_eq, byte_ge.
  destruct (Z.leb_spec 4 (len data)); [|done].
  destruct (Z.leb_spec 3 (len data)); [|lia]. cbn [mbind option_bind].
  destruct (index data 0) as [b0|]; [|done]. cbn [mbind option_bind].
  destruct (u8 b0 =? 5); [|done].
  destruct (index data 1) as [b1|]; [|done]. cbn [mbind option_bind].
  destruct (Z.eqb_spec (u8 b1) 1) as [->|]; done.
Qed.

Lemma handleAuthNegotiation_eq s data w : handleAuthNegotiation s data w = Some (s, w).
Proof.
  unfold handleAuthNegotiation. exec.
  destruct (Z.leb_spec 3 (len data)); [|done].
  destruct (index_lookup data 1) as [b ->]; [lia|].
  destruct (methods_loop_total (Z.to_nat (u8 b)) 0 data) as [[] ->]; [lia|]. done.
Qed.

(** Whatever passes [isAuthNegotiation] leaves the session as it was found
    or created, and prints nothing: neither a target nor a failure status
    is ever stored for a payload that starts with 0x05 and a non-zero byte. *)
Lemma analyze_method_offer clock key data sip dip sp dp w :
  isAuthNegotiation data = Some true →
  ∃ w', analyzeSOCKS5Protocol clock key data sip dip sp dp w = Some (tt, w') ∧
        session_at w' key = Some (default (new_session key dip dp) (session_at w key)) ∧
        stdout w' = stdout w ∧ tick w' = tick w.
Proof.
  intros Hneg. unfold analyzeSOCKS5Protocol.
  assert (3 ≤ len data).
  { unfold isAuthNegotiation, andM in Hneg.
    destruct (Z.leb_spec 3 (len data)); [done|discriminate]. }
  destruct (Z.ltb_spec (len data) 2); [lia|].
  unfold mbind at 1, M_bind at 1. rewrite getOrCreateSession_eq. cbv zeta.
  unfold mbind at 1, M_bind at 1, liftO at 1. rewrite Hneg.
  unfold mbind at 1, M_bind at 1. rewrite handleAuthNegotiation_eq.
  unfold getMon, putMon, mbind, M_bind.
  eexists. split; [reflexivity|].
  unfold session_at. simpl. rewrite lookup_insert_eq. done.
Qed.

(** A payload that reaches [handleConnectResponse] has reply code 0, so the
    branch that records a failure is never taken from the dispatch. *)
Lemma isConnectResponse_code_zero data :
  isConnectResponse data = Some true → byte_eq data 1 0 = Some true.
Proof.
  unfold isConnectResponse, andM, byte_eq.
  destruct (Z.leb_spec 4 (len data)); [|done]. cbn [mbind option_bind].
  destruct (index data 0) as [b0|]; [|done]. cbn [mbind option_bind].
  destruct (u8 b0 =? 5); [|done].
  destruct (index data 1) as [b1|]; [|done]. cbn [mbind option_bind]. done.
Qed.

(** C1 (the code departs from it). A payload that declares ULEN = 64 and
    holds the 64 + 1 + 1 bytes it announces: the kernel extractor emits no
    event, but the user-space extractor stores the 64-byte username and the
    password, sets the status to "authenticated" and prints a report.  With
    ULEN = PLEN = 0 it sets the status to "authenticated" as well. *)
Theorem user_space_extractor_accepts_ulen_64 :
  Kernel.container_traffic_monitor env0 (tcp_frame 1080 ulen64_frame) = Some None ∧
  session_after clk [CallAnalyzePacket ulen64_frame "10.0.0.1" "10.0.0.2" 49152 1080]
    (fresh 7 0) "10.0.0.1:49152->10.0.0.2:1080"
  = Some (authenticated (new_session "10.0.0.1:49152->10.0.0.2:1080" "10.0.0.2" 1080)
            (replicate 64 x61) [x70] (clk 0)) ∧
  (length <$> reports_after clk
     [CallAnalyzePacket ulen64_frame "10.0.0.1" "10.0.0.2" 49152 1080] (fresh 7 0))
  = Some 1%nat ∧
  Kernel.container_traffic_monitor env0 (tcp_frame 1080 zero_len_frame) = Some None ∧
  session_after clk [CallAnalyzePacket zero_len_frame "10.0.0.1" "10.0.0.2" 49152 1080]
    (fresh 7 0) "10.0.0.1:49152->10.0.0.2:1080"
  = Some (authenticated (new_session "10.0.0.1:49152->10.0.0.2:1080" "10.0.0.2" 1080)
            [] [] (clk 0)).
Proof. repeat split; vm_compute; reflexivity. Qed.

(** The same extractor gives up on a truncated frame. *)
Lemma handleUsernamePasswordAuth_truncated clock s data w b1 :
  index data 1 = Some b1 →
  (len data < 2 + u8 b1 + 1 ∨
   ∃ bp, index data (2 + u8 b1) = Some bp ∧ len data < 2 + u8 b1 + 1 + u8 bp) →
  handleUsernamePasswordAuth clock s data w = Some (s, w).
Proof.
  intros H1 Hshort. unfold handleUsernamePasswordAuth.
  destruct (Z.ltb_spec (len data) 3); [done|].
  destruct (index_lookup data 0) as [b0 H0]; [lia|].
  unfold mbind at 1, M_bind at 1, liftO at 1. rewrite H0.
  destruct (negb (u8 b0 =? 1)); [done|].
  unfold mbind at 1, M_bind at 1, liftO at 1. rewrite H1. cbv zeta.
  destruct (Z.ltb_spec (len data) (2 + u8 b1 + 1)) as [|Hfit]; [done|].
  destruct Hshort as [|(bp & Hp & Hshort)]; [lia|].
  pose proof (u8_range b1).
  unfold mbind at 1, M_bind at 1, liftO at 1.
  rewrite slice_eq by lia.
  unfold mbind at 1, M_bind at 1, liftO at 1. rewrite Hp.
  destruct (Z.ltb_spec (len data) (2 + u8 b1 + 1 + u8 bp)); [done|lia].
Qed.

(** C3 (the code departs from it). The connect request for "example":443
    is taken for an authentication offer, because its second byte is at
    least 1; the session keeps an empty target.  [handleConnectRequest]
    itself would have stored the target. *)
Theorem connect_request_is_taken_for_method_offer :
  isAuthNegotiation connect_example = Some true ∧
  session_after clk [CallAnalyzePacket connect_example "10.0.0.1" "10.0.0.2" 49152 1080]
    (fresh 7 0) "10.0.0.1:49152->10.0.0.2:1080"
  = Some (new_session "10.0.0.1:49152->10.0.0.2:1080" "10.0.0.2" 1080) ∧
  TargetHost (new_session "10.0.0.1:49152->10.0.0.2:1080" "10.0.0.2" 1080) = "" ∧
  TargetPort (new_session "10.0.0.1:49152->10.0.0.2:1080" "10.0.0.2" 1080) = 0 ∧
  handleConnectRequest clk blank connect_example (fresh 7 0)
  = Some (set_target blank "example" 443 (clk 0), ticked (fresh 7 0)).
Proof. repeat split; vm_compute; reflexivity. Qed.

(** C4 (the code departs from it). A reply with code 1 is taken for an
    authentication offer as well; the status stays "connecting".
    [handleConnectResponse] itself would have recorded the failure. *)
Theorem failure_reply_leaves_status_connecting :
  isAuthNegotiation connect_failure = Some true ∧
  isConnectResponse connect_failure = Some false ∧
  session_after clk [CallAnalyzePacket connect_failure "10.0.0.1" "10.0.0.2" 49152 1080]
    (fresh 7 0) "10.0.0.1:49152->10.0.0.2:1080"
  = Some (new_session "10.0.0.1:49152->10.0.0.2:1080" "10.0.0.2" 1080) ∧
  Status (new_session "10.0.0.1:49152->10.0.0.2:1080" "10.0.0.2" 1080)
  = status_connecting ∧
  handleConnectResponse blank connect_failure (fresh 7 0)
  = Some (set_Status blank (status_failed 1), fresh 7 0).
Proof. repeat split; vm_compute; reflexivity. Qed.

(** C8 (the code departs from it). Username "bob" with PLEN = 0: the
    session is stored with a username and an empty password. *)
Theorem username_stored_without_password :
  session_after clk [CallAnalyzePacket plen0_frame "10.0.0.1" "10.0.0.2" 49152 1080]
    (fresh 7 0) "10.0.0.1:49152->10.0.0.2:1080"
  = Some (authenticated (new_session "10.0.0.1:49152->10.0.0.2:1080" "10.0.0.2" 1080)
            [x62; x6f; x62] [] (clk 0)) ∧
  Username (authenticated (new_session "10.0.0.1:49152->10.0.0.2:1080" "10.0.0.2" 1080)
              [x62; x6f; x62] [] (clk 0)) = "bob" ∧
  Password (authenticated (new_session "10.0.0.1:49152->10.0.0.2:1080" "10.0.0.2" 1080)
              [x62; x6f; x62] [] (clk 0)) = "".
Proof. repeat split; vm_compute; reflexivity. Qed.

(** The fallback scan keeps the two fields together. *)
Lemma isPrintableString_nonempty s : isPrintableString s = true → s ≠ "".
Proof. intros H ->. vm_compute in H. discriminate. Qed.

Lemma candidateAt_both_nonempty data i u p :
  candidateAt data i = Some (Some (u, p)) → u ≠ "" ∧ p ≠ "".
Proof.
  unfold candidateAt. intros H.
  repeat match type of H with
         | context [mbind _ ?o] =>
             destruct o; cbn [mbind option_bind] in H; [|discriminate]
         | context [if ?c then _ else _] => destruct c eqn:?; try discriminate
         end.
  injection H as <- <-.
  match goal with E : _ && _ = true |- _ => apply andb_prop in E as [E1 E2] end.
  split; by apply isPrintableString_nonempty.
Qed.

(** ** What a malformed frame makes the engine do (C10) *)

(** C10 (the code departs from it). No operation panics
    ([engine_never_reads_out_of_range]), but a malformed frame is not merely
    missed.  The payload 01 00 00 declares a username and a password of
    length 0: the kernel extractor emits no event for it and the fallback
    scan stores nothing, yet [AnalyzePacket] stores a session with status
    "authenticated" and empty credentials and prints a report for it; the
    cooldown this report starts then hides the report of the authentication
    of "bob" on the next connection. *)
Theorem malformed_frame_is_stored_and_reported :
  Kernel.container_traffic_monitor env0 (tcp_frame 1080 zero_len_frame) = Some None ∧
  searchAuthInData clk blank zero_len_frame (fresh 7 0) = Some (blank, fresh 7 0) ∧
  session_after clk [CallAnalyzePacket zero_len_frame "10.0.0.1" "10.0.0.2" 49152 1080]
    (fresh 7 0) "10.0.0.1:49152->10.0.0.2:1080"
  = Some (authenticated (new_session "10.0.0.1:49152->10.0.0.2:1080" "10.0.0.2" 1080)
            [] [] (clk 0)) ∧
  Status (authenticated (new_session "10.0.0.1:49152->10.0.0.2:1080" "10.0.0.2" 1080)
            [] [] (clk 0)) = status_authenticated ∧
  Username (authenticated (new_session "10.0.0.1:49152->10.0.0.2:1080" "10.0.0.2" 1080)
              [] [] (clk 0)) = "" ∧
  Password (authenticated (new_session "10.0.0.1:49152->10.0.0.2:1080" "10.0.0.2" 1080)
              [] [] (clk 0)) = "" ∧
  reports_after clk [CallAnalyzePacket zero_len_frame "10.0.0.1" "10.0.0.2" 49152 1080]
    (fresh 7 0)
  = Some [ {| rep_at := clk 2;
              rep_session :=
                authenticated
                  (new_session "10.0.0.1:49152->10.0.0.2:1080" "10.0.0.2" 1080)
                  [] [] (clk 0);
              rep_pid := 7 |} ] ∧
  reports_after clk
    [CallAnalyzePacket zero_len_frame "10.0.0.1" "10.0.0.2" 49152 1080;
     CallAnalyzePacket bob_frame "10.0.0.1" "10.0.0.2" 49153 1080]
    (fresh 7 0)
  = reports_after clk [CallAnalyzePacket zero_len_frame "10.0.0.1" "10.0.0.2" 49152 1080]
      (fresh 7 0).
Proof. repeat split; vm_compute; reflexivity. Qed.

(** * Further properties of the engine and of the kernel monitor *)

(** ** Recognising a frame in a payload *)

Lemma u8_inj (a b : byte) : u8 a = u8 b → a = b.
Proof.
  unfold u8. intros H. apply N2Z.inj in H.
  pose proof (Byte.of_to_N a) as Ha. rewrite H, Byte.of_to_N in Ha. congruence.
Qed.

Lemma drop_index (data : list byte) (i : Z) (b : byte) :
  index data i = Some b →
  drop (Z.to_nat i) data = b :: drop (Z.to_nat (i + 1)) data.
Proof.
  intros H. apply index_spec in H as [Hi Hb].
  replace (Z.to_nat (i + 1)) with (S (Z.to_nat i)) by lia.
  by apply drop_S.
Qed.

Lemma drop_take_split (data : list byte) (i n : Z) :
  0 ≤ i → 0 ≤ n →
  drop (Z.to_nat i) data
  = take (Z.to_nat n) (drop (Z.to_nat i) data) ++ drop (Z.to_nat (i + n)) data.
Proof.
  intros Hi Hn. rewrite <- (take_drop (Z.to_nat n) (drop (Z.to_nat i) data)) at 1.
  rewrite drop_drop. do 2 f_equal. lia.
Qed.

(** The bytes at [i] are a version byte 1, a length byte, that many bytes,
    a second length byte and that many bytes again: the payload is a frame
    placed after its first [i] bytes. *)
Lemma frame_at_offset (data : list byte) (i : Z) (b1 bp : byte) :
  0 ≤ i →
  index data i = Some x01 → index data (i + 1) = Some b1 →
  index data (i + 2 + u8 b1) = Some bp →
  i + 2 + u8 b1 + 1 + u8 bp ≤ len data →
  ∃ pre uname passwd rest,
    data = pre ++ auth_frame b1 uname bp passwd rest ∧
    len pre = i ∧ len uname = u8 b1 ∧ len passwd = u8 bp.
Proof.
  intros Hi H0 H1 Hp Hfit.
  pose proof (u8_range b1). pose proof (u8_range bp).
  exists (take (Z.to_nat i) data),
         (take (Z.to_nat (u8 b1)) (drop (Z.to_nat (i + 2)) data)),
         (take (Z.to_nat (u8 bp)) (drop (Z.to_nat (i + 2 + u8 b1 + 1)) data)),
         (drop (Z.to_nat (i + 2 + u8 b1 + 1 + u8 bp)) data).
  split; [|split; [|split]].
  - rewrite <- (take_drop (Z.to_nat i) data) at 1. f_equal.
    rewrite (drop_index data i x01 H0), (drop_index data (i + 1) b1 H1).
    unfold auth_frame. do 2 f_equal.
    replace (i + 1 + 1) with (i + 2) by lia.
    rewrite (drop_take_split data (i + 2) (u8 b1)) at 1 by lia. f_equal.
    rewrite (drop_index data (i + 2 + u8 b1) bp Hp). f_equal.
    apply drop_take_split; lia.
  - unfold len in *. rewrite length_take. lia.
  - unfold len in *. rewrite length_take, length_drop. lia.
  - unfold len in *. rewrite length_take, length_drop. lia.
Qed.

Section DirectExtractor.

Variable clock : nat → Z.

(** The direct extractor has two outcomes: it leaves the session and the
    world alone, or the payload is a frame and its two fields are stored. *)
Lemma handleUsernamePasswordAuth_cases s data w :
  handleUsernamePasswordAuth clock s data w = Some (s, w) ∨
  ∃ ul uname pl passwd rest,
    data = auth_frame ul uname pl passwd rest ∧
    u8 ul = len uname ∧ u8 pl = len passwd ∧
    handleUsernamePasswordAuth clock s data w
    = Some (authenticated s uname passwd (clock (tick w)),
            reported clock (authenticated s uname passwd (clock (tick w))) (ticked w)).
Proof.
  destruct (Z.ltb_spec (len data) 3) as [Hshort|H3].
  { left. unfold handleUsernamePasswordAuth.
    destruct (Z.ltb_spec (len data) 3); [done|lia]. }
  destruct (index_lookup data 0) as [b0 H0]; [lia|].
  destruct (index_lookup data 1) as [b1 H1]; [lia|].
  pose proof (u8_range b1).
  destruct (Z.eqb_spec (u8 b0) 1) as [Hv|Hv]; cycle 1.
  { left. unfold handleUsernamePasswordAuth.
    destruct (Z.ltb_spec (len data) 3); [done|].
    unfold mbind at 1, M_bind at 1, liftO at 1. rewrite H0.
    destruct (Z.eqb_spec (u8 b0) 1); [lia|done]. }
  assert (b0 = x01) as -> by (by apply u8_inj).
  destruct (Z.ltb_spec (len data) (2 + u8 b1 + 1)) as [|Hfit1].
  { left. apply (handleUsernamePasswordAuth_truncated clock s data w b1 H1). by left. }
  destruct (index_lookup data (2 + u8 b1)) as [bp Hp]; [lia|].
  pose proof (u8_range bp).
  destruct (Z.ltb_spec (len data) (2 + u8 b1 + 1 + u8 bp)) as [|Hfit2].
  { left. apply (handleUsernamePasswordAuth_truncated clock s data w b1 H1).
    right. eauto. }
  right.
  destruct (frame_at_offset data 0 b1 bp) as (pre & uname & passwd & rest & -> & Hpre & Hu & Hpw);
    [lia | done | done | done | lia |].
  assert (pre = []) as -> by (destruct pre; [done|unfold len in Hpre; simpl in Hpre; lia]).
  exists b1, uname, bp, passwd, rest. simpl.
  repeat split; try done.
  rewrite handleUsernamePasswordAuth_frame by done. cbv zeta.
  rewrite printSOCKS5AuthReport_eq. done.
Qed.

End DirectExtractor.

(** ** The fallback scan *)

Lemma string_of_list_byte_length (l : list byte) :
  String.length (string_of_list_byte l) = length l.
Proof. induction l as [|b l IH]; simpl; [done|]. f_equal. exact IH. Qed.

Lemma isPrintableString_spec (l : list byte) :
  isPrintableString (string_of_list_byte l) = true ↔ 1 ≤ len l ≤ 64 ∧ printable l.
Proof.
  unfold isPrintableString, printable, len.
  rewrite string_of_list_byte_length, list_byte_of_string_of_list_byte.
  destruct (Z.eqb_spec (Z.of_nat (length l)) 0), (Z.ltb_spec 64 (Z.of_nat (length l)));
    simpl; try (split; [discriminate|lia]).
  rewrite forallb_forall, Forall_forall. split.
  - intros Hall. split; [lia|]. intros b Hb. apply list_elem_of_In, Hall in Hb.
    destruct (Z.ltb_spec (u8 b) 32), (Z.ltb_spec 126 (u8 b)); simpl in Hb;
      try discriminate. lia.
  - intros [_ Hall] b Hb. apply list_elem_of_In, Hall in Hb.
    destruct (Z.ltb_spec (u8 b) 32), (Z.ltb_spec 126 (u8 b)); simpl; try lia; done.
Qed.

Lemma candidateAt_found data i u p :
  0 ≤ i → candidateAt data i = Some (Some (u, p)) →
  ∃ pre ul uname pl passwd rest,
    data = pre ++ auth_frame ul uname pl passwd rest ∧ len pre = i ∧
    u8 ul = len uname ∧ u8 pl = len passwd ∧
    1 ≤ len uname ≤ 63 ∧ 1 ≤ len passwd ≤ 63 ∧
    printable uname ∧ printable passwd ∧
    u = string_of_list_byte uname ∧ p = string_of_list_byte passwd.
Proof.
  intros Hi H. unfold candidateAt, andM, byte_eq in H.
  destruct (index data i) as [b0|] eqn:E0; cbn [mbind option_bind] in H; [|discriminate].
  destruct (Z.eqb_spec (u8 b0) 1) as [Hv|]; [|discriminate].
  assert (b0 = x01) as -> by (by apply u8_inj).
  destruct (Z.ltb_spec (i + 1) (len data)); [|discriminate].
  destruct (index data (i + 1)) as [ul|] eqn:E1; cbn [mbind option_bind] in H;
    [|discriminate].
  destruct (Z.ltb_spec 0 (u8 ul)); [|discriminate].
  destruct (Z.ltb_spec (u8 ul) 64); [|discriminate].
  destruct (Z.ltb_spec (i + 2 + u8 ul) (len data)); [|discriminate].
  cbn [andb] in H.
  destruct (slice data (i + 2) (i + 2 + u8 ul)) as [username|] eqn:Hsu;
    cbn [mbind option_bind] in H; [|discriminate].
  destruct (Z.ltb_spec (i + 2 + u8 ul + 1) (len data)); [|discriminate].
  destruct (index data (i + 2 + u8 ul)) as [pl|] eqn:Ep; cbn [mbind option_bind] in H;
    [|discriminate].
  destruct (Z.ltb_spec 0 (u8 pl)); [|discriminate].
  destruct (Z.ltb_spec (u8 pl) 64); [|discriminate].
  destruct (Z.leb_spec (i + 2 + u8 ul + 1 + u8 pl) (len data)); [|discriminate].
  cbn [andb] in H.
  destruct (slice data (i + 2 + u8 ul + 1) (i + 2 + u8 ul + 1 + u8 pl))
    as [password|] eqn:Hsp; cbn [mbind option_bind] in H; [|discriminate].
  destruct (isPrintableString (string_of_list_byte username)) eqn:Hpu; [|discriminate].
  destruct (isPrintableString (string_of_list_byte password)) eqn:Hpp; [|discriminate].
  cbn [andb] in H. injection H as <- <-.
  destruct (frame_at_offset data i ul pl)
    as (pre & uname & passwd & rest & Hd & Hpre & Hu & Hpw); try done.
  pose proof (frame_uname pre ul pl uname passwd rest) as Fu.
  pose proof (frame_passwd pre ul pl uname passwd rest) as Fp.
  rewrite <- Hd, Hpre, Hu in Fu, Fp. rewrite Hpw in Fp.
  rewrite Hsu in Fu. rewrite Hsp in Fp. injection Fu as ->. injection Fp as ->.
  apply isPrintableString_spec in Hpu as [_ Hpu], Hpp as [_ Hpp].
  exists pre, ul, uname, pl, passwd, rest. repeat split; try done; lia.
Qed.

Lemma candidateAt_frame pre ul uname pl passwd rest :
  u8 ul = len uname → u8 pl = len passwd →
  1 ≤ len uname ≤ 63 → 1 ≤ len passwd ≤ 63 →
  printable uname → printable passwd →
  candidateAt (pre ++ auth_frame ul uname pl passwd rest) (len pre)
  = Some (Some (string_of_list_byte uname, string_of_list_byte passwd)).
Proof.
  intros Hu Hp Hul Hpl Hpu Hpp.
  pose proof (frame_len pre ul pl uname passwd rest) as Hlen.
  pose proof (frame_ver pre ul pl uname passwd rest) as F0.
  pose proof (frame_ulen pre ul pl uname passwd rest) as F1.
  pose proof (frame_uname pre ul pl uname passwd rest) as F2.
  pose proof (frame_plen pre ul pl uname passwd rest) as F3.
  pose proof (frame_passwd pre ul pl uname passwd rest) as F4.
  pose proof (len_nonneg pre). pose proof (len_nonneg rest).
  unfold candidateAt, andM, byte_eq. rewrite F0. cbn [mbind option_bind].
  change (u8 x01 =? 1) with true. cbv iota.
  destruct (Z.ltb_spec (len pre + 1) (len (pre ++ auth_frame ul uname pl passwd rest)));
    [|lia].
  rewrite F1. cbn [mbind option_bind]. rewrite Hu.
  destruct (Z.ltb_spec 0 (len uname)); [|lia].
  destruct (Z.ltb_spec (len uname) 64); [|lia].
  destruct (Z.ltb_spec (len pre + 2 + len uname)
              (len (pre ++ auth_frame ul uname pl passwd rest))); [|lia].
  cbn [andb]. cbv iota. rewrite F2. cbn [mbind option_bind].
  destruct (Z.ltb_spec (len pre + 2 + len uname + 1)
              (len (pre ++ auth_frame ul uname pl passwd rest))); [|lia].
  rewrite F3. cbn [mbind option_bind]. rewrite Hp.
  destruct (Z.ltb_spec 0 (len passwd)); [|lia].
  destruct (Z.ltb_spec (len passwd) 64); [|lia].
  destruct (Z.leb_spec (len pre + 2 + len uname + 1 + len passwd)
              (len (pre ++ auth_frame ul uname pl passwd rest))); [|lia].
  cbn [andb]. cbv iota. rewrite F4. cbn [mbind option_bind].
  rewrite (proj2 (isPrintableString_spec uname)) by (split; [lia|done]).
  rewrite (proj2 (isPrintableString_spec passwd)) by (split; [lia|done]).
  done.
Qed.

(** An offset whose byte is not 0x01 is no candidate. *)
Lemma candidateAt_other data i b :
  index data i = Some b → b ≠ x01 → candidateAt data i = Some None.
Proof.
  intros H Hb. unfold candidateAt, andM, byte_eq. rewrite H. cbn [mbind option_bind].
  destruct (Z.eqb_spec (u8 b) 1) as [Hv|]; [|done].
  destruct Hb. by apply u8_inj.
Qed.

Section Scan.

Variable clock : nat → Z.

Lemma searchLoop_S n i s data w found :
  candidateAt data i = Some found →
  searchLoop clock (S n) i s data w
  = match found with
    | Some (u, p) =>
        Some (extracted s u p (clock (tick w)),
              reported clock (extracted s u p (clock (tick w))) (ticked w))
    | None => searchLoop clock n (i + 1) s data w
    end.
Proof.
  intros Hf. simpl. unfold mbind, M_bind, liftO. rewrite Hf.
  destruct found as [[u p]|]; [|done].
  unfold time_Now. fold (ticked w).
  change ({| SessionID := SessionID s; ProxyIP := ProxyIP s; ProxyPort := ProxyPort s;
             Username := u; Password := p; TargetHost := TargetHost s;
             TargetPort := TargetPort s; AuthTime := clock (tick w);
             ConnectTime := ConnectTime s; Status := status_extracted |})
    with (extracted s u p (clock (tick w))).
  rewrite printSOCKS5AuthReport_eq. done.
Qed.

(** The scan from [i] over [n] offsets: nothing is found and nothing
    changes, or the first candidate at some offset [j] is stored. *)
Lemma searchLoop_cases n i s data w :
  0 ≤ i → (n ≠ 0%nat → i + Z.of_nat n ≤ len data - 3) →
  (searchLoop clock n i s data w = Some (s, w) ∧
   ∀ k, i ≤ k < i + Z.of_nat n → candidateAt data k = Some None) ∨
  ∃ j u p,
    i ≤ j < i + Z.of_nat n ∧
    candidateAt data j = Some (Some (u, p)) ∧
    (∀ k, i ≤ k < j → candidateAt data k = Some None) ∧
    searchLoop clock n i s data w
    = Some (extracted s u p (clock (tick w)),
            reported clock (extracted s u p (clock (tick w))) (ticked w)).
Proof.
  revert i. induction n as [|n IH]; intros i Hi Hn.
  - left. split; [done|]. intros k Hk. lia.
  - specialize (Hn ltac:(lia)).
    destruct (candidateAt_total data i) as [found Hf]; [lia|].
    rewrite (searchLoop_S n i s data w found Hf).
    destruct found as [[u p]|].
    + right. exists i, u, p. split; [lia|]. split; [done|]. split; [intros; lia|done].
    + destruct (IH (i + 1)) as [[Hrun Hnone]|(j & u & p & Hj & Hc & Hnone & Hrun)];
        [lia | lia | |].
      * left. split; [exact Hrun|]. intros k Hk.
        destruct (decide (k = i)) as [->|]; [done|]. apply Hnone. lia.
      * right. exists j, u, p. split; [lia|]. split; [done|]. split; [|exact Hrun].
        intros k Hk. destruct (decide (k = i)) as [->|]; [done|]. apply Hnone. lia.
Qed.

End Scan.

(** ** The shape of one call *)

Lemma session_step_refl s : session_step s s.
Proof. unfold session_step. tauto. Qed.

Lemma reported_frame clock s w :
  authSessions (mon (reported clock s w)) = authSessions (mon w) ∧
  packetBuffer (mon (reported clock s w)) = packetBuffer (mon w) ∧
  targetPID (mon (reported clock s w)) = targetPID (mon w) ∧
  (tick w < tick (reported clock s w))%nat ∧
  (stdout (reported clock s w) = stdout w ∨
   ∃ r, stdout (reported clock s w) = r :: stdout w).
Proof.
  unfold reported. destruct (_ <? _); simpl; repeat split; eauto; lia.
Qed.

Lemma insert_twice (a : gmap string SOCKS5Session) key s s' :
  <[key := s']> (<[key := s]> a) = <[key := s']> a.
Proof. apply insert_insert_eq. Qed.

Section Shape.

Variable clock : nat → Z.

Lemma handleConnectResponse_ok s data w :
  isConnectResponse data = Some true →
  handleConnectResponse s data w = Some (set_Status s status_connected, w).
Proof.
  intros Hr. pose proof (isConnectResponse_code_zero data Hr) as Hz.
  unfold isConnectResponse, andM in Hr.
  destruct (Z.leb_spec 4 (len data)); [|discriminate].
  unfold byte_eq in Hz. unfold handleConnectResponse.
  destruct (Z.leb_spec 2 (len data)); [|lia].
  destruct (index data 1) as [b|]; [|discriminate]. simpl in Hz.
  unfold mbind, M_bind, liftO. injection Hz as ->. done.
Qed.

(** One pass of [analyzeSOCKS5Protocol]: it returns; it leaves the buffers
    and the pid alone; on fewer than 2 bytes it does nothing; otherwise it
    stores one session under [key], a step away from the one it started
    from, and prints at most one report. *)
Lemma analyze_shape key data sip dip sp dp w :
  ∃ w', analyzeSOCKS5Protocol clock key data sip dip sp dp w = Some (tt, w') ∧
        packetBuffer (mon w') = packetBuffer (mon w) ∧
        targetPID (mon w') = targetPID (mon w) ∧
        (tick w ≤ tick w')%nat ∧
        (stdout w' = stdout w ∨ ∃ r, stdout w' = r :: stdout w) ∧
        (len data < 2 → w' = w) ∧
        (2 ≤ len data →
         ∃ s', authSessions (mon w') = <[key := s']> (authSessions (mon w)) ∧
               session_step (session_before w key dip dp) s').
Proof.
  unfold analyzeSOCKS5Protocol.
  destruct (Z.ltb_spec (len data) 2) as [Hs|Hl].
  { exists w. repeat split; eauto. lia. }
  unfold mbind at 1, M_bind at 1. rewrite getOrCreateSession_eq. cbv zeta.
  fold (session_before w key dip dp). set (s0 := session_before w key dip dp).
  set (w1 := {| mon := set_authSessions (mon w) (<[key:=s0]> (authSessions (mon w)));
                stdout := stdout w; tick := tick w |}).
  assert (Hfin : ∀ s' w2,
    authSessions (mon w2) = authSessions (mon w1) →
    packetBuffer (mon w2) = packetBuffer (mon w1) →
    targetPID (mon w2) = targetPID (mon w1) →
    (tick w1 ≤ tick w2)%nat →
    (stdout w2 = stdout w1 ∨ ∃ r, stdout w2 = r :: stdout w1) →
    session_step s0 s' →
    ∃ w', (m ← getMon; putMon (set_authSessions m (<[key:=s']> (authSessions m)))) w2
          = Some (tt, w') ∧
          packetBuffer (mon w') = packetBuffer (mon w) ∧
          targetPID (mon w') = targetPID (mon w) ∧
          (tick w ≤ tick w')%nat ∧
          (stdout w' = stdout w ∨ ∃ r, stdout w' = r :: stdout w) ∧
          (len data < 2 → w' = w) ∧
          (2 ≤ len data →
           ∃ s'', authSessions (mon w') = <[key := s'']> (authSessions (mon w)) ∧
                  session_step s0 s'')).
  { intros s' w2 Ha Hb Hp Ht Ho Hstep. unfold getMon, putMon, mbind, M_bind.
    eexists. split; [reflexivity|]. simpl. rewrite Ha, Hb, Hp.
    unfold w1 in *. simpl in *.
    repeat split; try done.
    - intros Hlt. exfalso. lia.
    - intros _. exists s'. split; [apply insert_twice|done]. }
  destruct (isAuthNegotiation_total data) as [neg Hneg].
  unfold mbind at 1, M_bind at 1, liftO at 1. rewrite Hneg.
  destruct neg.
  { unfold mbind at 1, M_bind at 1. rewrite handleAuthNegotiation_eq.
    apply Hfin; eauto using session_step_refl. }
  destruct (isUsernamePasswordAuth_total data) as [upa Hupa].
  unfold mbind at 1, M_bind at 1.
  unfold mbind at 1, M_bind at 1, liftO at 1. rewrite Hupa.
  destruct upa.
  { destruct (handleUsernamePasswordAuth_cases clock s0 data w1)
      as [->|(ul & uname & pl & passwd & rest & _ & _ & _ & ->)].
    - apply Hfin; eauto using session_step_refl.
    - destruct (reported_frame clock (authenticated s0 uname passwd (clock (tick w1)))
                  (ticked w1)) as (Ha & Hb & Hp & Ht & Ho).
      apply Hfin; try done.
      + unfold w1 in *. simpl in *. lia.
      + unfold session_step. simpl. tauto. }
  destruct (isConnectRequest_total data) as [req Hreq].
  unfold mbind at 1, M_bind at 1, liftO at 1. rewrite Hreq.
  destruct req.
  { apply isConnectRequest_shadowed in Hreq. congruence. }
  destruct (isConnectResponse_total data) as [resp Hresp].
  unfold mbind at 1, M_bind at 1, liftO at 1. rewrite Hresp.
  destruct resp.
  { rewrite handleConnectResponse_ok by done.
    apply Hfin; eauto. unfold session_step. simpl. tauto. }
  unfold searchAuthInData.
  destruct (negb (String.eqb (Username s0) "")).
  { apply Hfin; eauto using session_step_refl. }
  destruct (searchLoop_cases clock (Z.to_nat (len data - 3)) 0 s0 data w1)
    as [[-> _]|(j & u & p & _ & _ & _ & ->)]; [lia | lia | |].
  - apply Hfin; eauto using session_step_refl.
  - destruct (reported_frame clock (extracted s0 u p (clock (tick w1))) (ticked w1))
      as (Ha & Hb & Hp & Ht & Ho).
    apply Hfin; try done.
    + unfold w1 in *. simpl in *. lia.
    + unfold session_step. simpl. tauto.
Qed.

(** An accepted fragment goes to the buffer, and the buffer is analysed. *)
Lemma AnalyzePacket_accepted data sip dip sp dp w :
  isSOCKS5Traffic data dp = Some true →
  AnalyzePacket clock data sip dip sp dp w
  = analyzeSOCKS5Protocol clock (sessionKeyOf sip dip sp dp)
      (appended w (sessionKeyOf sip dip sp dp) data) sip dip sp dp
      (buffered w (sessionKeyOf sip dip sp dp) data).
Proof.
  intros Hok. unfold AnalyzePacket. cbv zeta.
  unfold mbind at 1, M_bind at 1, liftO at 1. rewrite Hok.
  change (negb true) with false. cbv iota.
  unfold mbind at 1, M_bind at 1. rewrite accumulatePacket_eq.
  unfold mbind at 1, M_bind at 1, getMon at 1. simpl mon. simpl packetBuffer.
  rewrite lookup_insert_eq. done.
Qed.

Lemma AnalyzePacket_rejected data sip dip sp dp w :
  isSOCKS5Traffic data dp = Some false →
  AnalyzePacket clock data sip dip sp dp w = Some (tt, w).
Proof.
  intros Hok. unfold AnalyzePacket. cbv zeta.
  unfold mbind at 1, M_bind at 1, liftO at 1. rewrite Hok. done.
Qed.

End Shape.

(** ** Which traffic is accepted *)

Lemma socksports_test p : existsb (Z.eqb p) socksports = true ↔ In p socksports.
Proof.
  rewrite existsb_exists. split.
  - intros (q & Hq & Heq). apply Z.eqb_eq in Heq. by subst.
  - intros Hp. exists p. split; [done|apply Z.eqb_refl].
Qed.

Lemma isSOCKS5Traffic_spec data dstPort :
  isSOCKS5Traffic data dstPort = Some true ↔ accepted data dstPort.
Proof.
  unfold isSOCKS5Traffic, accepted, andM, byte_eq.
  destruct (existsb (Z.eqb dstPort) socksports) eqn:Ep.
  { apply socksports_test in Ep. tauto. }
  assert (Hp : ¬ In dstPort socksports).
  { intros Hin. apply socksports_test in Hin. congruence. }
  set (P := In dstPort socksports) in *.
  destruct data as [|b0 [|b1 rest]].
  - change (len (@nil byte)) with 0. simpl. split; [discriminate|].
    intros [?|[(b & r & ?)|(r & ?)]]; [tauto|discriminate..].
  - change (index [b0] 0) with (Some b0). change (len [b0]) with 1. simpl.
    destruct (Z.eqb_spec (u8 b0) 1) as [Hv|Hv].
    + assert (b0 = x01) as -> by (by apply u8_inj). split; [eauto|done].
    + split; [discriminate|].
      intros [?|[(b & r & ?)|(r & [= ->])]]; [tauto|discriminate|]. by destruct Hv.
  - change (index (b0 :: b1 :: rest) 0) with (Some b0).
    assert ((2 <=? len (b0 :: b1 :: rest)) = true) as ->.
    { apply Z.leb_le. unfold len. simpl. lia. }
    assert ((1 <=? len (b0 :: b1 :: rest)) = true) as ->.
    { apply Z.leb_le. unfold len. simpl. lia. }
    cbn [mbind option_bind].
    destruct (Z.eqb_spec (u8 b0) 5) as [Hv|Hv].
    + assert (b0 = x05) as -> by (by apply u8_inj). split; [eauto 6|done].
    + destruct (Z.eqb_spec (u8 b0) 1) as [Hw|Hw].
      * assert (b0 = x01) as -> by (by apply u8_inj). split; [eauto 6|done].
      * split; [discriminate|].
        intros [?|[(b & r & [= -> _ _])|(r & [= -> _])]]; [tauto|by destruct Hv|by destruct Hw].
Qed.

Lemma isSOCKS5Traffic_false data dstPort :
  ¬ accepted data dstPort → isSOCKS5Traffic data dstPort = Some false.
Proof.
  intros Hn. destruct (isSOCKS5Traffic_total data dstPort) as [[] H]; [|done].
  apply isSOCKS5Traffic_spec in H. done.
Qed.

Section Calls.

Variable clock : nat → Z.

(** One call of [AnalyzePacket]. *)
Lemma AnalyzePacket_shape data sip dip sp dp w :
  ∃ w', AnalyzePacket clock data sip dip sp dp w = Some (tt, w') ∧
        targetPID (mon w') = targetPID (mon w) ∧
        (tick w ≤ tick w')%nat ∧
        (stdout w' = stdout w ∨ ∃ r, stdout w' = r :: stdout w) ∧
        (¬ accepted data dp → w' = w) ∧
        (accepted data dp →
         packetBuffer (mon w')
         = <[sessionKeyOf sip dip sp dp := appended w (sessionKeyOf sip dip sp dp) data]>
             (packetBuffer (mon w)) ∧
         (len (appended w (sessionKeyOf sip dip sp dp) data) < 2 →
          authSessions (mon w') = authSessions (mon w)) ∧
         (2 ≤ len (appended w (sessionKeyOf sip dip sp dp) data) →
          ∃ s', authSessions (mon w')
                = <[sessionKeyOf sip dip sp dp := s']> (authSessions (mon w)) ∧
                session_step (session_before w (sessionKeyOf sip dip sp dp) dip dp) s')).
Proof.
  destruct (isSOCKS5Traffic_total data dp) as [[] Hok].
  - rewrite AnalyzePacket_accepted by done.
    set (key := sessionKeyOf sip dip sp dp).
    destruct (analyze_shape clock key (appended w key data) sip dip sp dp
                (buffered w key data))
      as (w' & Hrun & Hb & Hp & Ht & Ho & Hshort & Hlong).
    exists w'. split; [exact Hrun|]. simpl in *.
    split; [done|]. split; [done|]. split; [done|].
    split; [intros Hn | intros _].
    + exfalso. apply Hn. by apply isSOCKS5Traffic_spec.
    + split; [done|]. split; [|done].
      intros Hs. rewrite (Hshort Hs). done.
  - rewrite AnalyzePacket_rejected by done. exists w.
    split; [done|]. split; [done|]. split; [lia|]. split; [by left|].
    split; [done|]. intros Ha. apply isSOCKS5Traffic_spec in Ha. congruence.
Qed.

End Calls.

(** ** What a call changes *)

(** X1. A call of [AnalyzePacket] never panics and changes nothing outside
    its own connection: the session and the buffer of every other key, and
    the pid, are as before. *)
Theorem AnalyzePacket_touches_only_its_connection
    (clock : nat → Z) (data : list byte) (srcIP dstIP : string)
    (srcPort dstPort : Z) (w : World) (key' : string) :
  key' ≠ sessionKeyOf srcIP dstIP srcPort dstPort →
  ∃ w', AnalyzePacket clock data srcIP dstIP srcPort dstPort w = Some (tt, w') ∧
        session_at w' key' = session_at w key' ∧
        buffer_at w' key' = buffer_at w key' ∧
        targetPID (mon w') = targetPID (mon w).
Proof.
  intros Hne.
  destruct (AnalyzePacket_shape clock data srcIP dstIP srcPort dstPort w)
    as (w' & Hrun & Hp & _ & _ & Hrej & Hacc).
  exists w'. split; [exact Hrun|].
  destruct (isSOCKS5Traffic_total data dstPort) as [[] Hok].
  - apply isSOCKS5Traffic_spec in Hok. destruct (Hacc Hok) as (Hb & Hshort & Hlong).
    unfold session_at, buffer_at. rewrite Hb, lookup_insert_ne by done.
    split; [|done].
    destruct (Z.ltb_spec (len (appended w (sessionKeyOf srcIP dstIP srcPort dstPort) data)) 2)
      as [Hs|Hl].
    + by rewrite (Hshort Hs).
    + destruct (Hlong Hl) as (s' & -> & _). by rewrite lookup_insert_ne.
  - rewrite (Hrej (λ Ha, ltac:(apply isSOCKS5Traffic_spec in Ha; congruence))). done.
Qed.

(** Witness of X1: the frame of "bob" on one connection leaves the session
    and the buffer of "new" in [reaper_world] in place. *)
Lemma AnalyzePacket_touches_only_its_connection_new :
  ∃ w', AnalyzePacket clk bob_frame "10.0.0.1" "10.0.0.2" 49152 1080 reaper_world
        = Some (tt, w') ∧
        session_at w' "new" = session_at reaper_world "new" ∧
        buffer_at w' "new" = Some bob_frame.
Proof.
  destruct (AnalyzePacket_touches_only_its_connection clk bob_frame
              "10.0.0.1" "10.0.0.2" 49152 1080 reaper_world "new")
    as (w' & Hrun & Hs & Hb & _); [vm_compute; discriminate|].
  exists w'. split; [exact Hrun|]. split; [exact Hs|]. rewrite Hb. reflexivity.
Defined.

(** X2. [AnalyzePacket] looks at a fragment only if its destination port is
    one of the eight proxy ports, or it has two bytes or more and starts with
    0x05, or it starts with 0x01.  Such a fragment is appended to the buffer
    of its connection (cut to 4096 bytes); any other fragment leaves the
    monitor, the output and the clock exactly as they were. *)
Theorem AnalyzePacket_filters_traffic
    (clock : nat → Z) (data : list byte) (srcIP dstIP : string)
    (srcPort dstPort : Z) (w : World) :
  ∃ w', AnalyzePacket clock data srcIP dstIP srcPort dstPort w = Some (tt, w') ∧
        (accepted data dstPort →
         buffer_at w' (sessionKeyOf srcIP dstIP srcPort dstPort)
         = Some (take (Z.to_nat 4096)
                   (default [] (buffer_at w (sessionKeyOf srcIP dstIP srcPort dstPort))
                    ++ data))) ∧
        (¬ accepted data dstPort → w' = w).
Proof.
  destruct (AnalyzePacket_shape clock data srcIP dstIP srcPort dstPort w)
    as (w' & Hrun & _ & _ & _ & Hrej & Hacc).
  exists w'. split; [exact Hrun|]. split; [|exact Hrej].
  intros Ha. destruct (Hacc Ha) as (Hb & _).
  unfold buffer_at at 1. rewrite Hb, lookup_insert_eq. done.
Qed.

(** ** Invariants of the store *)

Lemma store_ok_fresh pid t0 : store_ok (fresh pid t0).
Proof.
  intros key. unfold buffer_at, session_at. simpl.
  split; intros ?; rewrite lookup_empty; discriminate.
Qed.

Lemma reachable_status_step s s' :
  session_step s s' → Status s ∈ reachable_statuses → Status s' ∈ reachable_statuses.
Proof.
  intros (_ & _ & _ & _ & _ & _ & [-> | [-> | [-> | ->]]]) Hs; [done|..];
    unfold reachable_statuses; rewrite !elem_of_cons; tauto.
Qed.

Section StoreInvariant.

Variable clock : nat → Z.

Lemma store_ok_AnalyzePacket data sip dip sp dp w w' :
  AnalyzePacket clock data sip dip sp dp w = Some (tt, w') →
  store_ok w → store_ok w'.
Proof.
  intros Hrun Hok.
  destruct (AnalyzePacket_shape clock data sip dip sp dp w)
    as (w2 & Hrun2 & _ & _ & _ & Hrej & Hacc).
  rewrite Hrun in Hrun2. injection Hrun2 as <-.
  destruct (isSOCKS5Traffic_total data dp) as [[] Ht]; cycle 1.
  { rewrite (Hrej (λ Ha, ltac:(apply isSOCKS5Traffic_spec in Ha; congruence))). done. }
  apply isSOCKS5Traffic_spec in Ht. destruct (Hacc Ht) as (Hb & Hshort & Hlong).
  remember (sessionKeyOf sip dip sp dp) as k eqn:Hk. clear Hk.
  assert (Hbuf : ∀ key, is_Some (buffer_at w key) → is_Some (buffer_at w' key)).
  { intros key Hk. unfold buffer_at in *. rewrite Hb.
    destruct (decide (k = key)) as [<-|Hne];
      [rewrite lookup_insert_eq; eauto | by rewrite lookup_insert_ne]. }
  intros key. split.
  - intros buf. unfold buffer_at. rewrite Hb.
    destruct (decide (k = key)) as [<-|Hne].
    + rewrite lookup_insert_eq. intros [= <-]. unfold appended. apply len_take_le. lia.
    + rewrite lookup_insert_ne by done. apply (Hok key).
  - intros s. unfold session_at.
    destruct (Z.ltb_spec (len (appended w k data)) 2) as [Hs|Hl].
    + rewrite (Hshort Hs). intros Hse.
      destruct (proj2 (Hok key) s Hse) as (Hbs & Hrest). split; [by apply Hbuf|done].
    + destruct (Hlong Hl) as (s' & -> & Hstep).
      destruct (decide (k = key)) as [<-|Hne].
      * rewrite lookup_insert_eq. intros [= <-].
        split; [unfold buffer_at; rewrite Hb, lookup_insert_eq; eauto|].
        assert (Hs0 : let s0 := session_before w k dip dp in
                      SessionID s0 = k ∧ TargetHost s0 = "" ∧ TargetPort s0 = 0 ∧
                      ConnectTime s0 = zeroTime ∧ Status s0 ∈ reachable_statuses).
        { unfold session_before. destruct (session_at w k) as [s0|] eqn:E; simpl.
          - destruct (proj2 (Hok k) s0 E) as (_ & ? & ? & ? & ? & ?). done.
          - repeat split; try done. unfold reachable_statuses.
            rewrite !elem_of_cons. tauto. }
        destruct Hs0 as (Hi & Hh & Hpo & Hc & Hst).
        pose proof (reachable_status_step _ _ Hstep Hst).
        destruct Hstep as (-> & _ & _ & -> & -> & -> & _). done.
      * rewrite lookup_insert_ne by done. intros Hse.
        destruct (proj2 (Hok key) s Hse) as (Hbs & Hrest). split; [by apply Hbuf|done].
Qed.

Lemma store_ok_CleanupSessions w w' :
  CleanupSessions clock w = Some (tt, w') → store_ok w → store_ok w'.
Proof.
  unfold CleanupSessions, time_Now, getMon, putMon. exec. intros [= <-] Hok key.
  destruct (sweep_spec (clock (tick w)) (mon w)) as (_ & _ & Hk).
  destruct (Hk key) as [Ha Hb]. destruct (Hok key) as [Hcap Hses].
  unfold buffer_at, session_at in *. simpl. rewrite Ha, Hb. split.
  - intros buf. destruct (authSessions (mon w) !! key) as [s|]; [|apply Hcap].
    destruct (stale _ s); [discriminate|apply Hcap].
  - intros s. destruct (authSessions (mon w) !! key) as [s0|]; simpl; [|discriminate].
    destruct (stale _ s0); [discriminate|]. intros [= <-]. by apply Hses.
Qed.

Lemma store_ok_run cs w w' :
  run clock cs w = Some (tt, w') → store_ok w → store_ok w'.
Proof.
  revert w. induction cs as [|c cs IH]; intros w; simpl.
  { intros [= <-]. done. }
  unfold mbind, M_bind. destruct (do_call clock c w) as [[[] w1]|] eqn:E; [|discriminate].
  intros Hrun Hok. apply (IH w1 Hrun).
  destruct c; simpl in E.
  - by apply (store_ok_AnalyzePacket _ _ _ _ _ _ _ E).
  - by apply (store_ok_CleanupSessions _ _ E).
Qed.

End StoreInvariant.

(** X3. After any sequence of [AnalyzePacket] and [CleanupSessions] calls on
    a new monitor, every buffer holds at most 4096 bytes, and every session
    has a buffer under the same key and carries that key as its
    [SessionID]. *)
Theorem store_stays_bounded_and_keyed
    (clock : nat → Z) (pid : Z) (t0 : nat) (cs : list call) :
  ∃ w', run clock cs (fresh pid t0) = Some (tt, w') ∧
        (∀ key buf, buffer_at w' key = Some buf → len buf ≤ 4096) ∧
        (∀ key s, session_at w' key = Some s →
                  is_Some (buffer_at w' key) ∧ SessionID s = key).
Proof.
  destruct (run_total clock cs (fresh pid t0)) as [w' Hrun].
  pose proof (store_ok_run clock cs _ _ Hrun (store_ok_fresh pid t0)) as Hok.
  exists w'. split; [exact Hrun|]. split.
  - intros key. apply (Hok key).
  - intros key s Hs. destruct (proj2 (Hok key) s Hs) as (? & ? & _). done.
Qed.

(** X4. After any sequence of calls on a new monitor, no session has a
    target host, a target port or a connect time, and the status of every
    session is one of "connecting", "authenticated", "connected" and
    "credentials extracted": the dispatch never reaches
    [handleConnectRequest] nor the failure branch of
    [handleConnectResponse]. *)
Theorem no_session_ever_gets_a_target
    (clock : nat → Z) (pid : Z) (t0 : nat) (cs : list call) :
  ∃ w', run clock cs (fresh pid t0) = Some (tt, w') ∧
        ∀ key s, session_at w' key = Some s →
                 TargetHost s = "" ∧ TargetPort s = 0 ∧ ConnectTime s = zeroTime ∧
                 Status s ∈ reachable_statuses.
Proof.
  destruct (run_total clock cs (fresh pid t0)) as [w' Hrun].
  pose proof (store_ok_run clock cs _ _ Hrun (store_ok_fresh pid t0)) as Hok.
  exists w'. split; [exact Hrun|].
  intros key s Hs. destruct (proj2 (Hok key) s Hs) as (_ & _ & ? & ? & ? & ?). done.
Qed.

(** ** Fragments of one frame *)

Lemma run_app clock cs1 cs2 w :
  run clock (cs1 ++ cs2) w
  = match run clock cs1 w with
    | Some (_, w1) => run clock cs2 w1
    | None => None
    end.
Proof.
  revert w. induction cs1 as [|c cs1 IH]; intros w; simpl; [done|].
  unfold mbind, M_bind. destruct (do_call clock c w) as [[[] w1]|]; [apply IH|done].
Qed.

Section Fragments.

Variable clock : nat → Z.

(** The fragment that completes a frame in the buffer: the credentials are
    stored. *)
Lemma AnalyzePacket_completes_frame data ul uname pl passwd rest sip dip sp dp w :
  accepted data dp →
  appended w (sessionKeyOf sip dip sp dp) data = auth_frame ul uname pl passwd rest →
  u8 ul = len uname → u8 pl = len passwd →
  ∃ w', AnalyzePacket clock data sip dip sp dp w = Some (tt, w') ∧
        session_at w' (sessionKeyOf sip dip sp dp)
        = Some (authenticated (session_before w (sessionKeyOf sip dip sp dp) dip dp)
                  uname passwd (clock (tick w))) ∧
        buffer_at w' (sessionKeyOf sip dip sp dp)
        = Some (auth_frame ul uname pl passwd rest).
Proof.
  intros Ha Hbuf Hu Hp.
  rewrite AnalyzePacket_accepted by (by apply isSOCKS5Traffic_spec).
  rewrite Hbuf.
  destruct (analyze_auth_frame clock (sessionKeyOf sip dip sp dp) ul uname pl passwd rest
              sip dip sp dp (buffered w (sessionKeyOf sip dip sp dp) data) Hu Hp)
    as (w' & Hrun & Hs & _ & _ & _ & Hb).
  exists w'. split; [exact Hrun|]. split; [exact Hs|].
  unfold buffer_at. rewrite Hb. simpl. rewrite lookup_insert_eq. by rewrite Hbuf.
Qed.

(** After the fragments of one connection, all accepted, the buffer is the
    first 4096 bytes of what came. *)
Lemma deliver_buffer frags sip dip sp dp w :
  Forall (λ f, accepted f dp) frags →
  len (default [] (buffer_at w (sessionKeyOf sip dip sp dp))) ≤ 4096 →
  ∃ w', run clock (deliver frags sip dip sp dp) w = Some (tt, w') ∧
        default [] (buffer_at w' (sessionKeyOf sip dip sp dp))
        = take (Z.to_nat 4096)
            (default [] (buffer_at w (sessionKeyOf sip dip sp dp)) ++ concat frags).
Proof.
  intros Hall. revert w. induction Hall as [|f frags Hf _ IH]; intros w Hcap.
  - exists w. simpl. rewrite app_nil_r, take_ge by (unfold len in *; lia). done.
  - simpl. unfold mbind, M_bind.
    destruct (AnalyzePacket_shape clock f sip dip sp dp w)
      as (w1 & -> & _ & _ & _ & _ & Hacc).
    destruct (Hacc Hf) as (Hb & _).
    assert (Hb1 : buffer_at w1 (sessionKeyOf sip dip sp dp)
                  = Some (appended w (sessionKeyOf sip dip sp dp) f)).
    { unfold buffer_at. rewrite Hb. apply lookup_insert_eq. }
    destruct (IH w1) as (w' & Hrun & Hbuf).
    { rewrite Hb1. simpl. apply len_take_le. lia. }
    exists w'. split; [exact Hrun|]. rewrite Hbuf, Hb1. simpl.
    unfold appended. rewrite take_take_app, app_assoc. done.
Qed.

End Fragments.

(** X5. A username/password frame that arrives in any number of fragments,
    each of them accepted by the traffic filter, on a connection with no
    buffer yet: once the last fragment is in, the session holds exactly the
    declared username and password with the status "authenticated". *)
Theorem fragmented_frame_is_reassembled
    (clock : nat → Z) (frags : list (list byte)) (last : list byte)
    (ul pl : byte) (uname passwd rest : list byte)
    (srcIP dstIP : string) (srcPort dstPort : Z) (w : World) :
  Forall (λ f, accepted f dstPort) (frags ++ [last]) →
  buffer_at w (sessionKeyOf srcIP dstIP srcPort dstPort) = None →
  concat (frags ++ [last]) = auth_frame ul uname pl passwd rest →
  u8 ul = len uname → u8 pl = len passwd →
  ∃ w' s,
    run clock (deliver (frags ++ [last]) srcIP dstIP srcPort dstPort) w = Some (tt, w') ∧
    session_at w' (sessionKeyOf srcIP dstIP srcPort dstPort) = Some s ∧
    Username s = string_of_list_byte uname ∧
    Password s = string_of_list_byte passwd ∧
    Status s = status_authenticated.
Proof.
  intros Hall Hfresh Hcat Hu Hp.
  apply Forall_app in Hall as [Hfr Hlast]. rewrite Forall_singleton in Hlast.
  unfold deliver. rewrite map_app, run_app. fold (deliver frags srcIP dstIP srcPort dstPort).
  destruct (deliver_buffer clock frags srcIP dstIP srcPort dstPort w Hfr)
    as (w1 & -> & Hbuf).
  { rewrite Hfresh. simpl. unfold len. simpl. lia. }
  rewrite Hfresh in Hbuf. simpl in Hbuf.
  pose proof (u8_range ul). pose proof (u8_range pl).
  destruct (take_auth_frame ul uname pl passwd rest) as [rest' Hcut]; [lia..|].
  destruct (AnalyzePacket_completes_frame clock last ul uname pl passwd rest'
              srcIP dstIP srcPort dstPort w1 Hlast) as (w' & Hrun & Hs & _); try done.
  { unfold appended. rewrite Hbuf, take_take_app.
    rewrite concat_app in Hcat. simpl in Hcat. rewrite app_nil_r in Hcat.
    by rewrite Hcat. }
  simpl. unfold mbind, M_bind. rewrite Hrun.
  eexists w', _. split; [done|]. split; [exact Hs|]. done.
Qed.

(** Witness of X5: the frame of "bob" in three fragments to port 1080. *)
Lemma fragmented_frame_is_reassembled_bob :
  ∃ w' s,
    run clk (deliver [[x01; x03; x62]; [x6f; x62; x03; x78]; [x79; x7a]]
               "10.0.0.1" "10.0.0.2" 49152 1080) (fresh 7 0) = Some (tt, w') ∧
    session_at w' "10.0.0.1:49152->10.0.0.2:1080" = Some s ∧
    Username s = "bob" ∧ Password s = "xyz" ∧ Status s = status_authenticated.
Proof.
  apply (fragmented_frame_is_reassembled clk
           [[x01; x03; x62]; [x6f; x62; x03; x78]] [x79; x7a]
           x03 x03 [x62; x6f; x62] [x78; x79; x7a] []
           "10.0.0.1" "10.0.0.2" 49152 1080 (fresh 7 0)).
  - repeat constructor; left; vm_compute; tauto.
  - reflexivity.
  - reflexivity.
  - reflexivity.
  - reflexivity.
Defined.

(** ** The two extractors, case by case *)

(** X6. The direct extractor is all or nothing: either it returns the
    session as it was, reads no clock and prints nothing, or the payload is
    laid out as 01 ULEN username PLEN password with the lengths it declares,
    and exactly those two fields are stored, with the time of the call and
    the status "authenticated". *)
Theorem direct_extractor_is_all_or_nothing
    (clock : nat → Z) (s : SOCKS5Session) (data : list byte) (w : World) :
  handleUsernamePasswordAuth clock s data w = Some (s, w) ∨
  ∃ ul uname pl passwd rest,
    data = auth_frame ul uname pl passwd rest ∧
    u8 ul = len uname ∧ u8 pl = len passwd ∧
    handleUsernamePasswordAuth clock s data w
    = Some (authenticated s uname passwd (clock (tick w)),
            reported clock (authenticated s uname passwd (clock (tick w))) (ticked w)).
Proof. apply handleUsernamePasswordAuth_cases. Qed.

Lemma searchAuthInData_cases clock s data w :
  searchAuthInData clock s data w = Some (s, w) ∨
  (Username s = "" ∧
   ∃ j u p,
     0 ≤ j ∧ candidateAt data j = Some (Some (u, p)) ∧
     (∀ k, 0 ≤ k < j → candidateAt data k = Some None) ∧
     searchAuthInData clock s data w
     = Some (extracted s u p (clock (tick w)),
             reported clock (extracted s u p (clock (tick w))) (ticked w))).
Proof.
  unfold searchAuthInData.
  destruct (String.eqb_spec (Username s) "") as [He|He]; simpl; [|by left].
  destruct (searchLoop_cases clock (Z.to_nat (len data - 3)) 0 s data w)
    as [[Hrun _]|(j & u & p & Hj & Hc & Hnone & Hrun)]; [lia | lia | by left |].
  right. split; [done|]. exists j, u, p. repeat split; try done. lia.
Qed.

(** X7. The fallback scan never replaces credentials, and what it stores
    has passed every test: either it returns the session as it was, or the
    session had no username and the buffer holds, at some offset, a frame
    01 ULEN username PLEN password with both lengths in 1..63 and only
    printable bytes in both fields; those two fields are stored with the
    status "credentials extracted". *)
Theorem fallback_scan_stores_only_checked_frames
    (clock : nat → Z) (s : SOCKS5Session) (data : list byte) (w : World) :
  searchAuthInData clock s data w = Some (s, w) ∨
  (Username s = "" ∧
   ∃ pre ul uname pl passwd rest,
     data = pre ++ auth_frame ul uname pl passwd rest ∧
     u8 ul = len uname ∧ u8 pl = len passwd ∧
     1 ≤ len uname ≤ 63 ∧ 1 ≤ len passwd ≤ 63 ∧
     printable uname ∧ printable passwd ∧
     searchAuthInData clock s data w
     = Some (extracted s (string_of_list_byte uname) (string_of_list_byte passwd)
               (clock (tick w)),
             reported clock
               (extracted s (string_of_list_byte uname) (string_of_list_byte passwd)
                  (clock (tick w))) (ticked w))).
Proof.
  destruct (searchAuthInData_cases clock s data w)
    as [H|(He & j & u & p & Hj & Hc & _ & Hrun)]; [by left|].
  right. split; [done|].
  destruct (candidateAt_found data j u p Hj Hc)
    as (pre & ul & uname & pl & passwd & rest & Hd & _ & Hu & Hp & Hul & Hpl & Hpu & Hpp & -> & ->).
  exists pre, ul, uname, pl, passwd, rest. done.
Qed.

Lemma index_prefix (pre suf : list byte) (k : Z) :
  0 ≤ k < len pre → ∃ b, index (pre ++ suf) k = Some b ∧ b ∈ pre.
Proof.
  intros Hk. destruct (index_lookup pre k Hk) as [b Hb].
  apply index_spec in Hb as [_ Hb]. exists b. split.
  - apply index_spec. split; [rewrite len_app; pose proof (len_nonneg suf); lia|].
    by apply lookup_app_l_Some.
  - by apply list_elem_of_lookup_2 in Hb.
Qed.

(** The scan over junk without a 0x01 byte followed by a checked frame. *)
Lemma searchAuthInData_after_junk clock s pre ul uname pl passwd rest w :
  Username s = "" → x01 ∉ pre →
  u8 ul = len uname → u8 pl = len passwd →
  1 ≤ len uname ≤ 63 → 1 ≤ len passwd ≤ 63 →
  printable uname → printable passwd →
  searchAuthInData clock s (pre ++ auth_frame ul uname pl passwd rest) w
  = Some (extracted s (string_of_list_byte uname) (string_of_list_byte passwd)
            (clock (tick w)),
          reported clock
            (extracted s (string_of_list_byte uname) (string_of_list_byte passwd)
               (clock (tick w))) (ticked w)).
Proof.
  intros He Hjunk Hu Hp Hul Hpl Hpu Hpp.
  pose proof (candidateAt_frame pre ul uname pl passwd rest Hu Hp Hul Hpl Hpu Hpp) as Hc.
  pose proof (frame_len pre ul pl uname passwd rest) as Hlen.
  pose proof (len_nonneg pre). pose proof (len_nonneg rest).
  unfold searchAuthInData. rewrite He. simpl.
  destruct (searchLoop_cases clock
              (Z.to_nat (len (pre ++ auth_frame ul uname pl passwd rest) - 3)) 0 s
              (pre ++ auth_frame ul uname pl passwd rest) w)
    as [[_ Hnone]|(j & u & p & Hj & Hcj & Hnone & ->)]; [lia | lia | |].
  - rewrite Hnone in Hc by lia. discriminate.
  - destruct (Z.lt_trichotomy j (len pre)) as [Hlt|[->|Hgt]].
    + destruct (index_prefix pre (auth_frame ul uname pl passwd rest) j) as (b & Hb & Hin);
        [lia|].
      rewrite (candidateAt_other _ j b Hb) in Hcj; [discriminate|].
      intros ->. done.
    + rewrite Hc in Hcj. by injection Hcj as <- <-.
    + rewrite Hnone in Hc by lia. discriminate.
Qed.

(** ** Stages other than the direct extraction *)

Lemma take_success_reply b2 b3 rest :
  ∃ rest', take (Z.to_nat 4096) (success_reply b2 b3 rest) = success_reply b2 b3 rest'.
Proof.
  exists (take (Z.to_nat 4096 - 4) rest). unfold success_reply.
  change (x05 :: x00 :: b2 :: b3 :: rest) with ([x05; x00; b2; b3] ++ rest).
  rewrite take_app_ge by (simpl; lia). done.
Qed.

Lemma success_reply_stage b2 b3 rest :
  isAuthNegotiation (success_reply b2 b3 rest) = Some false ∧
  isUsernamePasswordAuth (success_reply b2 b3 rest) = Some false ∧
  isConnectRequest (success_reply b2 b3 rest) = Some false ∧
  isConnectResponse (success_reply b2 b3 rest) = Some true.
Proof.
  assert (Hlen : len (success_reply b2 b3 rest) = 4 + len rest)
    by (unfold success_reply, len; simpl; lia).
  pose proof (len_nonneg rest).
  unfold isAuthNegotiation, isUsernamePasswordAuth, isConnectRequest, isConnectResponse,
    andM, byte_eq, byte_ge.
  assert (H0 : index (success_reply b2 b3 rest) 0 = Some x05)
    by (apply index_spec; split; [lia|done]).
  assert (H1 : index (success_reply b2 b3 rest) 1 = Some x00)
    by (apply index_spec; split; [lia|done]).
  rewrite H0, H1.
  destruct (Z.leb_spec 3 (len (success_reply b2 b3 rest))); [|lia].
  destruct (Z.leb_spec 4 (len (success_reply b2 b3 rest))); [|lia].
  done.
Qed.

Section Stages.

Variable clock : nat → Z.

(** X8. A reply 05 00 .. of four bytes or more that opens the buffer of a
    connection sets the status of its session to "connected" and changes
    nothing else: credentials stay, nothing is printed, no clock is read. *)
Theorem success_reply_marks_session_connected
    (b2 b3 : byte) (rest : list byte) (srcIP dstIP : string)
    (srcPort dstPort : Z) (w : World) :
  buffer_at w (sessionKeyOf srcIP dstIP srcPort dstPort) = None →
  ∃ w', AnalyzePacket clock (success_reply b2 b3 rest) srcIP dstIP srcPort dstPort w
        = Some (tt, w') ∧
        session_at w' (sessionKeyOf srcIP dstIP srcPort dstPort)
        = Some (set_Status
                  (session_before w (sessionKeyOf srcIP dstIP srcPort dstPort)
                     dstIP dstPort) status_connected) ∧
        stdout w' = stdout w ∧ tick w' = tick w ∧
        lastAuthReport (mon w') = lastAuthReport (mon w).
Proof.
  intros Hfresh.
  rewrite AnalyzePacket_accepted
    by (apply isSOCKS5Traffic_spec; right; left; unfold success_reply; eauto).
  unfold appended. rewrite Hfresh. simpl default. rewrite app_nil_l.
  destruct (take_success_reply b2 b3 rest) as [rest' ->].
  destruct (success_reply_stage b2 b3 rest') as (Hneg & Hupa & Hreq & Hresp).
  assert (2 ≤ len (success_reply b2 b3 rest'))
    by (unfold success_reply, len; simpl; lia).
  unfold analyzeSOCKS5Protocol.
  destruct (Z.ltb_spec (len (success_reply b2 b3 rest')) 2); [lia|].
  unfold mbind at 1, M_bind at 1. rewrite getOrCreateSession_eq. cbv zeta.
  unfold mbind at 1, M_bind at 1, liftO at 1. rewrite Hneg.
  unfold mbind at 1, M_bind at 1.
  unfold mbind at 1, M_bind at 1, liftO at 1. rewrite Hupa.
  unfold mbind at 1, M_bind at 1, liftO at 1. rewrite Hreq.
  unfold mbind at 1, M_bind at 1, liftO at 1. rewrite Hresp.
  rewrite handleConnectResponse_ok by done.
  unfold getMon, putMon, mbind, M_bind.
  eexists. split; [reflexivity|].
  unfold session_at, session_before. simpl. rewrite lookup_insert_eq. done.
Qed.

(** X9. A checked frame (lengths in 1..63, printable fields) that reaches
    the engine behind junk: the buffer starts with a byte other than 0x05
    and 0x01, no junk byte is 0x01, the port is a proxy port, the session has
    no username yet and everything fits in the buffer.  The fallback scan
    then stores exactly the two fields, with the status "credentials
    extracted". *)
Theorem misaligned_frame_is_found_by_fallback_scan
    (b : byte) (pre : list byte) (ul pl : byte) (uname passwd rest : list byte)
    (srcIP dstIP : string) (srcPort dstPort : Z) (w : World) :
  In dstPort socksports →
  b ≠ x05 → b ≠ x01 → x01 ∉ pre →
  buffer_at w (sessionKeyOf srcIP dstIP srcPort dstPort) = None →
  Username (session_before w (sessionKeyOf srcIP dstIP srcPort dstPort) dstIP dstPort) = "" →
  len (b :: pre ++ auth_frame ul uname pl passwd rest) ≤ 4096 →
  u8 ul = len uname → u8 pl = len passwd →
  1 ≤ len uname ≤ 63 → 1 ≤ len passwd ≤ 63 →
  printable uname → printable passwd →
  ∃ w', AnalyzePacket clock (b :: pre ++ auth_frame ul uname pl passwd rest)
          srcIP dstIP srcPort dstPort w = Some (tt, w') ∧
        session_at w' (sessionKeyOf srcIP dstIP srcPort dstPort)
        = Some (extracted
                  (session_before w (sessionKeyOf srcIP dstIP srcPort dstPort)
                     dstIP dstPort)
                  (string_of_list_byte uname) (string_of_list_byte passwd)
                  (clock (tick w))).
Proof.
  intros Hport Hb5 Hb1 Hjunk Hfresh He Hfit Hu Hp Hul Hpl Hpu Hpp.
  set (data := b :: pre ++ auth_frame ul uname pl passwd rest) in *.
  rewrite AnalyzePacket_accepted by (apply isSOCKS5Traffic_spec; by left).
  unfold appended. rewrite Hfresh. simpl default. rewrite app_nil_l.
  rewrite take_ge by (unfold len in Hfit; lia).
  assert (H0 : index data 0 = Some b).
  { apply index_spec. split; [|done]. unfold data, len. simpl. lia. }
  assert (Hlen : 5 ≤ len data).
  { pose proof (frame_len (b :: pre) ul pl uname passwd rest) as Hl.
    pose proof (len_nonneg (b :: pre)). pose proof (len_nonneg rest).
    change ((b :: pre) ++ auth_frame ul uname pl passwd rest) with data in Hl. lia. }
  assert (Hn5 : (u8 b =? 5) = false).
  { apply Z.eqb_neq. intros Hv. apply Hb5. by apply u8_inj. }
  assert (Hn1 : (u8 b =? 1) = false).
  { apply Z.eqb_neq. intros Hv. apply Hb1. by apply u8_inj. }
  assert (Hneg : isAuthNegotiation data = Some false).
  { unfold isAuthNegotiation, andM, byte_eq. rewrite H0.
    destruct (Z.leb_spec 3 (len data)); [|lia]. simpl. by rewrite Hn5. }
  assert (Hupa : isUsernamePasswordAuth data = Some false).
  { unfold isUsernamePasswordAuth, andM, byte_eq. rewrite H0.
    destruct (Z.leb_spec 3 (len data)); [|lia]. simpl. by rewrite Hn1. }
  assert (Hreq : isConnectRequest data = Some false).
  { unfold isConnectRequest, andM, byte_eq. rewrite H0.
    destruct (Z.leb_spec 4 (len data)); [|lia]. simpl. by rewrite Hn5. }
  assert (Hresp : isConnectResponse data = Some false).
  { unfold isConnectResponse, andM, byte_eq. rewrite H0.
    destruct (Z.leb_spec 4 (len data)); [|lia]. simpl. by rewrite Hn5. }
  unfold analyzeSOCKS5Protocol.
  destruct (Z.ltb_spec (len data) 2); [lia|].
  unfold mbind at 1, M_bind at 1. rewrite getOrCreateSession_eq. cbv zeta.
  unfold mbind at 1, M_bind at 1, liftO at 1. rewrite Hneg.
  unfold mbind at 1, M_bind at 1.
  unfold mbind at 1, M_bind at 1, liftO at 1. rewrite Hupa.
  unfold mbind at 1, M_bind at 1, liftO at 1. rewrite Hreq.
  unfold mbind at 1, M_bind at 1, liftO at 1. rewrite Hresp.
  change data with ((b :: pre) ++ auth_frame ul uname pl passwd rest).
  rewrite searchAuthInData_after_junk; try done.
  - unfold getMon, putMon, mbind, M_bind.
    eexists. split; [reflexivity|].
    unfold session_at, session_before. simpl. rewrite lookup_insert_eq. done.
  - rewrite not_elem_of_cons. split; [congruence|done].
Qed.

(** X10. Once the buffer of a connection opens with a complete frame,
    every later fragment the filter accepts runs the same extraction again,
    whatever it holds: the session keeps that username and password, its
    status is "authenticated" and its authentication time is the time of
    the latest call. *)
Theorem later_fragments_repeat_the_extraction
    (data : list byte) (ul pl : byte) (uname passwd rest : list byte)
    (srcIP dstIP : string) (srcPort dstPort : Z) (w : World) :
  accepted data dstPort →
  buffer_at w (sessionKeyOf srcIP dstIP srcPort dstPort)
  = Some (auth_frame ul uname pl passwd rest) →
  u8 ul = len uname → u8 pl = len passwd →
  ∃ w', AnalyzePacket clock data srcIP dstIP srcPort dstPort w = Some (tt, w') ∧
        session_at w' (sessionKeyOf srcIP dstIP srcPort dstPort)
        = Some (authenticated
                  (session_before w (sessionKeyOf srcIP dstIP srcPort dstPort)
                     dstIP dstPort)
                  uname passwd (clock (tick w))).
Proof.
  intros Ha Hbuf Hu Hp.
  pose proof (u8_range ul). pose proof (u8_range pl).
  destruct (take_auth_frame ul uname pl passwd (rest ++ data)) as [rest' Hcut]; [lia..|].
  destruct (AnalyzePacket_completes_frame clock data ul uname pl passwd rest'
              srcIP dstIP srcPort dstPort w Ha) as (w' & Hrun & Hs & _); try done.
  { unfold appended. rewrite Hbuf. simpl default. rewrite <- Hcut. f_equal.
    unfold auth_frame. cbn [app]. do 2 f_equal.
    rewrite <- app_assoc. cbn [app]. by rewrite <- app_assoc. }
  exists w'. done.
Qed.

(** X11. Outside the cooldown an authentication is reported: when the
    clock reading taken by [time.Since] is a minute or more after
    [lastAuthReport], exactly one report is printed, it carries the session
    as just stored and the pid of the monitor, and [lastAuthReport] becomes
    the next clock reading. *)
Theorem authentication_outside_cooldown_is_reported
    (ul pl : byte) (uname passwd rest : list byte)
    (srcIP dstIP : string) (srcPort dstPort : Z) (w : World) :
  u8 ul = len uname → u8 pl = len passwd →
  buffer_at w (sessionKeyOf srcIP dstIP srcPort dstPort) = None →
  Minute ≤ clock (S (tick w)) - lastAuthReport (mon w) →
  ∃ w', AnalyzePacket clock (auth_frame ul uname pl passwd rest)
          srcIP dstIP srcPort dstPort w = Some (tt, w') ∧
        stdout w'
        = {| rep_at := clock (S (S (tick w)));
             rep_session :=
               authenticated
                 (session_before w (sessionKeyOf srcIP dstIP srcPort dstPort)
                    dstIP dstPort)
                 uname passwd (clock (tick w));
             rep_pid := targetPID (mon w) |} :: stdout w ∧
        lastAuthReport (mon w') = clock (S (S (tick w))).
Proof.
  intros Hu Hp Hfresh Hout.
  destruct (AnalyzePacket_auth_frame clock ul uname pl passwd rest
              srcIP dstIP srcPort dstPort w Hu Hp Hfresh)
    as (w' & Hrun & _ & Ho & Hl & _).
  exists w'. split; [exact Hrun|].
  unfold reported in Ho, Hl. simpl in Ho, Hl.
  destruct (Z.ltb_spec (Sub (clock (S (tick w))) (lastAuthReport (mon w))) (1 * Minute))
    as [Hin|_].
  - exfalso. revert Hin Hout. unfold Sub, minDuration, maxDuration, Minute, Second. lia.
  - done.
Qed.

End Stages.

(** ** The parser of connect requests *)

Lemma port_decode (hi lo : byte) :
  uint16 (uint16 (Z.shiftl (u8 hi) 8) + u8 lo) = u8 hi * 256 + u8 lo.
Proof.
  pose proof (u8_range hi). pose proof (u8_range lo).
  unfold uint16. rewrite Z.shiftl_mul_pow2 by lia. change (2 ^ 8) with 256.
  change (2 ^ 16) with 65536.
  rewrite (Z.mod_small (u8 hi * 256)) by lia. apply Z.mod_small. lia.
Qed.

Lemma string_of_list_byte_empty (l : list byte) :
  String.eqb (string_of_list_byte l) "" = true ↔ l = [].
Proof.
  destruct l as [|b l]; simpl; [done|]. split; [discriminate|discriminate].
Qed.

Section ConnectRequest.

Variable clock : nat → Z.

Lemma handleConnectRequest_target s data w host port :
  4 ≤ len data → connectTarget data = Some (host, port) →
  handleConnectRequest clock s data w
  = if String.eqb host "" then Some (s, w)
    else Some (set_target s host port (clock (tick w)),
               after_target clock (set_target s host port (clock (tick w))) w).
Proof.
  intros Hlen Ht. unfold handleConnectRequest.
  destruct (Z.ltb_spec (len data) 4); [lia|].
  destruct (index_lookup data 1) as [cmd Hc]; [lia|].
  unfold mbind at 1, M_bind at 1, liftO at 1. rewrite Hc.
  unfold mbind at 1, M_bind at 1, liftO at 1. rewrite Ht.
  destruct (String.eqb host ""); [done|].
  unfold mbind at 1, M_bind at 1, time_Now at 1.
  unfold after_target, set_target. simpl Username. fold (ticked w).
  destruct (String.eqb (Username s) "").
  - done.
  - unfold mbind, M_bind. rewrite printSOCKS5AuthReport_eq. done.
Qed.

(** X12. [handleConnectRequest] on a request with a domain name, whose
    length byte matches the name: the name and the port, the big-endian value
    of the two bytes after it, are stored with the time of the call, the
    credentials and the status stay, and a report is attempted only when the
    session has a username.  A name of length 0 stores nothing. *)
Theorem connect_request_domain_is_parsed
    (s : SOCKS5Session) (cmd rsv dl : byte) (domain : list byte) (hi lo : byte)
    (rest : list byte) (w : World) :
  u8 dl = len domain →
  handleConnectRequest clock s (domain_request cmd rsv dl domain hi lo rest) w
  = if decide (domain = []) then Some (s, w)
    else Some (set_target s (string_of_list_byte domain) (u8 hi * 256 + u8 lo)
                 (clock (tick w)),
               after_target clock
                 (set_target s (string_of_list_byte domain) (u8 hi * 256 + u8 lo)
                    (clock (tick w))) w).
Proof.
  intros Hd. set (data := domain_request cmd rsv dl domain hi lo rest).
  pose proof (len_nonneg domain). pose proof (len_nonneg rest).
  assert (Hlen : len data = 7 + len domain + len rest).
  { unfold data, domain_request. len_simpl. lia. }
  assert (H3 : index data 3 = Some x03).
  { by apply (index_at _ [x05; cmd; rsv] (dl :: domain ++ hi :: lo :: rest)). }
  assert (H4 : index data 4 = Some dl).
  { by apply (index_at _ [x05; cmd; rsv; x03] (domain ++ hi :: lo :: rest)). }
  assert (Hs : slice data 5 (5 + len domain) = Some domain).
  { by apply (slice_at _ [x05; cmd; rsv; x03; dl] _ (hi :: lo :: rest)). }
  assert (Hhi : index data (5 + len domain) = Some hi).
  { apply (index_at _ ([x05; cmd; rsv; x03; dl] ++ domain) (lo :: rest)).
    - unfold data, domain_request. by rewrite <- app_assoc.
    - len_simpl. lia. }
  assert (Hlo : index data (5 + len domain + 1) = Some lo).
  { apply (index_at _ ([x05; cmd; rsv; x03; dl] ++ domain ++ [hi]) rest).
    - unfold data, domain_request. by rewrite <- !app_assoc.
    - len_simpl. lia. }
  assert (Ht : connectTarget data
               = Some (string_of_list_byte domain, u8 hi * 256 + u8 lo)).
  { unfold connectTarget. rewrite H3. cbn [mbind option_bind].
    change (u8 x03 =? 1) with false. change (u8 x03 =? 3) with true. cbv iota.
    destruct (Z.leb_spec 5 (len data)); [|lia].
    rewrite H4. cbn [mbind option_bind]. rewrite Hd.
    destruct (Z.leb_spec (5 + len domain + 2) (len data)); [|lia].
    rewrite Hs, Hhi, Hlo. cbn [mbind option_bind]. by rewrite port_decode. }
  rewrite (handleConnectRequest_target s data w _ _ ltac:(lia) Ht).
  destruct (decide (domain = [])) as [->|Hne]; [done|].
  destruct (String.eqb (string_of_list_byte domain) "") eqn:E; [|done].
  apply string_of_list_byte_empty in E. done.
Qed.

(** X13. [handleConnectRequest] on a request with an IPv4 address stores
    the four address bytes in dotted decimal and the big-endian port; on a
    payload cut before the tenth byte it stores nothing. *)
Theorem connect_request_ipv4_is_parsed
    (s : SOCKS5Session) (cmd rsv a b c d hi lo : byte) (rest : list byte) (w : World) :
  (handleConnectRequest clock s (ipv4_request cmd rsv a b c d hi lo rest) w
   = Some (set_target s
             (itoa (u8 a) +:+ "." +:+ itoa (u8 b) +:+ "." +:+ itoa (u8 c) +:+ "."
              +:+ itoa (u8 d))
             (u8 hi * 256 + u8 lo) (clock (tick w)),
           after_target clock
             (set_target s
                (itoa (u8 a) +:+ "." +:+ itoa (u8 b) +:+ "." +:+ itoa (u8 c) +:+ "."
                 +:+ itoa (u8 d))
                (u8 hi * 256 + u8 lo) (clock (tick w))) w)) ∧
  (∀ n, (n < 10)%nat →
        handleConnectRequest clock s
          (take n (ipv4_request cmd rsv a b c d hi lo rest)) w = Some (s, w)).
Proof.
  split.
  - set (data := ipv4_request cmd rsv a b c d hi lo rest).
    pose proof (len_nonneg rest).
    assert (Hlen : len data = 10 + len rest).
    { unfold data, ipv4_request. len_simpl. lia. }
    assert (Hix : ∀ (k : Z) x,
                    0 ≤ k →
                    [x05; cmd; rsv; x01; a; b; c; d; hi; lo] !! Z.to_nat k = Some x →
                    index data k = Some x).
    { intros k x Hk0 Hk. apply index_spec. pose proof (lookup_lt_Some _ _ _ Hk) as Hl.
      simpl in Hl. split; [lia|]. unfold data, ipv4_request.
      by apply lookup_app_l_Some. }
    assert (Ht : connectTarget data
                 = Some (itoa (u8 a) +:+ "." +:+ itoa (u8 b) +:+ "." +:+ itoa (u8 c)
                         +:+ "." +:+ itoa (u8 d), u8 hi * 256 + u8 lo)).
    { unfold connectTarget.
      rewrite (Hix 3 x01 ltac:(lia) eq_refl). cbn [mbind option_bind].
      change (u8 x01 =? 1) with true. cbv iota.
      destruct (Z.leb_spec 10 (len data)); [|lia].
      rewrite (Hix 4 a ltac:(lia) eq_refl), (Hix 5 b ltac:(lia) eq_refl),
        (Hix 6 c ltac:(lia) eq_refl), (Hix 7 d ltac:(lia) eq_refl),
        (Hix 8 hi ltac:(lia) eq_refl), (Hix 9 lo ltac:(lia) eq_refl).
      cbn [mbind option_bind]. by rewrite port_decode. }
    rewrite (handleConnectRequest_target s data w _ _ ltac:(lia) Ht).
    destruct (String.eqb _ "") eqn:E; [|done].
    exfalso. revert E. generalize (u8 a). intros z.
    unfold itoa. destruct (NilZero.string_of_uint (N.to_uint (Z.to_N z))) eqn:Ez;
      [|discriminate].
    simpl. discriminate.
  - intros n Hn. set (data := take n (ipv4_request cmd rsv a b c d hi lo rest)).
    assert (Hlen : len data < 10).
    { unfold data, len. rewrite length_take. lia. }
    destruct (Z.ltb_spec (len data) 4) as [Hs|Hl].
    { unfold handleConnectRequest. destruct (Z.ltb_spec (len data) 4); [done|lia]. }
    assert (Hn4 : (4 ≤ n)%nat).
    { unfold data, len in Hl. rewrite length_take in Hl. lia. }
    assert (H3 : index data 3 = Some x01).
    { apply index_spec. split; [lia|]. unfold data.
      rewrite lookup_take_lt by lia. done. }
    assert (Ht : connectTarget data = Some ("", 0)).
    { unfold connectTarget. rewrite H3. cbn [mbind option_bind].
      change (u8 x01 =? 1) with true. cbv iota.
      destruct (Z.leb_spec 10 (len data)); [lia|done]. }
    rewrite (handleConnectRequest_target s data w _ _ ltac:(lia) Ht). done.
Qed.

End ConnectRequest.

(** ** The reaper and buffers without a session *)

(** X14. The reaper walks the sessions only: a buffer whose key has no
    session (the engine creates one for a payload of a single byte) is never
    removed, and a run of the reaper leaves the output, the cooldown stamp
    and the pid as they were. *)
Theorem reaper_keeps_buffers_without_session
    (clock : nat → Z) (w : World) (key : string) :
  session_at w key = None →
  ∃ w', CleanupSessions clock w = Some (tt, w') ∧
        session_at w' key = None ∧
        buffer_at w' key = buffer_at w key ∧
        stdout w' = stdout w ∧
        lastAuthReport (mon w') = lastAuthReport (mon w) ∧
        targetPID (mon w') = targetPID (mon w).
Proof.
  intros Hs. unfold CleanupSessions, time_Now, getMon, putMon. exec.
  eexists. split; [reflexivity|].
  destruct (sweep_spec (clock (tick w)) (mon w)) as (Hl & Hp & Hk).
  destruct (Hk key) as [Ha Hb].
  unfold session_at, buffer_at in *. simpl. rewrite Ha, Hb, Hs. done.
Qed.

(** Witness of X14: the buffer left by a one-byte payload survives. *)
Lemma reaper_keeps_buffers_without_session_one_byte :
  session_at after_one_byte "10.0.0.1:49152->10.0.0.2:1080" = None ∧
  ∃ w', CleanupSessions clk after_one_byte = Some (tt, w') ∧
        buffer_at w' "10.0.0.1:49152->10.0.0.2:1080" = Some [x01].
Proof.
  split; [reflexivity|].
  destruct (reaper_keeps_buffers_without_session clk after_one_byte
              "10.0.0.1:49152->10.0.0.2:1080" eq_refl) as (w' & Hrun & _ & Hb & _).
  exists w'. split; [exact Hrun|]. rewrite Hb. reflexivity.
Defined.

(** ** Instances *)

(** Witness of X8: a success reply on a new monitor. *)
Lemma success_reply_marks_session_connected_new :
  ∃ w', AnalyzePacket clk (success_reply x00 x01 [x00; x00; x00; x00; x00; x00])
          "10.0.0.1" "10.0.0.2" 49152 1080 (fresh 7 0) = Some (tt, w') ∧
        (Status <$> session_at w' "10.0.0.1:49152->10.0.0.2:1080")
        = Some status_connected ∧
        stdout w' = [].
Proof.
  destruct (success_reply_marks_session_connected clk x00 x01
              [x00; x00; x00; x00; x00; x00] "10.0.0.1" "10.0.0.2" 49152 1080
              (fresh 7 0) eq_refl) as (w' & Hrun & Hs & Ho & _).
  exists w'. split; [exact Hrun|]. split; [|exact Ho].
  change (sessionKeyOf "10.0.0.1" "10.0.0.2" 49152 1080)
    with "10.0.0.1:49152->10.0.0.2:1080" in Hs.
  rewrite Hs. reflexivity.
Defined.

(** Witness of X9: three junk bytes before the frame of "bob". *)
Lemma misaligned_frame_is_found_by_fallback_scan_bob :
  ∃ w', AnalyzePacket clk junk_then_bob "10.0.0.1" "10.0.0.2" 49152 1080 (fresh 7 0)
        = Some (tt, w') ∧
        session_at w' "10.0.0.1:49152->10.0.0.2:1080"
        = Some (extracted (new_session "10.0.0.1:49152->10.0.0.2:1080" "10.0.0.2" 1080)
                  "bob" "xyz" (clk 0)).
Proof.
  apply (misaligned_frame_is_found_by_fallback_scan clk x00 [xff; x05] x03 x03
           [x62; x6f; x62] [x78; x79; x7a] [] "10.0.0.1" "10.0.0.2" 49152 1080
           (fresh 7 0)).
  - vm_compute. tauto.
  - discriminate.
  - discriminate.
  - rewrite !not_elem_of_cons. repeat split; try discriminate. apply not_elem_of_nil.
  - reflexivity.
  - reflexivity.
  - vm_compute. discriminate.
  - reflexivity.
  - reflexivity.
  - vm_compute. split; discriminate.
  - vm_compute. split; discriminate.
  - repeat constructor; vm_compute; discriminate.
  - repeat constructor; vm_compute; discriminate.
Defined.

(** Witness of X10: after the frame of "bob", a success reply on the same
    connection does not change the stage. *)
Lemma later_fragments_repeat_the_extraction_bob :
  ∃ w', AnalyzePacket clk (success_reply x00 x01 []) "10.0.0.1" "10.0.0.2" 49152 1080
          after_first_report = Some (tt, w') ∧
        (Status <$> session_at w' "10.0.0.1:49152->10.0.0.2:1080")
        = Some status_authenticated ∧
        (Username <$> session_at w' "10.0.0.1:49152->10.0.0.2:1080") = Some "bob".
Proof.
  destruct (later_fragments_repeat_the_extraction clk (success_reply x00 x01 [])
              x03 x03 [x62; x6f; x62] [x78; x79; x7a] []
              "10.0.0.1" "10.0.0.2" 49152 1080 after_first_report)
    as (w' & Hrun & Hs).
  - right. left. unfold success_reply. eauto.
  - vm_compute. reflexivity.
  - reflexivity.
  - reflexivity.
  - exists w'. split; [exact Hrun|].
    change (sessionKeyOf "10.0.0.1" "10.0.0.2" 49152 1080)
      with "10.0.0.1:49152->10.0.0.2:1080" in Hs.
    rewrite Hs. split; reflexivity.
Defined.

(** Witness of X11: a second connection authenticates 68 clock readings
    after the first report and is reported. *)
Lemma authentication_outside_cooldown_is_reported_later :
  ∃ w', AnalyzePacket clk bob_frame "10.0.0.1" "10.0.0.2" 49153 1080 a_minute_later
        = Some (tt, w') ∧
        length (stdout w') = 2%nat ∧ lastAuthReport (mon w') = clk 72.
Proof.
  destruct (authentication_outside_cooldown_is_reported clk x03 x03
              [x62; x6f; x62] [x78; x79; x7a] []
              "10.0.0.1" "10.0.0.2" 49153 1080 a_minute_later)
    as (w' & Hrun & Ho & Hl);
    [reflexivity | reflexivity | vm_compute; reflexivity | vm_compute; discriminate |].
  exists w'. split; [exact Hrun|]. rewrite Ho, Hl. split; reflexivity.
Defined.

(** Witness of X12: the connect request for "example":443. *)
Lemma connect_request_domain_is_parsed_example :
  handleConnectRequest clk blank connect_example (fresh 7 0)
  = Some (set_target blank "example" 443 (clk 0), ticked (fresh 7 0)).
Proof.
  exact (connect_request_domain_is_parsed clk blank x01 x00 x07
           [x65; x78; x61; x6d; x70; x6c; x65] x01 xbb [] (fresh 7 0) eq_refl).
Defined.

Lemma load_be16_range frame off v :
  Kernel.load_be16 frame off = Some v → 0 ≤ v < 65536.
Proof.
  unfold Kernel.load_be16.
  destruct (Kernel.load8 frame off) as [hi|] eqn:Eh; [|done].
  destruct (Kernel.load8 frame (off + 1)) as [lo|] eqn:El; [|done].
  cbn [mbind option_bind]. intros [= <-].
  apply load8_range in Eh, El. lia.
Qed.

Lemma load_be32_range frame off v :
  Kernel.load_be32 frame off = Some v → 0 ≤ v < 2 ^ 32.
Proof.
  unfold Kernel.load_be32.
  destruct (Kernel.load_be16 frame off) as [hi|] eqn:Eh; [|done].
  destruct (Kernel.load_be16 frame (off + 2)) as [lo|] eqn:El; [|done].
  cbn [mbind option_bind]. intros [= <-].
  apply load_be16_range in Eh, El. lia.
Qed.

(** The header walk never loads outside the frame. *)
Lemma classify_total frame : is_Some (Kernel.classify frame).
Proof.
  unfold Kernel.classify.
  unfold Kernel.sizeof_ethhdr, Kernel.sizeof_iphdr, Kernel.sizeof_tcphdr.
  pose proof (len_nonneg frame).
  destruct (Z.ltb_spec (len frame) (0 + 14)); [done|].
  destruct (load_be16_at frame (0 + 12)) as [proto ->]; [lia..|].
  cbn [mbind option_bind].
  destruct (negb _); [done|].
  destruct (Z.ltb_spec (len frame) (0 + 14 + 20)); [done|].
  destruct (load8_at frame (0 + 14 + 9)) as [protocol ->]; [lia|].
  cbn [mbind option_bind].
  destruct (negb _); [done|].
  destruct (load8_at frame (0 + 14)) as [vihl ->]; [lia|].
  cbn [mbind option_bind].
  pose proof (nibble_low vihl).
  destruct (Z.ltb_spec (len frame) (0 + 14 + Z.land vihl 15 * 4 + 20)); [done|].
  destruct (load_be16_at frame (0 + 14 + Z.land vihl 15 * 4 + 2)) as [dport ->]; [lia..|].
  cbn [mbind option_bind].
  destruct (forallb _ _); [done|].
  destruct (load8_at frame (0 + 14 + Z.land vihl 15 * 4 + 12)) as [offs ->]; [lia|].
  cbn [mbind option_bind].
  destruct (_ <=? _); [done|]. destruct (_ <? _); done.
Qed.

(** The copy loop stays inside the frame and inside the 64-byte array
    whatever length it is asked to copy. *)
Lemma copy_loop_total frame src n :
  0 ≤ src →
  ∀ k i buf, 0 ≤ i → i + Z.of_nat k ≤ 63 → len buf = 64 →
    ∃ i' buf', Kernel.copy_loop k i frame src n buf = Some (i', buf') ∧
               i ≤ i' ≤ 63 ∧ len buf' = 64.
Proof.
  intros Hsrc. induction k as [|k IH]; intros i buf Hi Hk Hbuf.
  - exists i, buf. simpl. split; [done|]. lia.
  - simpl. destruct ((i <? n) && (i <? 63)) eqn:Eg.
    + destruct (Z.ltb_spec (len frame) (src + i + 1)).
      * exists i, buf. split; [done|]. lia.
      * destruct (index_lookup frame (src + i)) as [b Eb]; [lia|].
        rewrite Eb. cbn [mbind option_bind]. rewrite store_eq by lia.
        cbn [mbind option_bind].
        destruct (IH (i + 1) (<[Z.to_nat i:=b]> buf)) as (i' & buf' & E & Hi' & Hl);
          [lia | lia | unfold len in *; by rewrite length_insert |].
        exists i', buf'. split; [done|]. lia.
    + exists i, buf. split; [done|]. lia.
Qed.

Lemma copy_field_total frame src n :
  0 ≤ src → is_Some (Kernel.copy_field frame src n).
Proof.
  intros Hsrc. unfold Kernel.copy_field.
  destruct (copy_loop_total frame src n Hsrc 63%nat 0 (replicate 64 x00))
    as (i & buf & -> & Hi & Hl); [lia | lia | done |].
  cbn [mbind option_bind]. rewrite store_eq by lia. done.
Qed.

Lemma extract_total env frame h :
  Kernel.classify frame = Some (Kernel.Matching h) →
  is_Some (Kernel.extract env frame h).
Proof.
  intros Hc.
  destruct (classify_Matching frame h Hc)
    as (_ & Hpl3 & Hplen & _ & Hip & Hipfit & Htcp & Htcpfit & Hpay).
  unfold Kernel.extract, andM.
  destruct (Z.leb_spec 3 (Kernel.payload_len h)); [|lia].
  cbn [mbind option_bind].
  destruct (load8_at frame (Kernel.payload h)) as [b0 ->]; [lia|].
  cbn [mbind option_bind].
  destruct (b0 =? 1); [|done].
  destruct (load8_at frame (Kernel.payload h + 1)) as [ulen Eu]; [lia|].
  rewrite Eu. cbn [mbind option_bind].
  apply load8_range in Eu.
  destruct (Z.ltb_spec 0 ulen); [|done].
  destruct (Z.ltb_spec ulen 64); [|done].
  destruct (Z.leb_spec (2 + ulen + 1) (Kernel.payload_len h)); [|done].
  cbn [andb].
  destruct (load8_at frame (Kernel.payload h + 2 + ulen)) as [plen ->]; [lia|].
  cbn [mbind option_bind].
  destruct (_ && _); [|done].
  destruct (load_be32_at frame (Kernel.ip_off h + 12)) as [saddr ->]; [lia..|].
  destruct (load_be32_at frame (Kernel.ip_off h + 16)) as [daddr ->]; [lia..|].
  destruct (load_be16_at frame (Kernel.tcp_off h)) as [sport ->]; [lia..|].
  cbn [mbind option_bind].
  destruct (copy_field_total frame (Kernel.payload h + 2) ulen) as [ub ->]; [lia|].
  destruct (copy_field_total frame (Kernel.payload h + 2 + ulen + 1) plen)
    as [pb ->]; [lia|].
  done.
Qed.

(** X15. Whatever bytes the frame holds, the traffic monitor finishes: no
    load leaves the range data .. data_end and no store leaves the 64-byte
    arrays of the event. *)
Theorem traffic_monitor_never_reads_out_of_range env frame :
  is_Some (Kernel.container_traffic_monitor env frame).
Proof.
  unfold Kernel.container_traffic_monitor.
  destruct (classify_total frame) as [v Hv]. rewrite Hv. cbn [mbind option_bind].
  destruct v; try done. by apply extract_total.
Qed.

(** The fields of an emitted event, read back from the frame. *)
Lemma extract_event_fields env frame h e :
  Kernel.extract env frame h = Some (Some e) →
  Kernel.load_be32 frame (Kernel.ip_off h + 12) = Some (Kernel.src_ip e) ∧
  Kernel.load_be32 frame (Kernel.ip_off h + 16) = Some (Kernel.dst_ip e) ∧
  Kernel.load_be16 frame (Kernel.tcp_off h) = Some (Kernel.src_port e) ∧
  Kernel.dst_port e = Kernel.h_dst_port h ∧
  Kernel.copy_field frame (Kernel.payload h + 2) (Kernel.username_len e)
    = Some (Kernel.username e) ∧
  Kernel.copy_field frame (Kernel.payload h + 2 + Kernel.username_len e + 1)
      (Kernel.password_len e)
    = Some (Kernel.password e) ∧
  Kernel.pid e = Z.shiftr (Kernel.bpf_get_current_pid_tgid env) 32 mod 2 ^ 32 ∧
  Kernel.timestamp e = Kernel.bpf_ktime_get_ns env.
Proof.
  unfold Kernel.extract, andM. intros H.
  destruct (3 <=? Kernel.payload_len h);
    cbn [mbind option_bind] in H; [|discriminate].
  destruct (Kernel.load8 frame (Kernel.payload h)) as [b0|];
    cbn [mbind option_bind] in H; [|discriminate].
  destruct (b0 =? 1); [|discriminate].
  destruct (Kernel.load8 frame (Kernel.payload h + 1)) as [ulen|];
    cbn [mbind option_bind] in H; [|discriminate].
  destruct (_ && _); [|discriminate].
  destruct (Kernel.load8 frame (Kernel.payload h + 2 + ulen)) as [plen|];
    cbn [mbind option_bind] in H; [|discriminate].
  destruct (_ && _); [|discriminate].
  destruct (Kernel.load_be32 frame (Kernel.ip_off h + 12)) as [saddr|];
    cbn [mbind option_bind] in H; [|discriminate].
  destruct (Kernel.load_be32 frame (Kernel.ip_off h + 16)) as [daddr|];
    cbn [mbind option_bind] in H; [|discriminate].
  destruct (Kernel.load_be16 frame (Kernel.tcp_off h)) as [sport|];
    cbn [mbind option_bind] in H; [|discriminate].
  destruct (Kernel.copy_field frame (Kernel.payload h + 2) ulen) as [ub|] eqn:Eu;
    cbn [mbind option_bind] in H; [|discriminate].
  destruct (Kernel.copy_field frame (Kernel.payload h + 2 + ulen + 1) plen)
    as [pb|] eqn:Ep; cbn [mbind option_bind] in H; [|discriminate].
  injection H as <-. simpl. done.
Qed.

(** The copy loop on an array whose tail is still zero. *)
Lemma copy_loop_layout frame src n :
  0 ≤ src → 0 ≤ n ≤ 63 → src + n ≤ len frame →
  ∀ k i, 0 ≤ i ≤ n → Z.of_nat k = 63 - i →
    Kernel.copy_loop k i frame src n
      (take (Z.to_nat i) (drop (Z.to_nat src) frame) ++ replicate (Z.to_nat (64 - i)) x00)
    = Some (n, take (Z.to_nat n) (drop (Z.to_nat src) frame)
               ++ replicate (Z.to_nat (64 - n)) x00).
Proof.
  intros Hsrc Hn Hfit. induction k as [|k IH]; intros i Hi Hk.
  - assert (i = n) as -> by lia. done.
  - simpl. destruct (Z.ltb_spec i n); simpl; [|by assert (i = n) as -> by lia].
    destruct (Z.ltb_spec i 63); [|lia].
    destruct (Z.ltb_spec (len frame) (src + i + 1)); [lia|].
    destruct (index_lookup frame (src + i)) as [b Eb]; [lia|].
    rewrite Eb. simpl.
    assert (Hlt : length (take (Z.to_nat i) (drop (Z.to_nat src) frame)) = Z.to_nat i).
    { rewrite length_take, length_drop. unfold len in *. lia. }
    rewrite store_eq.
    2:{ unfold len in *. rewrite length_app, length_replicate, Hlt. lia. }
    simpl.
    replace (<[Z.to_nat i:=b]>
               (take (Z.to_nat i) (drop (Z.to_nat src) frame)
                ++ replicate (Z.to_nat (64 - i)) x00))
      with (take (Z.to_nat (i + 1)) (drop (Z.to_nat src) frame)
            ++ replicate (Z.to_nat (64 - (i + 1))) x00).
    { apply IH; lia. }
    replace (Z.to_nat (64 - i)) with (S (Z.to_nat (64 - (i + 1)))) by lia.
    rewrite replicate_S.
    rewrite insert_app_r_alt by lia. rewrite Hlt, Nat.sub_diag. simpl.
    replace (Z.to_nat (i + 1)) with (S (Z.to_nat i)) by lia.
    apply index_spec in Eb as [_ Eb].
    rewrite (take_S_r (drop (Z.to_nat src) frame) _ b).
    2:{ rewrite lookup_drop. rewrite <- Eb. f_equal. lia. }
    by rewrite <- app_assoc.
Qed.

Lemma copy_field_layout frame src n :
  0 ≤ src → 0 ≤ n ≤ 63 → src + n ≤ len frame →
  Kernel.copy_field frame src n
  = Some (take (Z.to_nat n) (drop (Z.to_nat src) frame)
          ++ replicate (Z.to_nat (64 - n)) x00).
Proof.
  intros Hsrc Hn Hfit. unfold Kernel.copy_field.
  pose proof (copy_loop_layout frame src n Hsrc Hn Hfit 63%nat 0) as H.
  change (Z.to_nat 0) with 0%nat in H. rewrite take_0 in H.
  change (Z.to_nat (64 - 0)) with 64%nat in H. cbn [app] in H.
  rewrite H by lia. cbn [mbind option_bind].
  assert (Hlt : length (take (Z.to_nat n) (drop (Z.to_nat src) frame)) = Z.to_nat n).
  { rewrite length_take, length_drop. unfold len in *. lia. }
  rewrite store_eq.
  2:{ unfold len in *. rewrite length_app, length_replicate, Hlt. lia. }
  f_equal. apply list_insert_id.
  rewrite lookup_app_r by lia. rewrite Hlt.
  apply lookup_replicate_2. lia.
Qed.

Lemma load8_index frame off v :
  Kernel.load8 frame off = Some v → ∃ b, index frame off = Some b ∧ u8 b = v.
Proof.
  unfold Kernel.load8. destruct (index frame off) as [b|]; simpl; [|done].
  intros [= <-]. eauto.
Qed.

(** What an emitted event says about the frame it was read from. *)
Lemma event_frame env frame h e :
  Kernel.classify frame = Some (Kernel.Matching h) →
  Kernel.extract env frame h = Some (Some e) →
  ∃ ul pl rest,
    drop (Z.to_nat (Kernel.payload h)) frame
    = auth_frame ul (Kernel.event_username e) pl (Kernel.event_password e) rest ∧
    u8 ul = Kernel.username_len e ∧ u8 pl = Kernel.password_len e ∧
    len (Kernel.event_username e) = Kernel.username_len e ∧
    len (Kernel.event_password e) = Kernel.password_len e ∧
    1 ≤ Kernel.username_len e ≤ 63 ∧ 1 ≤ Kernel.password_len e ≤ 63.
Proof.
  intros Hc He.
  destruct (classify_Matching frame h Hc)
    as (_ & Hpl3 & Hplen & _ & Hip & Hipfit & Htcp & Htcpfit & Hpay).
  destruct (extract_event_valid env frame h e He) as (H0 & H1 & H2 & Hu & Hp & Hfit).
  apply load8_index in H0 as (b0 & E0 & Hb0).
  apply load8_index in H1 as (b1 & E1 & Hb1).
  rewrite <- Hb1 in H2.
  apply load8_index in H2 as (bp & E2 & Hbp).
  assert (b0 = x01) as -> by (apply u8_inj; rewrite Hb0; reflexivity).
  destruct (frame_at_offset frame (Kernel.payload h) b1 bp)
    as (pre & uname & passwd & rest & Hframe & Hpre & Hlu & Hlp);
    [lia | done | done | done | lia |].
  assert (Hdrop : drop (Z.to_nat (Kernel.payload h)) frame
                  = auth_frame b1 uname bp passwd rest).
  { rewrite Hframe. apply drop_app_length'. unfold len in Hpre. lia. }
  destruct (extract_auth_frame env frame h b1 uname bp passwd rest)
    as (e' & He' & Hun & Hpw & _); [done | done | lia | lia | lia | lia |].
  rewrite He in He'. injection He' as <-.
  exists b1, bp, rest. rewrite Hun, Hpw. repeat split; try done; lia.
Qed.

(** X16. The monitor emits an event only for a frame that passed every test
    of the header walk and of the extractor: the destination port is one of
    the six proxy ports, the TCP payload is 01 ULEN uname PLEN passwd with
    both lengths in 1..63, and the first ULEN and PLEN bytes of the event's
    arrays are exactly uname and passwd. *)
Theorem kernel_event_only_for_checked_frame env frame e :
  Kernel.container_traffic_monitor env frame = Some (Some e) →
  ∃ h ul pl rest,
    Kernel.classify frame = Some (Kernel.Matching h) ∧
    In (Kernel.dst_port e) Kernel.socks_ports ∧
    drop (Z.to_nat (Kernel.payload h)) frame
    = auth_frame ul (Kernel.event_username e) pl (Kernel.event_password e) rest ∧
    u8 ul = Kernel.username_len e ∧ u8 pl = Kernel.password_len e ∧
    len (Kernel.event_username e) = Kernel.username_len e ∧
    len (Kernel.event_password e) = Kernel.password_len e ∧
    1 ≤ Kernel.username_len e ≤ 63 ∧ 1 ≤ Kernel.password_len e ≤ 63.
Proof.
  unfold Kernel.container_traffic_monitor. intros H.
  destruct (Kernel.classify frame) as [v|] eqn:Hc; [|done].
  cbn [mbind option_bind] in H. destruct v; try done.
  destruct (event_frame env frame h e Hc H) as (ul & pl & rest & Hd & Hrest).
  destruct (classify_Matching frame h Hc) as (Hport & _).
  destruct (extract_event_fields env frame h e H) as (_ & _ & _ & Hdp & _).
  exists h, ul, pl, rest. rewrite Hdp. done.
Qed.

(** X17. The two arrays of an emitted event are 64 bytes long and hold the
    field followed by zero bytes only: nothing of the frame beyond the
    declared length is copied. *)
Theorem kernel_event_arrays_are_zero_padded env frame e :
  Kernel.container_traffic_monitor env frame = Some (Some e) →
  Kernel.username e
  = Kernel.event_username e ++ replicate (Z.to_nat (64 - Kernel.username_len e)) x00 ∧
  Kernel.password e
  = Kernel.event_password e ++ replicate (Z.to_nat (64 - Kernel.password_len e)) x00 ∧
  len (Kernel.username e) = 64 ∧ len (Kernel.password e) = 64.
Proof.
  unfold Kernel.container_traffic_monitor. intros H.
  destruct (Kernel.classify frame) as [v|] eqn:Hc; [|done].
  cbn [mbind option_bind] in H. destruct v; try done.
  destruct (classify_Matching frame h Hc)
    as (_ & Hpl3 & Hplen & _ & Hip & Hipfit & Htcp & Htcpfit & Hpay).
  destruct (extract_event_valid env frame h e H) as (_ & _ & _ & Hu & Hp & Hfit).
  destruct (extract_event_fields env frame h e H)
    as (_ & _ & _ & _ & Hcu & Hcp & _).
  rewrite copy_field_layout in Hcu by lia.
  rewrite copy_field_layout in Hcp by lia.
  injection Hcu as Hcu. injection Hcp as Hcp.
  assert (Hlu : length (take (Z.to_nat (Kernel.username_len e))
                          (drop (Z.to_nat (Kernel.payload h + 2)) frame))
                = Z.to_nat (Kernel.username_len e)).
  { rewrite length_take, length_drop. unfold len in *. lia. }
  assert (Hlp : length (take (Z.to_nat (Kernel.password_len e))
                          (drop (Z.to_nat (Kernel.payload h + 2
                                           + Kernel.username_len e + 1)) frame))
                = Z.to_nat (Kernel.password_len e)).
  { rewrite length_take, length_drop. unfold len in *. lia. }
  unfold Kernel.event_username, Kernel.event_password.
  rewrite <- Hcu, <- Hcp.
  rewrite !take_app_length' by done.
  repeat split; try done.
  - unfold len. rewrite length_app, length_replicate, Hlu. lia.
  - unfold len. rewrite length_app, length_replicate, Hlp. lia.
Qed.

(** Witness of X16: the bob/xyz frame to port 1080. *)
Lemma kernel_event_only_for_checked_frame_bob :
  ∃ h ul pl rest,
    Kernel.classify (tcp_frame 1080 bob_frame) = Some (Kernel.Matching h) ∧
    In (Kernel.dst_port bob_event) Kernel.socks_ports ∧
    drop (Z.to_nat (Kernel.payload h)) (tcp_frame 1080 bob_frame)
    = auth_frame ul (Kernel.event_username bob_event) pl
        (Kernel.event_password bob_event) rest ∧
    u8 ul = Kernel.username_len bob_event ∧ u8 pl = Kernel.password_len bob_event ∧
    len (Kernel.event_username bob_event) = Kernel.username_len bob_event ∧
    len (Kernel.event_password bob_event) = Kernel.password_len bob_event ∧
    1 ≤ Kernel.username_len bob_event ≤ 63 ∧ 1 ≤ Kernel.password_len bob_event ≤ 63.
Proof.
  apply (kernel_event_only_for_checked_frame env0 (tcp_frame 1080 bob_frame) bob_event).
  reflexivity.
Defined.

(** Witness of X17: the arrays of the bob/xyz event. *)
Lemma kernel_event_arrays_are_zero_padded_bob :
  Kernel.username bob_event
  = Kernel.event_username bob_event
    ++ replicate (Z.to_nat (64 - Kernel.username_len bob_event)) x00 ∧
  Kernel.password bob_event
  = Kernel.event_password bob_event
    ++ replicate (Z.to_nat (64 - Kernel.password_len bob_event)) x00 ∧
  len (Kernel.username bob_event) = 64 ∧ len (Kernel.password bob_event) = 64.
Proof.
  apply (kernel_event_arrays_are_zero_padded env0 (tcp_frame 1080 bob_frame) bob_event).
  reflexivity.
Defined.

(** Bits below [n] of a multiple of [2^n] are clear. *)
Lemma land_shifted (k y n : Z) : 0 ≤ n → 0 ≤ y < 2 ^ n → Z.land (k * 2 ^ n) y = 0.
Proof.
  intros Hn Hy. apply Z.bits_inj'. intros m Hm.
  rewrite Z.land_spec, Z.bits_0.
  destruct (Z.lt_ge_cases m n).
  - by rewrite Z.mul_pow2_bits_low by lia.
  - destruct (Z.eq_dec y 0) as [->|]; [by rewrite Z.bits_0, andb_false_r|].
    rewrite (Z.bits_above_log2 y m); [by rewrite andb_false_r | lia |].
    apply Z.lt_le_trans with n; [apply Z.log2_lt_pow2; lia | lia].
Qed.

Lemma lor_shifted (k y n : Z) :
  0 ≤ n → 0 ≤ y < 2 ^ n → Z.lor (k * 2 ^ n) y = k * 2 ^ n + y.
Proof.
  intros Hn Hy. rewrite <- Z.add_lor_land. rewrite land_shifted by done. lia.
Qed.

(** The session key as a number. *)
Lemma session_key_sum (e : Kernel.socks5_auth_event) :
  0 ≤ Kernel.src_ip e < 2 ^ 32 → 0 ≤ Kernel.src_port e < 65536 →
  0 ≤ Kernel.dst_port e < 65536 →
  Kernel.session_key e
  = Kernel.src_ip e * 2 ^ 32 + Kernel.src_port e * 2 ^ 16 + Kernel.dst_port e.
Proof.
  intros Ha Hb Hc. unfold Kernel.session_key.
  rewrite !Z.shiftl_mul_pow2 by lia.
  rewrite Z.mod_small by lia.
  rewrite (lor_shifted (Kernel.src_ip e) (Kernel.src_port e * 2 ^ 16) 32) by lia.
  replace (Kernel.src_ip e * 2 ^ 32 + Kernel.src_port e * 2 ^ 16)
    with ((Kernel.src_ip e * 2 ^ 16 + Kernel.src_port e) * 2 ^ 16) by lia.
  rewrite lor_shifted by lia. lia.
Qed.

Lemma socks_ports_range p : In p Kernel.socks_ports → 0 ≤ p < 65536.
Proof. unfold Kernel.socks_ports. simpl. lia. Qed.

Lemma event_ranges env frame e :
  Kernel.container_traffic_monitor env frame = Some (Some e) →
  0 ≤ Kernel.src_ip e < 2 ^ 32 ∧ 0 ≤ Kernel.dst_ip e < 2 ^ 32 ∧
  0 ≤ Kernel.src_port e < 65536 ∧ 0 ≤ Kernel.dst_port e < 65536.
Proof.
  unfold Kernel.container_traffic_monitor. intros H.
  destruct (Kernel.classify frame) as [v|] eqn:Hc; [|done].
  cbn [mbind option_bind] in H. destruct v; try done.
  destruct (classify_Matching frame h Hc) as (Hport & _).
  destruct (extract_event_fields env frame h e H) as (Hs & Hd & Hsp & Hdp & _).
  apply load_be32_range in Hs, Hd. apply load_be16_range in Hsp.
  apply socks_ports_range in Hport. rewrite Hdp. lia.
Qed.

(** X18. The key under which an event is stored in the session cache
    packs the source address, the source port and the destination port
    without loss: each can be read back from the key, so two emitted events
    share a key exactly when they agree on these three; the destination
    address plays no part. *)
Theorem kernel_session_key_is_source_and_port env1 frame1 e1 env2 frame2 e2 :
  Kernel.container_traffic_monitor env1 frame1 = Some (Some e1) →
  Kernel.container_traffic_monitor env2 frame2 = Some (Some e2) →
  Z.shiftr (Kernel.session_key e1) 32 = Kernel.src_ip e1 ∧
  Z.land (Z.shiftr (Kernel.session_key e1) 16) 65535 = Kernel.src_port e1 ∧
  Z.land (Kernel.session_key e1) 65535 = Kernel.dst_port e1 ∧
  (Kernel.session_key e1 = Kernel.session_key e2 ↔
   Kernel.src_ip e1 = Kernel.src_ip e2 ∧ Kernel.src_port e1 = Kernel.src_port e2 ∧
   Kernel.dst_port e1 = Kernel.dst_port e2).
Proof.
  intros H1 H2.
  destruct (event_ranges env1 frame1 e1 H1) as (Ha1 & _ & Hb1 & Hc1).
  destruct (event_ranges env2 frame2 e2 H2) as (Ha2 & _ & Hb2 & Hc2).
  rewrite !session_key_sum by done.
  change 65535 with (Z.ones 16). rewrite !Z.land_ones by lia.
  rewrite !Z.shiftr_div_pow2 by lia.
  change (2 ^ 32) with 4294967296 in *. change (2 ^ 16) with 65536 in *.
  repeat split.
  - Z.div_mod_to_equations. lia.
  - Z.div_mod_to_equations. lia.
  - Z.div_mod_to_equations. lia.
  - lia.
  - lia.
  - lia.
  - intros (-> & -> & ->). done.
Qed.

(** Witness of X18: the bob/xyz frame to port 1080 and to port 8080. *)
Lemma kernel_session_key_is_source_and_port_bob :
  Z.shiftr (Kernel.session_key bob_event) 32 = Kernel.src_ip bob_event ∧
  Z.land (Z.shiftr (Kernel.session_key bob_event) 16) 65535
  = Kernel.src_port bob_event ∧
  Z.land (Kernel.session_key bob_event) 65535 = Kernel.dst_port bob_event ∧
  (Kernel.session_key bob_event = Kernel.session_key bob_event_8080 ↔
   Kernel.src_ip bob_event = Kernel.src_ip bob_event_8080 ∧
   Kernel.src_port bob_event = Kernel.src_port bob_event_8080 ∧
   Kernel.dst_port bob_event = Kernel.dst_port bob_event_8080).
Proof.
  apply (kernel_session_key_is_source_and_port
           env0 (tcp_frame 1080 bob_frame) bob_event
           env0 (tcp_frame 8080 bob_frame) bob_event_8080);
    reflexivity.
Defined.

(** X19. On every frame for which the kernel monitor emits an event, the
    user-space engine, given the TCP payload of that frame as the first
    fragment of a connection to the same port, stores the same username and
    the same password and marks the session authenticated. *)
Theorem user_space_agrees_with_kernel_event
    (clock : nat → Z) env frame h e srcIP dstIP srcPort w :
  Kernel.classify frame = Some (Kernel.Matching h) →
  Kernel.container_traffic_monitor env frame = Some (Some e) →
  buffer_at w (sessionKeyOf srcIP dstIP srcPort (Kernel.dst_port e)) = None →
  ∃ w' s,
    AnalyzePacket clock (drop (Z.to_nat (Kernel.payload h)) frame)
      srcIP dstIP srcPort (Kernel.dst_port e) w = Some (tt, w') ∧
    session_at w' (sessionKeyOf srcIP dstIP srcPort (Kernel.dst_port e)) = Some s ∧
    Username s = string_of_list_byte (Kernel.event_username e) ∧
    Password s = string_of_list_byte (Kernel.event_password e) ∧
    Status s = status_authenticated.
Proof.
  intros Hc H Hfresh.
  assert (He : Kernel.extract env frame h = Some (Some e)).
  { unfold Kernel.container_traffic_monitor in H. by rewrite Hc in H. }
  destruct (event_frame env frame h e Hc He)
    as (ul & pl & rest & Hd & Hu & Hp & Hlu & Hlp & _).
  rewrite Hd.
  destruct (AnalyzePacket_auth_frame clock ul (Kernel.event_username e) pl
              (Kernel.event_password e) rest srcIP dstIP srcPort (Kernel.dst_port e) w)
    as (w' & Hrun & Hs & _); [lia | lia | done |].
  eexists w', _. split; [exact Hrun|]. split; [exact Hs|]. done.
Qed.

(** Witness of X19: the bob/xyz frame on a new monitor. *)
Lemma user_space_agrees_with_kernel_event_bob :
  ∃ w' s,
    AnalyzePacket clk (drop 54 (tcp_frame 1080 bob_frame))
      "10.0.0.1" "10.0.0.2" 49152 1080 (fresh 7 0) = Some (tt, w') ∧
    session_at w' "10.0.0.1:49152->10.0.0.2:1080" = Some s ∧
    Username s = "bob" ∧ Password s = "xyz" ∧ Status s = status_authenticated.
Proof.
  apply (user_space_agrees_with_kernel_event clk env0 (tcp_frame 1080 bob_frame)
           {| Kernel.ip_off := 14; Kernel.tcp_off := 34; Kernel.h_dst_port := 1080;
              Kernel.payload := 54; Kernel.payload_len := 9 |}
           bob_event "10.0.0.1" "10.0.0.2" 49152 (fresh 7 0));
    reflexivity.
Defined.

(** Witness of X2: an HTTP request to port 80 is ignored; the same bytes
    sent to port 1080 are buffered. *)
Lemma AnalyzePacket_filters_traffic_http :
  (∃ w', AnalyzePacket clk [x47; x45; x54] "10.0.0.1" "10.0.0.2" 49152 80 (fresh 7 0)
         = Some (tt, w') ∧ w' = fresh 7 0) ∧
  (∃ w', AnalyzePacket clk [x47; x45; x54] "10.0.0.1" "10.0.0.2" 49152 1080 (fresh 7 0)
         = Some (tt, w') ∧
         buffer_at w' "10.0.0.1:49152->10.0.0.2:1080" = Some [x47; x45; x54]).
Proof.
  split.
  - destruct (AnalyzePacket_filters_traffic clk [x47; x45; x54]
                "10.0.0.1" "10.0.0.2" 49152 80 (fresh 7 0)) as (w' & Hrun & _ & Hrej).
    exists w'. split; [exact Hrun|]. apply Hrej.
    intros [Hp|[(b & r & Hd)|(r & Hd)]]; [|discriminate..].
    unfold socksports in Hp. simpl in Hp. lia.
  - destruct (AnalyzePacket_filters_traffic clk [x47; x45; x54]
                "10.0.0.1" "10.0.0.2" 49152 1080 (fresh 7 0)) as (w' & Hrun & Hacc & _).
    exists w'. split; [exact Hrun|]. apply Hacc.
    left. unfold socksports. simpl. tauto.
Defined.

(** Witness of X13: a request for 10.0.0.2:443, whole and cut after nine
    bytes. *)
Lemma connect_request_ipv4_is_parsed_example :
  handleConnectRequest clk blank (ipv4_request x01 x00 x0a x00 x00 x02 x01 xbb [])
    (fresh 7 0)
  = Some (set_target blank "10.0.0.2" 443 (clk 0), ticked (fresh 7 0)) ∧
  handleConnectRequest clk blank
    (take 9 (ipv4_request x01 x00 x0a x00 x00 x02 x01 xbb [])) (fresh 7 0)
  = Some (blank, fresh 7 0).
Proof.
  destruct (connect_request_ipv4_is_parsed clk blank x01 x00 x0a x00 x00 x02 x01 xbb []
              (fresh 7 0)) as [H1 H2].
  split; [exact H1 | apply (H2 9%nat); lia].
Defined.
